(** * VXLAN validation suite: parsing and rule engine

    A shallow embedding of the parsing and validation code of the pyATS
    VXLAN test suite: the modular architecture ([vxlan_config.py],
    [vxlan_utils.py], [vxlan_validators.py], [base_test.py],
    [enhanced_vxlan_testsuite.py]), the peer and counter loops of the
    monolithic [improved_pyats_vxlan_testsuite.py], and the counter loop
    of [tests/health.py]; followed by the properties of the rule engine
    that the specification states.

    Conventions.  Python [str] is [string]; command output is taken to be
    ASCII text, so the character classes of [re] and [str.lower] are the
    ASCII ones and characters above 127 belong to no class.  Python [int]
    is [Z], [float] is the primitive binary64 [float].  A [dict] keyed by
    device or test name is a [gmap]; a [dict] whose insertion order is
    visible (the [details] of a result) is an association list.  Code that
    may raise returns [Py.result]; a [try] with [except Exception] is
    [Validators.try_except]. *)

From Stdlib Require Import ZArith List String Ascii Lia Bool.
From Stdlib Require Import Floats.
From stdpp Require Import base option list strings gmap pretty.

Open Scope Z_scope.

(** ** Python built-ins used by the suite *)

Module Py.

(** Exceptions.  [VXLANTestException] stands for the class of
    [vxlan_exceptions.py] and its subclasses ([cls] is the subclass
    name); every other [Exception] is [Exception cls text], where [text]
    is what [str(e)] gives. *)
Inductive exn : Type :=
| VXLANTestException (cls message : string) (device command : option string)
| Exception (cls text : string).

Inductive result (A : Type) : Type :=
| Ok (x : A)
| Raise (e : exn).
Arguments Ok {A} x.
Arguments Raise {A} e.

Definition bind {A B : Type} (r : result A) (k : A -> result B) : result B :=
  match r with
  | Ok x => k x
  | Raise e => Raise e
  end.

(** Truthiness of an optional string ([None] and [''] are falsy). *)
Definition truthy (o : option string) : option string :=
  match o with
  | Some s => if String.eqb s "" then None else Some s
  | None => None
  end.

(** [VXLANTestException.__str__] (the exceptions raised in the modelled
    code carry no [details]). *)
Definition str_exn (e : exn) : string :=
  match e with
  | VXLANTestException _ message device command =>
      message
      +:+ match truthy device with
          | Some d => " (Device: " +:+ d +:+ ")"
          | None => ""
          end
      +:+ match truthy command with
          | Some c => " (Command: " +:+ c +:+ ")"
          | None => ""
          end
  | Exception _ text => text
  end.

Definition type_name (e : exn) : string :=
  match e with
  | VXLANTestException cls _ _ _ => cls
  | Exception cls _ => cls
  end.

Definition is_vxlan_exception (e : exn) : bool :=
  match e with
  | VXLANTestException _ _ _ _ => true
  | Exception _ _ => false
  end.

(** *** Characters and strings *)

Definition code (c : ascii) : nat := nat_of_ascii c.

Definition between (lo hi : nat) (c : ascii) : bool :=
  (Nat.leb lo (code c)) && (Nat.leb (code c) hi).

Definition is_digit (c : ascii) : bool := between 48 57 c.
Definition is_upper (c : ascii) : bool := between 65 90 c.
Definition is_lower (c : ascii) : bool := between 97 122 c.
(** [\w] *)
Definition is_word (c : ascii) : bool :=
  is_digit c || is_upper c || is_lower c || Nat.eqb (code c) 95.
(** [\s], and the characters [str.strip] removes *)
Definition is_space (c : ascii) : bool :=
  between 9 13 c || between 28 32 c.

Definition lower_char (c : ascii) : ascii :=
  if is_upper c then ascii_of_nat (code c + 32) else c.

(** [s.lower()] *)
Fixpoint lower (s : string) : string :=
  match s with
  | EmptyString => EmptyString
  | String c s' => String (lower_char c) (lower s')
  end.

(** [sub in s] *)
Fixpoint contains (sub s : string) : bool :=
  String.prefix sub s
  || match s with
     | EmptyString => false
     | String _ s' => contains sub s'
     end.

(** [s.split(sep)] for a one-character separator *)
Fixpoint split (sep : ascii) (s : string) : list string :=
  match s with
  | EmptyString => [EmptyString]
  | String c s' =>
      if Ascii.eqb c sep then EmptyString :: split sep s'
      else match split sep s' with
           | [] => [String c EmptyString]
           | w :: ws => String c w :: ws
           end
  end.

Definition newline : ascii := ascii_of_nat 10.
Definition nl : string := String newline EmptyString.

Fixpoint lstrip (s : string) : string :=
  match s with
  | EmptyString => EmptyString
  | String c s' => if is_space c then lstrip s' else s
  end.

Definition rev_string (s : string) : string :=
  string_of_list_ascii (rev (list_ascii_of_string s)).

(** [s.strip()] *)
Definition strip (s : string) : string :=
  rev_string (lstrip (rev_string (lstrip s))).

(** [s.count(sub)]: non-overlapping occurrences, scanned left to right;
    [skip] is the number of characters still covered by the last hit. *)
Fixpoint count_from (sub s : string) (skip : nat) : nat :=
  match s with
  | EmptyString => 0
  | String _ s' =>
      match skip with
      | S k => count_from sub s' k
      | O =>
          if String.prefix sub s
          then S (count_from sub s' (String.length sub - 1))
          else count_from sub s' 0
      end
  end.

Definition count (sub s : string) : nat :=
  if String.eqb sub "" then S (String.length s) else count_from sub s 0.

(** The number that a string of decimal digits denotes *)
Definition digits_value (s : string) : Z :=
  fold_left (fun acc c => 10 * acc + Z.of_nat (code c - 48))
            (list_ascii_of_string s) 0.

(** [sys.get_int_max_str_digits()], as Python sets it *)
Definition max_str_digits : nat := 4300.

(** [int(s)] for a string of decimal digits: a string of more digits
    than the limit, leading zeros counted, raises [ValueError] *)
Definition int_of_digits (s : string) : result Z :=
  if Nat.ltb max_str_digits (String.length s)
  then Raise (Exception "ValueError"
                ("Exceeds the limit (" +:+ pretty max_str_digits
                 +:+ " digits) for integer string conversion: value has "
                 +:+ pretty (String.length s)
                 +:+ " digits; use sys.set_int_max_str_digits() to increase the limit"))
  else Ok (digits_value s).

(** [for x in l: acc = body(acc, x)], left as soon as the body raises *)
Fixpoint loop {A B : Type} (body : A -> B -> result A) (l : list B) (acc : A)
  : result A :=
  match l with
  | [] => Ok acc
  | x :: l' => bind (body acc x) (loop body l')
  end.

(** [str(n)] *)
Definition str_int (n : Z) : string := pretty n.

(** [', '.join(l)] and the like *)
Fixpoint join (sep : string) (l : list string) : string :=
  match l with
  | [] => ""
  | [x] => x
  | x :: l' => x +:+ sep +:+ join sep l'
  end.

(** [repr] of a list of strings that hold no quote, backslash or
    control character (addresses matched by the IP patterns) *)
Definition repr_str_list (l : list string) : string :=
  "[" +:+ join ", " (map (fun s => "'" +:+ s +:+ "'") l) +:+ "]".

End Py.

(** ** Python floats

    [int / int], [float(str)], [repr(float)] and [format(x, '.1f')] are
    all correctly rounded in CPython; they are computed here on the exact
    value with integer arithmetic and rounded once by [SFdiv]. *)

Module PyFloat.

Definition SF_of_Z (z : Z) : spec_float :=
  match z with
  | Z0 => S754_zero false
  | Zpos p => S754_finite false p 0
  | Zneg p => S754_finite true p 0
  end.

(** The binary64 value nearest to [a / b] ([b] not zero). *)
Definition SF_quotient (a b : Z) : spec_float :=
  SFdiv prec emax (SF_of_Z a) (SF_of_Z b).

(** Quotients of this magnitude or more round to infinity:
    [2^1024 - 2^970], half an ulp above the largest float. *)
Definition overflow_bound : Z := (2 ^ 54 - 1) * 2 ^ 970.

(** [a / b] on two [int]s *)
Definition truediv (a b : Z) : Py.result float :=
  if b =? 0 then Py.Raise (Py.Exception "ZeroDivisionError" "division by zero")
  else if overflow_bound * Z.abs b <=? Z.abs a
  then Py.Raise (Py.Exception "OverflowError"
                   "integer division result too large for a float")
  else Py.Ok (SF2Prim (SF_quotient a b)).

(** [float(s)] for [s] of the shape [\d+\.\d+] *)
Definition float_of_decimal (int_part frac_part : string) : float :=
  SF2Prim (SF_quotient (Py.digits_value (int_part +:+ frac_part))
                       (10 ^ Z.of_nat (String.length frac_part))).

Definition float_of_string (s : string) : float :=
  match Py.split "." s with
  | [i; f] => float_of_decimal i f
  | _ => nan
  end.

(** Comparisons of a float with another number *)
Definition ge (x y : float) : bool := PrimFloat.leb y x.
Definition lt (x y : float) : bool := PrimFloat.ltb x y.

(** *** Rendering *)

Definition sign_str (s : bool) : string := if s then "-" else "".

(** [round-half-even (num / den)] for positive [den] *)
Definition round_half_even (num den : Z) : Z :=
  let q := num / den in
  let r := num mod den in
  match (2 * r) ?= den with
  | Lt => q
  | Gt => q + 1
  | Eq => if Z.even q then q else q + 1
  end.

(** The value [m * 2^e] as a fraction *)
Definition fraction (m : positive) (e : Z) : Z * Z :=
  if 0 <=? e then (Zpos m * 2 ^ e, 1) else (Zpos m, 2 ^ (- e)).

(** [format(x, '.1f')] *)
Definition format_1f (x : float) : string :=
  match Prim2SF x with
  | S754_nan => "nan"
  | S754_infinity s => sign_str s +:+ "inf"
  | S754_zero s => sign_str s +:+ "0.0"
  | S754_finite s m e =>
      let '(num, den) := fraction m e in
      let t := round_half_even (10 * num) den in
      sign_str s +:+ pretty (t / 10) +:+ "." +:+ pretty (t mod 10)
  end.

(** [v < 10^d] for [v = num / den] *)
Definition lt_pow10 (num den d : Z) : bool :=
  if 0 <=? d then num <? den * 10 ^ d else num * 10 ^ (- d) <? den.

Fixpoint raise_decpt (fuel : nat) (num den d : Z) : Z :=
  match fuel with
  | O => d
  | S f => if lt_pow10 num den d then d else raise_decpt f num den (d + 1)
  end.

Fixpoint lower_decpt (fuel : nat) (num den d : Z) : Z :=
  match fuel with
  | O => d
  | S f => if lt_pow10 num den (d - 1) then lower_decpt f num den (d - 1) else d
  end.

(** The least [d] with [v < 10^d]; the estimate from the bit length is
    off by at most two. *)
Definition decpt (m : positive) (e : Z) : Z :=
  let '(num, den) := fraction m e in
  let d0 := ((Zdigits2 (Zpos m) + e) * 30103) / 100000 in
  lower_decpt 8 num den (raise_decpt 8 num den d0).

(** [floor (v / 10^x)] *)
Definition scaled_floor (num den x : Z) : Z :=
  if 0 <=? x then num / (den * 10 ^ x) else (num * 10 ^ (- x)) / den.

(** The float nearest to [d * 10^x] *)
Definition SF_of_decimal (d x : Z) : spec_float :=
  if 0 <=? x then SF_quotient (d * 10 ^ x) 1 else SF_quotient d (10 ^ (- x)).

Definition reads_back (m : positive) (e : Z) (d x : Z) : bool :=
  match SF_of_decimal d x with
  | S754_finite false m' e' => Pos.eqb m m' && (e =? e')
  | _ => false
  end.

(** Is [lo * 10^x] at least as near to [v] as [(lo+1) * 10^x]?  On a
    tie the even digit string wins. *)
Definition lo_is_nearer (num den lo x : Z) : bool :=
  let c := if 0 <=? x
           then (2 * num) ?= (2 * lo + 1) * 10 ^ x * den
           else (2 * num * 10 ^ (- x)) ?= (2 * lo + 1) * den in
  match c with
  | Lt => true
  | Gt => false
  | Eq => Z.even lo
  end.

(** With [n] digits: the decimal next to [v] that reads back as the
    same float, if there is one. *)
Definition candidate (m : positive) (e : Z) (dp : Z) (n : Z) : option (Z * Z) :=
  let '(num, den) := fraction m e in
  let x := dp - n in
  let lo := scaled_floor num den x in
  let hi := lo + 1 in
  match reads_back m e lo x, reads_back m e hi x with
  | true, false => Some (lo, x)
  | false, true => Some (hi, x)
  | true, true => if lo_is_nearer num den lo x then Some (lo, x) else Some (hi, x)
  | false, false => None
  end.

Fixpoint shortest_from (fuel : nat) (m : positive) (e dp n : Z) : Z * Z :=
  match fuel with
  | O =>
      let '(num, den) := fraction m e in
      let lo := scaled_floor num den (dp - n) in
      if lo_is_nearer num den lo (dp - n) then (lo, dp - n) else (lo + 1, dp - n)
  | S f =>
      match candidate m e dp n with
      | Some r => r
      | None => shortest_from f m e dp (n + 1)
      end
  end.

Fixpoint drop_zeros (fuel : nat) (d x : Z) : Z * Z :=
  match fuel with
  | O => (d, x)
  | S f => if (d mod 10 =? 0) && negb (d =? 0) then drop_zeros f (d / 10) (x + 1) else (d, x)
  end.

(** Shortest digit string that reads back as the float, and its
    decimal exponent. *)
Definition shortest_digits (m : positive) (e : Z) : string * Z :=
  let '(d, x) := shortest_from 16 m e (decpt m e) 1 in
  let '(d', x') := drop_zeros 20 d x in
  let ds := pretty d' in
  (ds, Z.of_nat (String.length ds) + x').

Definition zeros (n : Z) : string :=
  string_of_list_ascii (repeat "0"%char (Z.to_nat n)).

Definition str_take (n : Z) (s : string) : string :=
  String.substring 0 (Z.to_nat n) s.
Definition str_drop (n : Z) (s : string) : string :=
  String.substring (Z.to_nat n) (String.length s - Z.to_nat n) s.

Definition exponent_str (x : Z) : string :=
  (if x <? 0 then "-" else "+")
  +:+ (if Z.abs x <? 10 then "0" else "") +:+ pretty (Z.abs x).

(** [repr(x)], which is also [str(x)] and what an f-string prints *)
Definition repr (x : float) : string :=
  match Prim2SF x with
  | S754_nan => "nan"
  | S754_infinity s => sign_str s +:+ "inf"
  | S754_zero s => sign_str s +:+ "0.0"
  | S754_finite s m e =>
      let '(ds, dp) := shortest_digits m e in
      let nd := Z.of_nat (String.length ds) in
      sign_str s
      +:+ (if (dp <=? -4) || (16 <? dp)
           then str_take 1 ds
                +:+ (if 1 <? nd then "." +:+ str_drop 1 ds else "")
                +:+ "e" +:+ exponent_str (dp - 1)
           else if dp <=? 0 then "0." +:+ zeros (- dp) +:+ ds
           else if nd <=? dp then ds +:+ zeros (dp - nd) +:+ ".0"
           else str_take dp ds +:+ "." +:+ str_drop dp ds)
  end.

End PyFloat.

(** ** Regular expressions

    The fragment of Python's [re] that the suite's patterns use, with
    the backtracking order of the original: greedy repetition, leftmost
    match, numbered groups. *)

Module Re.

Inductive regex : Type :=
| Eps
| Cls (p : ascii -> bool)        (* one character of a class *)
| Cat (r1 r2 : regex)
| Opt (r : regex)                (* r? *)
| Star (r : regex)               (* r*, the body never matches empty *)
| Grp (i : nat) (r : regex)      (* the i-th capturing group *)
| Bol                            (* ^ *)
| Wordb.                         (* \b *)

Definition Plus (r : regex) : regex := Cat r (Star r).

(** A literal string, compared exactly or ignoring case *)
Fixpoint Lit (s : string) : regex :=
  match s with
  | EmptyString => Eps
  | String c s' => Cat (Cls (Ascii.eqb c)) (Lit s')
  end.

Fixpoint LitI (s : string) : regex :=
  match s with
  | EmptyString => Eps
  | String c s' =>
      Cat (Cls (fun x => Ascii.eqb (Py.lower_char x) (Py.lower_char c))) (LitI s')
  end.

(** r{lo,lo+extra} *)
Fixpoint UpTo (extra : nat) (r : regex) : regex :=
  match extra with
  | O => Eps
  | S n => Opt (Cat r (UpTo n r))
  end.

Fixpoint Rep (lo extra : nat) (r : regex) : regex :=
  match lo with
  | O => UpTo extra r
  | S n => Cat r (Rep n extra r)
  end.

Definition digit : regex := Cls Py.is_digit.
Definition space : regex := Cls Py.is_space.
Definition word : regex := Cls Py.is_word.

(** Position of the matcher: the character before the cursor, the text
    after it, and the groups closed so far (latest first). *)
Record mstate : Type := MState {
  prev : option ascii;
  rest : list ascii;
  caps : list (nat * string)
}.

Definition is_word_opt (o : option ascii) : bool :=
  match o with
  | Some c => Py.is_word c
  | None => false
  end.

Fixpoint rmatch (r : regex) (st : mstate)
         (k : mstate -> option mstate) {struct r} : option mstate :=
  match r with
  | Eps => k st
  | Cls p =>
      match rest st with
      | c :: tl => if p c then k (MState (Some c) tl (caps st)) else None
      | [] => None
      end
  | Cat r1 r2 => rmatch r1 st (fun st1 => rmatch r2 st1 k)
  | Opt r1 =>
      match rmatch r1 st k with
      | Some res => Some res
      | None => k st
      end
  | Star r1 =>
      (fix loop (fuel : nat) (st0 : mstate) {struct fuel} : option mstate :=
         match fuel with
         | O => k st0
         | S f =>
             match rmatch r1 st0
                     (fun st1 =>
                        if Nat.ltb (length (rest st1)) (length (rest st0))
                        then loop f st1 else None) with
             | Some res => Some res
             | None => k st0
             end
         end) (length (rest st)) st
  | Grp i r1 =>
      rmatch r1 st
        (fun st1 =>
           let text := firstn (length (rest st) - length (rest st1))%nat (rest st) in
           k (MState (prev st1) (rest st1)
                     ((i, string_of_list_ascii text) :: caps st1)))
  | Bol =>
      match prev st with
      | None => k st
      | Some _ => None
      end
  | Wordb =>
      if xorb (is_word_opt (prev st)) (is_word_opt (head (rest st)))
      then k st else None
  end.

(** A match object: [group0] is [m.group()], [groups] the numbered
    groups, [after] the text behind the match and [last] the character
    before it. *)
Record rematch : Type := ReMatch {
  group0 : string;
  groups : list (nat * string);
  last : option ascii;
  after : list ascii
}.

Definition match_at (r : regex) (p : option ascii) (s : list ascii) : option rematch :=
  match rmatch r (MState p s []) Some with
  | Some st =>
      Some (ReMatch (string_of_list_ascii
                       (firstn (length s - length (rest st))%nat s))
                    (caps st) (prev st) (rest st))
  | None => None
  end.

Fixpoint search_from (r : regex) (p : option ascii) (s : list ascii) : option rematch :=
  match match_at r p s with
  | Some m => Some m
  | None =>
      match s with
      | [] => None
      | c :: tl => search_from r (Some c) tl
      end
  end.

(** [re.search(r, s)] *)
Definition search (r : regex) (s : string) : option rematch :=
  search_from r None (list_ascii_of_string s).

(** The truth value of what [re.search] returns *)
Definition found (o : option rematch) : bool :=
  match o with
  | Some _ => true
  | None => false
  end.

(** [m.group(i)] *)
Fixpoint assoc (i : nat) (l : list (nat * string)) : string :=
  match l with
  | [] => ""
  | (j, v) :: l' => if Nat.eqb i j then v else assoc i l'
  end.

Definition group (i : nat) (m : rematch) : string := assoc i (groups m).

(** [re.findall(r, s)] for a pattern that never matches empty: the
    matches, left to right, each search starting where the last match
    ended. *)
Fixpoint findall_from (fuel : nat) (r : regex) (p : option ascii)
         (s : list ascii) : list rematch :=
  match fuel with
  | O => []
  | S f =>
      match search_from r p s with
      | Some m =>
          if Nat.ltb (length (after m)) (length s)
          then m :: findall_from f r (last m) (after m)
          else [m]
      | None => []
      end
  end.

Definition findall (r : regex) (s : string) : list rematch :=
  findall_from (S (String.length s)) r None (list_ascii_of_string s).

End Re.

(** ** vxlan_config.py *)

Module Config.

Record VXLANThresholds : Type := {
  max_vni_count : Z;
  max_peer_count : Z;
  error_counter_threshold : Z;
  bgp_neighbor_timeout : Z;
  interface_up_timeout : Z
}.

Record VXLANCommands : Type := {
  show_version : string;
  show_feature : string;
  show_nve_interface : string;
  show_nve_peers : string;
  show_nve_vni : string;
  show_nve_vni_ingress : string;
  show_nve_multicast : string;
  show_bgp_evpn_summary : string;
  show_bgp_evpn_routes : string;
  show_mac_address_table : string;
  show_nve_counters : string;
  show_running_config : string
}.

Record VXLANConfig : Type := {
  thresholds : VXLANThresholds;
  commands : VXLANCommands
}.

Definition default_thresholds : VXLANThresholds := {|
  max_vni_count := 12000;
  max_peer_count := 500;
  error_counter_threshold := 100;
  bgp_neighbor_timeout := 300;
  interface_up_timeout := 60
|}.

Definition default_commands : VXLANCommands := {|
  show_version := "show version";
  show_feature := "show feature";
  show_nve_interface := "show interface nve1";
  show_nve_peers := "show nve peers";
  show_nve_vni := "show nve vni";
  show_nve_vni_ingress := "show nve vni ingress-replication";
  show_nve_multicast := "show nve multicast";
  show_bgp_evpn_summary := "show bgp l2vpn evpn summary";
  show_bgp_evpn_routes := "show bgp l2vpn evpn";
  show_mac_address_table := "show mac address-table";
  show_nve_counters := "show interface nve1 counters detailed";
  show_running_config := "show running-config"
|}.

(** [CONFIG] before any override from the environment *)
Definition CONFIG : VXLANConfig := {|
  thresholds := default_thresholds;
  commands := default_commands
|}.

(** [CONFIG] after [VXLAN_MAX_VNI_COUNT=n] in the environment *)
Definition with_max_vni_count (n : Z) (c : VXLANConfig) : VXLANConfig := {|
  thresholds := {|
    max_vni_count := n;
    max_peer_count := max_peer_count (thresholds c);
    error_counter_threshold := error_counter_threshold (thresholds c);
    bgp_neighbor_timeout := bgp_neighbor_timeout (thresholds c);
    interface_up_timeout := interface_up_timeout (thresholds c)
  |};
  commands := commands c
|}.

Import Re.

(** [REGEX_PATTERNS] *)
Definition dot : regex := Cls (Ascii.eqb ".").

(** [system:\s+version\s+(\d+\.\d+)] *)
Definition nxos_version : regex :=
  Cat (Lit "system:") (Cat (Plus space) (Cat (Lit "version") (Cat (Plus space)
    (Grp 1 (Cat (Plus digit) (Cat dot (Plus digit))))))).

(** [\b(?:[0-9]{1,3}\.){3}[0-9]{1,3}\b] *)
Definition ip_address : regex :=
  Cat Wordb (Cat (Rep 3 0 (Cat (Rep 1 2 digit) dot)) (Cat (Rep 1 2 digit) Wordb)).

(** [^\s*(\d+)] *)
Definition vni_number : regex :=
  Cat Bol (Cat (Star space) (Grp 1 (Plus digit))).

(** [VLAN:\s*(\d+)] *)
Definition vlan_number : regex :=
  Cat (Lit "VLAN:") (Cat (Star space) (Grp 1 (Plus digit))).

(** [VRF:\s*(\w+)] *)
Definition vrf_name : regex :=
  Cat (Lit "VRF:") (Cat (Star space) (Grp 1 (Plus word))).

(** [(\d+\.\d+\.\d+\.\d+)\s+\d+\s+\d+\s+\d+\s+\d+\s+(\w+)] *)
Definition bgp_neighbor_state : regex :=
  Cat (Grp 1 (Cat (Plus digit) (Cat dot (Cat (Plus digit) (Cat dot
         (Cat (Plus digit) (Cat dot (Plus digit))))))))
    (Cat (Plus space) (Cat (Plus digit)
    (Cat (Plus space) (Cat (Plus digit)
    (Cat (Plus space) (Cat (Plus digit)
    (Cat (Plus space) (Cat (Plus digit)
    (Cat (Plus space) (Grp 2 (Plus word))))))))))).

(** [\d+] *)
Definition number : regex := Plus digit.

End Config.

(** ** vxlan_utils.py *)

Module Utils.

Import Config.

(** [VNIInfo]; the fields [type] and [state] are prefixed *)
Record VNIInfo : Type := {
  vni : Z;
  vni_type : string;
  vlan : option Z;
  vrf : option string;
  vni_state : option string;
  replication : option string
}.

(** [BGPNeighbor] *)
Record BGPNeighbor : Type := {
  n_ip : string;
  n_state : string;
  n_uptime : option string;
  n_prefixes : option Z
}.

(** A peer, the dict [{'ip': ..., 'state': ...}] *)
Record Peer : Type := {
  p_ip : string;
  p_state : string
}.

(** *** VXLANParser *)

Definition parse_nxos_version (output : string) : option float :=
  match Re.search nxos_version output with
  | Some m => Some (PyFloat.float_of_string (Re.group 1 m))
  | None => None
  end.

Definition parse_nve_peers (output : string) : list Peer :=
  let lines := Py.split Py.newline output in
  fold_left
    (fun peers line =>
       match Re.search ip_address line with
       | Some ip_match =>
           let ip := Re.group0 ip_match in
           let state := if Py.contains "Up" line then "Up" else "Down" in
           peers ++ [{| p_ip := ip; p_state := state |}]
       | None => peers
       end)
    lines [].

(** What the body of the loop of [parse_vni_info] makes of one line:
    nothing, a record, or the [ValueError] of [int()] *)
Definition vni_of_line (line : string) : Py.result (option VNIInfo) :=
  match Re.search vni_number line with
  | Some vni_match =>
      Py.bind (Py.int_of_digits (Re.group 1 vni_match)) (fun vni_num =>
      let type := if Py.contains "L3" line then "L3" else "L2" in
      Py.bind
        match Re.search vlan_number line with
        | Some vlan_match =>
            Py.bind (Py.int_of_digits (Re.group 1 vlan_match))
                    (fun vlan => Py.Ok (Some vlan))
        | None => Py.Ok None
        end (fun vlan =>
      let vrf :=
        match Re.search vrf_name line with
        | Some vrf_match => Some (Re.group 1 vrf_match)
        | None => None
        end in
      let state :=
        if Py.contains "Up" line then Some "Up"
        else if Py.contains "Down" line then Some "Down"
        else None in
      Py.Ok (Some {| vni := vni_num; vni_type := type; vlan := vlan;
                     vrf := vrf; vni_state := state; replication := None |})))
  | None => Py.Ok None
  end.

(** The loop over the lines.  What the body raises is caught around
    the loop: the parser then returns the records read so far. *)
Fixpoint parse_vni_lines (lines : list string) (vnis : list VNIInfo)
  : list VNIInfo :=
  match lines with
  | [] => vnis
  | line :: lines' =>
      match vni_of_line line with
      | Py.Ok (Some current_vni) => parse_vni_lines lines' (vnis ++ [current_vni])
      | Py.Ok None => parse_vni_lines lines' vnis
      | Py.Raise e => vnis
      end
  end.

Definition parse_vni_info (output : string) : list VNIInfo :=
  parse_vni_lines (Py.split Py.newline output) [].

Definition parse_bgp_neighbors (output : string) : list BGPNeighbor :=
  let lines := Py.split Py.newline output in
  fold_left
    (fun neighbors line =>
       match Re.search bgp_neighbor_state line with
       | Some m =>
           neighbors ++ [{| n_ip := Re.group 1 m; n_state := Re.group 2 m;
                            n_uptime := None; n_prefixes := None |}]
       | None => neighbors
       end)
    lines [].

(** *** VXLANValidator *)

Definition is_none {A : Type} (o : option A) : bool :=
  match o with
  | None => true
  | Some _ => false
  end.

Definition state_is (s : string) (o : option string) : bool :=
  match o with
  | Some x => String.eqb x s
  | None => false
  end.

Definition validate_nxos_version (version : option float) : bool * string :=
  match version with
  | None => (false, "Could not determine NX-OS version")
  | Some v =>
      if PyFloat.lt v 7
      then (false, "NX-OS " +:+ PyFloat.repr v
                   +:+ " does not support VXLAN (minimum: 7.0)")
      else (true, "NX-OS " +:+ PyFloat.repr v +:+ " supports VXLAN")
  end.

(** The body of the loop of [validate_vni_configuration] *)
Definition vni_checks (issues : list string) (v : VNIInfo) : list string :=
  let issues :=
    if String.eqb (vni_type v) "L2" && is_none (vlan v)
    then issues ++ ["L2 VNI " +:+ Py.str_int (vni v) +:+ " missing VLAN association"]
    else issues in
  let issues :=
    if String.eqb (vni_type v) "L3" && is_none (vrf v)
    then issues ++ ["L3 VNI " +:+ Py.str_int (vni v) +:+ " missing VRF association"]
    else issues in
  if state_is "Down" (vni_state v)
  then issues ++ ["VNI " +:+ Py.str_int (vni v) +:+ " is in Down state"]
  else issues.

Definition validate_vni_configuration (vnis : list VNIInfo) : bool * list string :=
  match vnis with
  | [] => (false, ["No VNIs configured"])
  | _ =>
      let issues := fold_left vni_checks vnis [] in
      (Nat.eqb (length issues) 0, issues)
  end.

(** The dict returned by [validate_resource_usage], with the keys
    [level], [percentage] and [recommendations] *)
Record Usage : Type := {
  u_level : string;
  u_percentage : float;
  u_recommendations : list string
}.

(** The cut points chosen in [validate_resource_usage] *)
Definition warning_threshold (resource_type : string) : float :=
  if String.eqb resource_type "vni" then 70%float else 75%float.
Definition critical_threshold (resource_type : string) : float :=
  if String.eqb resource_type "vni" then 85%float else 90%float.

Definition validate_resource_usage (resource_type : string) (current maximum : Z)
  : Py.result (bool * Usage) :=
  Py.bind (PyFloat.truediv current maximum) (fun q =>
  let percentage := (q * 100)%float in
  if PyFloat.ge percentage (critical_threshold resource_type) then
    Py.Ok (false, {|
      u_level := "critical";
      u_percentage := percentage;
      u_recommendations := [
        "Immediate action required - " +:+ resource_type +:+ " usage is "
          +:+ PyFloat.format_1f percentage +:+ "%";
        "Consider capacity planning and optimization";
        "Review " +:+ resource_type +:+ " allocation and remove unused entries"
      ] |})
  else if PyFloat.ge percentage (warning_threshold resource_type) then
    Py.Ok (false, {|
      u_level := "warning";
      u_percentage := percentage;
      u_recommendations := [
        "Warning - " +:+ resource_type +:+ " usage is "
          +:+ PyFloat.format_1f percentage +:+ "%";
        "Plan for capacity expansion";
        "Monitor " +:+ resource_type +:+ " growth trends"
      ] |})
  else
    Py.Ok (true, {| u_level := "ok"; u_percentage := percentage;
                    u_recommendations := [] |})).

(** [calculate_percentage] *)
Definition calculate_percentage (current maximum : Z) : Py.result float :=
  if maximum =? 0 then Py.Ok 0%float
  else Py.bind (PyFloat.truediv current maximum) (fun q => Py.Ok (q * 100)%float).

(** *** DeviceExecutor

    A device is what [device.execute] does with a command: it returns
    the output or raises. *)
Definition Device : Type := string -> Py.result string.

Definition execute_command (device : Device) (device_name : string)
           (command : string) : Py.result string :=
  match device command with
  | Py.Ok output => Py.Ok output
  | Py.Raise e =>
      Py.Raise (Py.VXLANTestException "CommandExecutionError"
                  ("Command execution failed: " +:+ Py.str_exn e)
                  (Some device_name) (Some command))
  end.

End Utils.

(** ** vxlan_validators.py *)

Module Validators.

Import Config Utils.

Inductive Severity : Type := info | warning | error | critical.

(** The values stored in [details] and in the metrics *)
Inductive pyval : Type :=
| VInt (n : Z)
| VFloat (x : float)
| VStr (s : string)
| VStrList (l : list string)
| VPairs (l : list (string * string))
| VPeers (l : list Peer)
| VVnis (l : list VNIInfo)
| VNeighbors (l : list BGPNeighbor).

Record ValidationResult : Type := {
  passed : bool;
  message : string;
  details : list (string * pyval);
  recommendations : list string;
  severity : Severity
}.

(** [BaseValidator.create_result] *)
Definition create_result (passed : bool) (message : string)
           (details : list (string * pyval)) (recommendations : list string)
           (severity : Severity) : ValidationResult :=
  {| passed := passed; message := message; details := details;
     recommendations := recommendations; severity := severity |}.

(** [d.get(key, default)] *)
Fixpoint dict_get (key : string) (d : list (string * pyval)) (default : pyval) : pyval :=
  match d with
  | [] => default
  | (k, v) :: d' => if String.eqb k key then v else dict_get key d' default
  end.

(** [try: body  except Exception as e: handler(e)] *)
Definition try_except (body : Py.result ValidationResult)
           (handler : Py.exn -> ValidationResult) : ValidationResult :=
  match body with
  | Py.Ok r => r
  | Py.Raise e => handler e
  end.

Section Validator.

(** [BaseValidator.__init__] *)
Variable cfg : VXLANConfig.
Variable device : Device.
Variable device_name : string.

Definition executor : string -> Py.result string :=
  execute_command device device_name.

(** *** PlatformValidator *)

Definition validate_platform_support : ValidationResult :=
  try_except
    (Py.bind (executor (show_version (commands cfg))) (fun output =>
     if negb (Py.contains "nexus" (Py.lower output))
        || negb (Py.contains "9000" output)
     then Py.Ok (create_result false
            "Platform may not support VXLAN - expecting Nexus 9000 series" []
            ["Verify platform VXLAN support in documentation";
             "Check hardware capabilities and licensing"]
            warning)
     else
       let version := parse_nxos_version output in
       match version with
       | None =>
           Py.Ok (create_result false "Could not determine NX-OS version" []
                    ["Check 'show version' output format"] error)
       | Some version =>
           if PyFloat.lt version 7 then
             Py.Ok (create_result false
                      ("NX-OS " +:+ PyFloat.repr version
                       +:+ " does not support VXLAN (minimum: 7.0)") []
                      ["Upgrade NX-OS to version 7.0 or higher";
                       "Current version may have limited VXLAN functionality"]
                      critical)
           else
             Py.Ok (create_result true
                      ("Platform supports VXLAN (NX-OS "
                       +:+ PyFloat.repr version +:+ ")")
                      [("version", VFloat version); ("platform", VStr "Nexus 9000")]
                      [] info)
       end))
    (fun e =>
       create_result false ("Platform validation failed: " +:+ Py.str_exn e) []
         ["Check device connectivity and access permissions"] error).

(** *** InterfaceValidator *)

Definition is_up (p : Peer) : bool := String.eqb (p_state p) "Up".

Definition validate_nve_peers : ValidationResult :=
  try_except
    (Py.bind (executor (show_nve_peers (commands cfg))) (fun output =>
     if negb (Py.contains "Peer-IP" output) then
       Py.Ok (create_result true
                "No NVE peers configured (acceptable for single-node deployments)" []
                ["For multi-node VXLAN, configure peer discovery";
                 "Verify underlay routing for peer reachability"]
                info)
     else
       let peers := parse_nve_peers output in
       match peers with
       | [] =>
           Py.Ok (create_result false "NVE peers table exists but no peers found" []
                    ["Check underlay connectivity";
                     "Verify VXLAN configuration on peer devices"]
                    warning)
       | _ =>
           let up_peers := List.filter is_up peers in
           let total_peers := length peers in
           let up_count := length up_peers in
           if Nat.eqb up_count 0 then
             Py.Ok (create_result false
                      ("All " +:+ pretty total_peers +:+ " NVE peers are down")
                      [("peers", VPeers peers)]
                      ["Check underlay routing to peer IPs";
                       "Verify source-interface reachability";
                       "Check for network connectivity issues";
                       "Verify VXLAN configuration on peers"]
                      critical)
           else if Nat.ltb up_count total_peers then
             let down_peers := List.filter (fun p => negb (is_up p)) peers in
             Py.Ok (create_result false
                      ("Only " +:+ pretty up_count +:+ "/" +:+ pretty total_peers
                       +:+ " NVE peers are up")
                      [("up_peers", VPeers up_peers); ("down_peers", VPeers down_peers)]
                      [("Check connectivity to down peers: "
                        +:+ Py.repr_str_list (map p_ip down_peers));
                       "Verify underlay routing";
                       "Check peer device status"]
                      error)
           else
             Py.Ok (create_result true
                      ("All " +:+ pretty total_peers +:+ " NVE peers are up and healthy")
                      [("peers", VPeers peers);
                       ("peer_count", VInt (Z.of_nat total_peers))]
                      [] info)
       end))
    (fun e =>
       create_result false ("NVE peer validation failed: " +:+ Py.str_exn e) []
         ["Check NVE peer configuration and connectivity"] error).

(** *** VNIValidator *)

Definition _validate_vni_usage (current_vnis : Z) : Py.result ValidationResult :=
  let max_vnis := max_vni_count (thresholds cfg) in
  Py.bind (PyFloat.truediv current_vnis max_vnis) (fun q =>
  let percentage := (q * 100)%float in
  let figures :=
    Py.str_int current_vnis +:+ "/" +:+ Py.str_int max_vnis
    +:+ " (" +:+ PyFloat.format_1f percentage +:+ "%)" in
  let details :=
    [("percentage", VFloat percentage); ("current", VInt current_vnis);
     ("max", VInt max_vnis)] in
  if PyFloat.ge percentage 90 then
    Py.Ok (create_result false ("Critical VNI usage: " +:+ figures) details
             ["Immediate action required - approaching VNI limit";
              "Review and remove unused VNIs";
              "Consider VNI consolidation strategies";
              "Plan for additional hardware if needed"]
             critical)
  else if PyFloat.ge percentage 75 then
    Py.Ok (create_result false ("High VNI usage: " +:+ figures) details
             ["Monitor VNI growth trends";
              "Plan for capacity expansion";
              "Optimize VNI allocation"]
             warning)
  else
    Py.Ok (create_result true
             ("VNI usage within acceptable limits: " +:+ figures) details [] info)).

(** The body of the loop over the VNIs: the issues and the two lists *)
Definition vni_step (acc : list string * list VNIInfo * list VNIInfo) (v : VNIInfo)
  : list string * list VNIInfo * list VNIInfo :=
  let '(issues, l2_vnis, l3_vnis) := acc in
  let '(issues, l2_vnis, l3_vnis) :=
    if String.eqb (vni_type v) "L2" then
      (if is_none (vlan v)
       then issues ++ ["L2 VNI " +:+ Py.str_int (vni v) +:+ " missing VLAN association"]
       else issues,
       l2_vnis ++ [v], l3_vnis)
    else if String.eqb (vni_type v) "L3" then
      (if is_none (vrf v)
       then issues ++ ["L3 VNI " +:+ Py.str_int (vni v) +:+ " missing VRF association"]
       else issues,
       l2_vnis, l3_vnis ++ [v])
    else (issues, l2_vnis, l3_vnis) in
  if state_is "Down" (vni_state v)
  then (issues ++ ["VNI " +:+ Py.str_int (vni v) +:+ " is in Down state"],
        l2_vnis, l3_vnis)
  else (issues, l2_vnis, l3_vnis).

Definition validate_vni_configuration : ValidationResult :=
  try_except
    (Py.bind (executor (show_nve_vni (commands cfg))) (fun output =>
     if negb (Py.contains "VNI" output) then
       Py.Ok (create_result false "No VNIs configured" []
                ["Configure VNI-to-VLAN mappings";
                 "Example: vlan 100 -> vn-segment 10100";
                 "Add VNI to NVE interface: interface nve1 -> member vni 10100"]
                warning)
     else
       let vnis := parse_vni_info output in
       match vnis with
       | [] =>
           Py.Ok (create_result false "VNI section exists but no VNIs parsed" []
                    ["Check VNI configuration format"] error)
       | _ =>
           let '(issues, l2_vnis, l3_vnis) := fold_left vni_step vnis ([], [], []) in
           let total_vnis := Z.of_nat (length vnis) in
           Py.bind (_validate_vni_usage total_vnis) (fun usage_result =>
           match issues with
           | _ :: _ =>
               Py.Ok (create_result false
                        ("VNI configuration issues found: "
                         +:+ pretty (length issues) +:+ " problems")
                        [("issues", VStrList issues);
                         ("l2_vni_count", VInt (Z.of_nat (length l2_vnis)));
                         ("l3_vni_count", VInt (Z.of_nat (length l3_vnis)));
                         ("total_vnis", VInt total_vnis)]
                        ["Fix VNI-to-VLAN/VRF mappings";
                         "Check VNI state and troubleshoot down VNIs";
                         "Verify consistent configuration across fabric"]
                        error)
           | [] =>
               let recommendations :=
                 if negb (passed usage_result)
                 then [] ++ recommendations usage_result
                 else [] in
               Py.Ok (create_result (passed usage_result)
                        ("Found " +:+ Py.str_int total_vnis
                         +:+ " properly configured VNIs ("
                         +:+ pretty (length l2_vnis) +:+ " L2, "
                         +:+ pretty (length l3_vnis) +:+ " L3)")
                        [("l2_vnis", VVnis l2_vnis);
                         ("l3_vnis", VVnis l3_vnis);
                         ("total_vnis", VInt total_vnis);
                         ("usage_percentage",
                          dict_get "percentage" (details usage_result) (VInt 0))]
                        recommendations
                        (severity usage_result))
           end)
       end))
    (fun e =>
       create_result false ("VNI validation failed: " +:+ Py.str_exn e) []
         ["Check VNI configuration and command output"] error).

Definition validate_ingress_replication : ValidationResult :=
  try_except
    (Py.bind (executor (show_nve_vni_ingress (commands cfg))) (fun output =>
     if negb (Py.contains "VNI" output) then
       Py.Ok (create_result true
                "No specific ingress replication configuration (may use defaults)" []
                ["Consider configuring explicit ingress replication";
                 "Options: BGP EVPN or static peer lists"]
                info)
     else
       let has_bgp := Py.contains "protocol-bgp" (Py.lower output)
                      || Py.contains "bgp" (Py.lower output) in
       let has_static := Py.contains "static" (Py.lower output) in
       if negb has_bgp && negb has_static then
         Py.Ok (create_result false "Ingress replication not properly configured" []
                  ["Configure BGP EVPN for automatic peer discovery";
                   "Or configure static ingress replication lists";
                   "Example: interface nve1 -> member vni 10100 ingress-replication protocol bgp"]
                  error)
       else
         let method := if has_bgp then "BGP EVPN" else "Static" in
         Py.Ok (create_result true
                  ("Ingress replication configured using " +:+ method)
                  [("method", VStr method)] [] info)))
    (fun e =>
       create_result true "Ingress replication check not applicable" []
         ["Manual verification may be required"] info).

(** *** BGPValidator *)

Definition is_established (n : BGPNeighbor) : bool :=
  String.eqb (Py.lower (n_state n)) "established".

Definition validate_bgp_evpn : ValidationResult :=
  try_except
    (Py.bind (executor (show_bgp_evpn_summary (commands cfg))) (fun output =>
     if Py.contains "bgp is not running" (Py.lower output)
        || Py.contains "invalid command" (Py.lower output)
     then
       Py.Ok (create_result false "BGP is not running or EVPN not configured" []
                ["Enable BGP: feature bgp";
                 "Configure BGP process: router bgp <AS>";
                 "Enable EVPN address family: address-family l2vpn evpn"]
                error)
     else
       let neighbors := parse_bgp_neighbors output in
       match neighbors with
       | [] =>
           Py.Ok (create_result false "No BGP EVPN neighbors configured" []
                    ["Configure BGP EVPN neighbors";
                     "Example: neighbor <ip> remote-as <AS>";
                     "Activate EVPN address family for neighbors"]
                    error)
       | _ =>
           let established := List.filter is_established neighbors in
           let total := length neighbors in
           let established_count := length established in
           if Nat.eqb established_count 0 then
             Py.Ok (create_result false
                      ("No BGP EVPN neighbors in established state (0/"
                       +:+ pretty total +:+ ")")
                      [("neighbors", VNeighbors neighbors)]
                      ["Check BGP neighbor connectivity";
                       "Verify AS numbers and neighbor IPs";
                       "Check routing to neighbor addresses";
                       "Review BGP authentication if configured"]
                      critical)
           else if Nat.ltb established_count total then
             let down_neighbors :=
               List.filter (fun n => negb (is_established n)) neighbors in
             Py.Ok (create_result false
                      ("Only " +:+ pretty established_count +:+ "/" +:+ pretty total
                       +:+ " BGP EVPN neighbors established")
                      [("established", VNeighbors established);
                       ("down", VNeighbors down_neighbors)]
                      [("Troubleshoot down neighbors: "
                        +:+ Py.repr_str_list (map n_ip down_neighbors));
                       "Check neighbor connectivity and configuration";
                       "Verify BGP timers and authentication"]
                      error)
           else
             Py.Ok (create_result true
                      ("All " +:+ pretty total +:+ " BGP EVPN neighbors are established")
                      [("neighbors", VNeighbors neighbors);
                       ("established_count", VInt (Z.of_nat established_count))]
                      [] info)
       end))
    (fun e =>
       create_result false ("BGP EVPN validation failed: " +:+ Py.str_exn e) []
         ["Check BGP configuration and status"] error).

Definition validate_evpn_routes : ValidationResult :=
  try_except
    (Py.bind (executor (show_bgp_evpn_routes (commands cfg)
                        +:+ " | include 'Route Distinguisher'")) (fun output =>
     if String.eqb (Py.strip output) "" then
       Py.Ok (create_result false "No EVPN routes found" []
                ["Check VXLAN VNI configuration";
                 "Verify BGP EVPN route advertisement";
                 "Ensure VNIs are associated with NVE interface"]
                warning)
     else
       let rd_count := Py.count "Route Distinguisher" output in
       if Nat.eqb rd_count 0 then
         Py.Ok (create_result false "No route distinguishers found in EVPN table" []
                  ["Configure route distinguisher for VRFs";
                   "Check EVPN route advertisement configuration"]
                  error)
       else
         Py.Ok (create_result true
                  ("Found " +:+ pretty rd_count +:+ " EVPN route distinguishers")
                  [("rd_count", VInt (Z.of_nat rd_count))] [] info)))
    (fun e =>
       create_result true "EVPN route check not applicable or failed" []
         ["Manual verification may be required"] info).

End Validator.

End Validators.

(** ** base_test.py *)

Module BaseTest.

Import Config Utils Validators.

(** What the runner's step object was last told.  The object belongs
    to the runner; telling it an outcome is modelled as returning that
    outcome. *)
Inductive StepOutcome : Type :=
| StepPassed (msg : string)
| StepFailed (msg : string)
| StepSkipped (msg : string).

(** [BaseVXLANTest]: the two dicts of a test case.  A recorded result
    is the dict with the keys [passed], [message], [severity],
    [details] and [recommendations], that is a [ValidationResult]. *)
Record TestInstance : Type := {
  test_results : gmap string (gmap string ValidationResult);
  device_metrics : gmap string (gmap string pyval)
}.

(** [BaseVXLANTest.__init__] *)
Definition new_test : TestInstance :=
  {| test_results := ∅; device_metrics := ∅ |}.

Definition record_test_result (self : TestInstance) (device_name test_name : string)
           (result : ValidationResult) : TestInstance :=
  let per_device := default ∅ (test_results self !! device_name) in
  {| test_results :=
       <[device_name := <[test_name := result]> per_device]> (test_results self);
     device_metrics := device_metrics self |}.

Definition record_metric (self : TestInstance) (device_name metric_name : string)
           (value : pyval) : TestInstance :=
  let per_device := default ∅ (device_metrics self !! device_name) in
  {| test_results := test_results self;
     device_metrics :=
       <[device_name := <[metric_name := value]> per_device]> (device_metrics self) |}.

Definition bullets (l : list string) : string :=
  Py.join Py.nl (map (fun rec => "  • " +:+ rec) l).

Definition process_validation_result (self : TestInstance)
           (device_name test_name : string) (result : ValidationResult)
  : TestInstance * StepOutcome :=
  let self := record_test_result self device_name test_name result in
  if passed result then (self, StepPassed (message result))
  else
    let failure_msg := message result in
    let failure_msg :=
      match recommendations result with
      | [] => failure_msg
      | recs =>
          failure_msg +:+ Py.nl +:+ Py.nl +:+ "Recommendations:" +:+ Py.nl
          +:+ bullets recs
      end in
    match severity result with
    | critical => (self, StepFailed failure_msg)
    | error => (self, StepFailed failure_msg)
    | warning => (self, StepFailed failure_msg)
    | info => (self, StepSkipped failure_msg)
    end.

(** [StructuredTestStep.validate_and_process]; [validator_func] is what
    calling the validator gives: a result or an exception. *)
Definition validate_and_process (device_name test_name : string)
           (validator_func : Py.result ValidationResult) (test_instance : TestInstance)
  : ValidationResult * (TestInstance * StepOutcome) :=
  match validator_func with
  | Py.Ok result =>
      (result, process_validation_result test_instance device_name test_name result)
  | Py.Raise e =>
      let result :=
        if Py.is_vxlan_exception e then
          {| passed := false;
             message := Py.str_exn e;
             details := [];
             recommendations := [];
             severity := error |}
        else
          {| passed := false;
             message := "Unexpected error: " +:+ Py.str_exn e;
             details := [("exception_type", VStr (Py.type_name e))];
             recommendations := ["Check device connectivity and configuration"];
             severity := error |} in
      (result, process_validation_result test_instance device_name test_name result)
  end.

End BaseTest.

(** ** enhanced_vxlan_testsuite.py *)

Module Suite.

Import Config Utils Validators BaseTest.

(** *** VXLANHealthMonitoring.test_interface_statistics *)

Definition error_patterns : list string := ["error"; "drop"; "discard"; "invalid"].

(** [re.findall(r'\d+', line)] *)
Definition numbers (line : string) : list string :=
  map Re.group0 (Re.findall number line).

Definition sum (l : list Z) : Z := fold_left Z.add l 0.

(** [any(int(num) > threshold for num in numbers)]: the numbers are
    converted one by one, up to the first that is above *)
Fixpoint any_above (threshold : Z) (numbers : list string) : Py.result bool :=
  match numbers with
  | [] => Py.Ok false
  | num :: numbers' =>
      Py.bind (Py.int_of_digits num) (fun n =>
      if threshold <? n then Py.Ok true else any_above threshold numbers')
  end.

(** [sum(int(num) for num in numbers if int(num) > 0)], from [acc] *)
Fixpoint sum_positive (numbers : list string) (acc : Z) : Py.result Z :=
  match numbers with
  | [] => Py.Ok acc
  | num :: numbers' =>
      Py.bind (Py.int_of_digits num) (fun n =>
      if 0 <? n
      then Py.bind (Py.int_of_digits num) (fun n' => sum_positive numbers' (acc + n'))
      else sum_positive numbers' acc)
  end.

(** One turn of the inner loop: [acc] is [(errors_found, total_errors)] *)
Definition scan_pattern (threshold : Z) (line : string)
           (acc : list string * Z) (pattern : string) : Py.result (list string * Z) :=
  let '(errors_found, total_errors) := acc in
  if Py.contains pattern (Py.lower line)
     && Re.found (Re.search number line)
  then
    let numbers := numbers line in
    Py.bind (any_above threshold numbers) (fun above =>
    if above
    then Py.bind (sum_positive numbers 0) (fun added =>
         Py.Ok (errors_found ++ [Py.strip line], total_errors + added))
    else Py.Ok (errors_found, total_errors))
  else Py.Ok (errors_found, total_errors).

Definition scan_line (threshold : Z) (acc : list string * Z) (line : string)
  : Py.result (list string * Z) :=
  Py.loop (scan_pattern threshold line) error_patterns acc.

(** The two loops over the output: [(errors_found, total_errors)], or
    the [ValueError] of an [int()] *)
Definition parse_error_counters (cfg : VXLANConfig) (output : string)
  : Py.result (list string * Z) :=
  Py.loop (scan_line (error_counter_threshold (thresholds cfg)))
          (Py.split Py.newline output) ([], 0).

Definition statistics_message (device_name : string) (errors_found : list string) : string :=
  let error_msg := "High error counters found on " +:+ device_name +:+ ":" +:+ Py.nl in
  let error_msg :=
    error_msg +:+ Py.join Py.nl (map (fun e => "  ‚Ä¢ " +:+ e) (firstn 5 errors_found)) in
  let error_msg :=
    if Nat.ltb 5 (length errors_found)
    then error_msg +:+ Py.nl +:+ "  ‚Ä¢ ... and "
         +:+ pretty (length errors_found - 5)%nat +:+ " more"
    else error_msg in
  error_msg +:+ Py.nl +:+ Py.nl +:+ "Recommendations:" +:+ Py.nl
  +:+ "  ‚Ä¢ Check physical connectivity and cables" +:+ Py.nl
  +:+ "  ‚Ä¢ Verify underlay network stability" +:+ Py.nl
  +:+ "  ‚Ä¢ Review VXLAN configuration for inconsistencies".

(** The step of one device *)
Definition test_interface_statistics (cfg : VXLANConfig) (self : TestInstance)
           (device : Device) (device_name : string) : TestInstance * StepOutcome :=
  match Py.bind (device (show_nve_counters (commands cfg)))
                (parse_error_counters cfg) with
  | Py.Ok (errors_found, total_errors) =>
      let self := record_metric self device_name "nve_error_count" (VInt total_errors) in
      match errors_found with
      | _ :: _ => (self, StepFailed (statistics_message device_name errors_found))
      | [] => (self, StepPassed ("No significant errors in NVE statistics on "
                                 +:+ device_name))
      end
  | Py.Raise e =>
      (self, StepFailed ("Statistics check failed on " +:+ device_name +:+ ": "
                         +:+ Py.str_exn e))
  end.

(** *** CommonCleanup.generate_summary_report *)

Definition test_names : list string :=
  ["VXLANPrerequisiteValidation"; "VXLANInterfaceValidation";
   "VXLANVNIValidation"; "VXLANBGPEVPNValidation";
   "VXLANDataPlaneValidation"; "VXLANHealthMonitoring"].

Definition ResultTable : Type := gmap string (gmap string ValidationResult).
Definition MetricTable : Type := gmap string (gmap string pyval).

(** One turn of the collecting loop.  [parent] maps an attribute name
    of the script to the test case stored under it ([hasattr] and
    [getattr]). *)
Definition collect_step (parent : gmap string TestInstance)
           (acc : ResultTable * MetricTable) (test_name : string)
  : ResultTable * MetricTable :=
  let '(all_results, all_metrics) := acc in
  match parent !! Py.lower test_name with
  | Some test_instance =>
      (* all_results.update(test_instance.test_results) *)
      let all_results := test_results test_instance ∪ all_results in
      let all_metrics :=
        map_fold
          (fun device metrics (all_metrics : MetricTable) =>
             <[device := metrics ∪ default ∅ (all_metrics !! device)]> all_metrics)
          all_metrics (device_metrics test_instance) in
      (all_results, all_metrics)
  | None => (all_results, all_metrics)
  end.

Definition collect (parent : gmap string TestInstance) : ResultTable * MetricTable :=
  fold_left (collect_step parent) test_names (∅, ∅).

(** [result.values()] *)
Definition values {A : Type} (d : gmap string A) : list A :=
  map snd (map_to_list d).

Definition is_blocking (result : ValidationResult) : bool :=
  negb (passed result)
  && match severity result with
     | error | critical => true
     | _ => false
     end.

Definition device_is_healthy (all_results : ResultTable) (d : string) : bool :=
  negb (existsb is_blocking (values (default ∅ (all_results !! d)))).

Record Summary : Type := {
  total_devices : nat;
  healthy_devices : nat;
  devices_with_issues : nat
}.

(** The overall summary of the report, from the table of results *)
Definition overall_summary (all_results : ResultTable) (devices : list string) : Summary :=
  let total_devices := length devices in
  let healthy_devices := length (List.filter (device_is_healthy all_results) devices) in
  {| total_devices := total_devices;
     healthy_devices := healthy_devices;
     devices_with_issues := (total_devices - healthy_devices)%nat |}.

Definition generate_summary_report (parent : gmap string TestInstance)
           (devices : list string) : Summary :=
  let '(all_results, all_metrics) := collect parent in
  overall_summary all_results devices.

End Suite.

(** ** improved_pyats_vxlan_testsuite.py (monolithic) *)

Module Monolithic.

Import Utils BaseTest.

Definition ERROR_COUNTER_THRESHOLD : Z := 100.

(** The peer loop of [VxlanInterfaceValidation.test_nve_peers] *)
Definition parse_peers (output : string) : list Peer :=
  let lines := Py.split Py.newline output in
  fold_left
    (fun peers line =>
       match Re.search Config.ip_address line with
       | Some ip_match =>
           let ip := Re.group0 ip_match in
           let state := if Py.contains "Up" line then "Up" else "Down" in
           peers ++ [{| p_ip := ip; p_state := state |}]
       | None => peers
       end)
    lines [].

(** [VxlanParser.count_pattern_matches(text, pattern + r'\s*:\s*(\d+)')],
    matched with [re.IGNORECASE] *)
Definition counter_pattern (pattern : string) : Re.regex :=
  Re.Cat (Re.LitI pattern)
    (Re.Cat (Re.Star Re.space) (Re.Cat (Re.Lit ":")
       (Re.Cat (Re.Star Re.space) (Re.Grp 1 (Re.Plus Re.digit))))).

Definition count_pattern_matches (text : string) (pattern : string) : Z :=
  Z.of_nat (length (Re.findall (counter_pattern pattern) text)).

Definition error_patterns : list string :=
  ["error"; "drop"; "discard"; "invalid"; "crc"].

(** The counter loop of [VxlanHealthCheck.test_interface_statistics]:
    [(errors_found, total_errors)] *)
Definition count_error_patterns (output : string) : list string * Z :=
  fold_left
    (fun (acc : list string * Z) pattern =>
       let '(errors_found, total_errors) := acc in
       let count := count_pattern_matches output pattern in
       if ERROR_COUNTER_THRESHOLD <? count
       then (errors_found ++ [pattern +:+ ": " +:+ Py.str_int count],
             total_errors + count)
       else (errors_found, total_errors))
    error_patterns ([], 0).

End Monolithic.

(** ** tests/health.py *)

Module TestsHealth.

(** The lines [VxlanHealthCheck.test_vxlan_statistics] reports, or the
    [ValueError] of an [int()] *)
Definition statistics_errors (output : string) : Py.result (list string) :=
  Py.loop
    (fun errors line =>
       if existsb (fun k => Py.contains k (Py.lower line))
                  ["error"; "drop"; "discard"; "invalid"]
       then
         let numbers := Suite.numbers line in
         Py.bind (Suite.any_above 0 numbers) (fun positive =>
         if positive then Py.Ok (errors ++ [Py.strip line]) else Py.Ok errors)
       else Py.Ok errors)
    (Py.split Py.newline output) [].

End TestsHealth.


(** ** Vocabulary of the specification

    The notions the specification uses to state the rules, each defined
    from its wording; the theorems below compare the code with them. *)

Module Spec.

Import Config Utils Validators.

(** [sub] occurs somewhere in [s] *)
Definition occurs (sub s : string) : Prop :=
  exists pre post : string, s = pre +:+ sub +:+ post.

(** The line starts a peer record: it holds an IP literal *)
Definition has_ip (line : string) : bool :=
  match Re.search ip_address line with
  | Some _ => true
  | None => false
  end.







(** Counter extraction as the specification words it: on every line
    that names a fault keyword, the sum of the counter values above the
    floor. *)
Definition fault_keywords : list string :=
  ["error"; "drop"; "discard"; "invalid"; "crc"].

Definition names_fault (keywords : list string) (line : string) : bool :=
  existsb (fun k => Py.contains k (Py.lower line)) keywords.

(** The values of the numbers on a line *)
Definition values (line : string) : list Z :=
  map Py.digits_value (Suite.numbers line).

Definition sum_over_floor (floor : Z) (output : string) : Z :=
  Suite.sum
    (flat_map
       (fun line =>
          if names_fault fault_keywords line
          then List.filter (fun n => floor <? n) (values line)
          else [])
       (Py.split Py.newline output)).

(** What one line adds in the modular suite: the keywords it holds,
    whether one of its numbers is above the floor, and the sum of its
    positive numbers. *)
Definition keyword_hits (line : string) : nat :=
  length (List.filter (fun k => Py.contains k (Py.lower line)) Suite.error_patterns).

Definition above_floor (floor : Z) (line : string) : bool :=
  existsb (fun n => floor <? n) (values line).

Definition positive_sum (line : string) : Z :=
  Suite.sum (List.filter (fun n => 0 <? n) (values line)).

Definition line_flags (floor : Z) (line : string) : list string :=
  if above_floor floor line then repeat (Py.strip line) (keyword_hits line) else [].

Definition line_total (floor : Z) (line : string) : Z :=
  if above_floor floor line then Z.of_nat (keyword_hits line) * positive_sum line else 0.

(** A number that [int()] converts, and a line that the counter loop
    reads without an exception: it holds no keyword, so that none of
    its numbers is converted, or all its numbers are within the limit *)
Definition convertible (num : string) : bool :=
  Nat.leb (String.length num) Py.max_str_digits.

Definition readable (line : string) : bool :=
  Nat.eqb (keyword_hits line) 0 || forallb convertible (Suite.numbers line).

(** A result that keeps a device from counting as healthy, as the
    specification words it *)
Definition error_or_critical (r : ValidationResult) : bool :=
  match severity r with
  | error | critical => true
  | _ => false
  end.

End Spec.

(** ** Sample devices and outputs *)

Module Examples.

Import Config Utils Validators BaseTest.

(** A device that answers the commands listed and fails on the rest *)
Definition device_of (outputs : list (string * string)) : Device :=
  fun command =>
    match find (fun kv => String.eqb (fst kv) command) outputs with
    | Some kv => Py.Ok (snd kv)
    | None => Py.Raise (Py.Exception "TimeoutError" "timed out")
    end.

(** A device on which every command fails *)
Definition unreachable : Device :=
  fun _ => Py.Raise (Py.Exception "TimeoutError" "timed out").

(** Two peers, one up and one down; two neighbors, one established *)
Definition peers_output : string :=
  "Interface Peer-IP          State" +:+ Py.nl
  +:+ "nve1      10.0.0.1         Up" +:+ Py.nl
  +:+ "nve1      10.0.0.2         Down".

Definition bgp_output : string :=
  "Neighbor        V    AS MsgRcvd MsgSent   State" +:+ Py.nl
  +:+ "10.1.1.1        4 65000      12      13 Established" +:+ Py.nl
  +:+ "10.1.1.2        4 65000      12      13 Idle".

Definition leaf1 : Device :=
  device_of [("show nve peers", peers_output);
             ("show bgp l2vpn evpn summary", bgp_output)].

(** A device with nothing configured: every table comes back empty *)
Definition bare : Device :=
  device_of [("show nve vni", ""); ("show nve peers", "");
             ("show bgp l2vpn evpn summary", "")].

(** A device whose tables hold their header lines and no record *)
Definition vni_header : string :=
  "Interface VNI      Multicast-group   State Mode Type [BD/VRF]      Flags".
Definition peers_header : string :=
  "Interface Peer-IP          State LearnType Uptime   Router-Mac".

Definition headers_only : Device :=
  device_of [("show nve vni", vni_header); ("show nve peers", peers_header);
             ("show bgp l2vpn evpn summary", "Neighbor        V    AS")].

(** A VNI table: an L2 VNI in order, an L3 VNI without VRF that is down *)
Definition vni_table : string :=
  vni_header +:+ Py.nl
  +:+ "10100    239.1.1.1         Up    CP   L2 VLAN: 100" +:+ Py.nl
  +:+ "50000     n/a      Down  CP   L3".






(** [show version] of a Nexus 9000 on NX-OS 9.3, of one on 6.2, of one
    whose output has no version line, and of another platform *)
Definition version_93 : string :=
  "Cisco Nexus Operating System (NX-OS) Software" +:+ Py.nl
  +:+ "  system:    version 9.3(5)" +:+ Py.nl
  +:+ "  cisco Nexus9000 C93180YC-EX chassis".

Definition version_62 : string :=
  "Cisco Nexus Operating System (NX-OS) Software" +:+ Py.nl
  +:+ "  system:    version 6.2(12)" +:+ Py.nl
  +:+ "  cisco Nexus9000 C9396PX chassis".

Definition version_missing : string :=
  "Cisco Nexus Operating System (NX-OS) Software" +:+ Py.nl
  +:+ "  cisco Nexus9000 C93180YC-EX chassis".

Definition version_other_platform : string :=
  "Cisco IOS Software, C3750 Software, Version 12.2(55)SE".

Definition nexus_93 : Device := device_of [("show version", version_93)].
Definition nexus_62 : Device := device_of [("show version", version_62)].
Definition nexus_unversioned : Device := device_of [("show version", version_missing)].
Definition catalyst : Device := device_of [("show version", version_other_platform)].



(** Counter lines: one error counter above the floor of 100 next to a
    small number, a CRC counter, and a line with two keywords *)
Definition errors_line : string := "input errors: 150 of 7".
Definition crc_line : string := "CRC: 500".
Definition two_keywords_line : string := "error drop: 200".

(** A number of 4301 digits, one more than [int()] converts, on a line
    of counters and on a line of the VNI table *)
Definition long_number : string := string_of_list_ascii (repeat "0"%char 4301).

Definition long_counter : string := "input errors: " +:+ long_number.

Definition long_vni_table : string :=
  vni_header +:+ Py.nl
  +:+ "10100    239.1.1.1         Up    CP   L2 VLAN: 100" +:+ Py.nl
  +:+ long_number +:+ "    239.1.1.2         Up    CP   L2 VLAN: 200" +:+ Py.nl
  +:+ "10300    239.1.1.3         Up    CP   L2 VLAN: 300".

Definition long_counter_device : Device :=
  device_of [("show interface nve1 counters detailed", long_counter);
             ("show nve vni", long_vni_table)].

(** Counters that stay at or below the floor *)
Definition quiet_counters : string :=
  "input errors: 5" +:+ Py.nl
  +:+ "output drops: 0" +:+ Py.nl
  +:+ "rx packets: 123456" +:+ Py.nl
  +:+ "invalid frames: 100".

Definition quiet_device : Device :=
  device_of [("show interface nve1 counters detailed", quiet_counters)].

(** A leaf on NX-OS 6.2 whose BGP EVPN neighbors are all established,
    and what two test cases of a run record for it *)
Definition bgp_all_established : string :=
  "Neighbor        V    AS MsgRcvd MsgSent   State" +:+ Py.nl
  +:+ "10.1.1.1        4 65000      12      13 Established" +:+ Py.nl
  +:+ "10.1.1.2        4 65000      12      13 Established".

Definition old_leaf : Device :=
  device_of [("show version", version_62);
             ("show bgp l2vpn evpn summary", bgp_all_established)].

Definition prerequisite_case : TestInstance :=
  fst (snd (validate_and_process "leaf1" "platform_compatibility"
              (Py.Ok (validate_platform_support CONFIG old_leaf "leaf1")) new_test)).

Definition bgp_case : TestInstance :=
  fst (snd (validate_and_process "leaf1" "bgp_evpn_neighbors"
              (Py.Ok (validate_bgp_evpn CONFIG old_leaf "leaf1")) new_test)).

(** The script object of the run, with its two test cases *)
Definition script : gmap string TestInstance :=
  <["vxlanprerequisitevalidation" := prerequisite_case]>
    (<["vxlanbgpevpnvalidation" := bgp_case]> ∅).

(** The same run with a metric recorded by each test case *)
Definition script_with_metrics : gmap string TestInstance :=
  <["vxlanprerequisitevalidation" :=
      record_metric prerequisite_case "leaf1" "platform" (VStr "Nexus 9000")]>
    (<["vxlanbgpevpnvalidation" :=
         record_metric bgp_case "leaf1" "bgp_evpn_neighbors" (VInt 2)]> ∅).

End Examples.

(** * Further code of the suite *)

(** ** What a pattern can consume *)

Module ReSpec.

Import Re.

(** Every character that [r] consumes is of the class [P]. *)
Fixpoint within (P : ascii -> bool) (r : regex) : Prop :=
  match r with
  | Eps | Bol | Wordb => True
  | Cls p => forall c, p c = true -> P c = true
  | Cat r1 r2 => within P r1 /\ within P r2
  | Opt r1 | Star r1 => within P r1
  | Grp _ r1 => within P r1
  end.

(** Every group [i] of [r] captures characters of the class [Pg i]. *)
Fixpoint groups_within (Pg : nat -> ascii -> bool) (r : regex) : Prop :=
  match r with
  | Eps | Bol | Wordb | Cls _ => True
  | Cat r1 r2 => groups_within Pg r1 /\ groups_within Pg r2
  | Opt r1 | Star r1 => groups_within Pg r1
  | Grp i r1 => within (Pg i) r1 /\ groups_within Pg r1
  end.

(** All characters of [s] are of the class [P]. *)
Definition all_chars (P : ascii -> bool) (s : string) : Prop :=
  Forall (fun c => P c = true) (list_ascii_of_string s).

Definition caps_ok (Pg : nat -> ascii -> bool) (caps : list (nat * string)) : Prop :=
  Forall (fun cap => all_chars (Pg (fst cap)) (snd cap)) caps.

Definition digit_or_dot (c : ascii) : bool := Py.is_digit c || Ascii.eqb c ".".
Definition word_or_hyphen (c : ascii) : bool := Py.is_word c || Ascii.eqb c "-".

(** The classes of the groups of [bgp_neighbor_state] and of
    [feature_status] *)
Definition neighbor_class (i : nat) : ascii -> bool :=
  match i with
  | 1%nat => digit_or_dot
  | _ => Py.is_word
  end.
Definition feature_class (i : nat) : ascii -> bool :=
  match i with
  | 1%nat => word_or_hyphen
  | _ => Py.is_word
  end.

End ReSpec.

(** ** vxlan_config.py: the rest of the patterns, and the features *)

Module Patterns.

Import Re.

Definition hyphen : regex := Cls (Ascii.eqb "-").
Definition colon : regex := Cls (Ascii.eqb ":").
Definition non_space : regex := Cls (fun c => negb (Py.is_space c)).

(** [feature_status]: words joined by hyphens (group 1), spaces, digits,
    spaces, a word (group 2) *)
Definition feature_status : regex :=
  Cat (Grp 1 (Cat (Plus word) (Star (Cat hyphen (Plus word)))))
    (Cat (Plus space) (Cat (Plus digit) (Cat (Plus space) (Grp 2 (Plus word))))).

(** [error_counter]: words separated by spaces (group 1), optional spaces,
    a colon, optional spaces, digits (group 2) *)
Definition error_counter : regex :=
  Cat (Grp 1 (Cat (Plus word) (Star (Cat (Plus space) (Plus word)))))
    (Cat (Star space) (Cat colon (Cat (Star space) (Grp 2 (Plus digit))))).

(** [source-interface:\s*(\S+)], matched with [re.IGNORECASE] *)
Definition source_interface : regex :=
  Cat (LitI "source-interface:") (Cat (Star space) (Grp 1 (Plus non_space))).

(** [^\s*\d+] *)
Definition vni_line : regex := Cat Bol (Cat (Star space) (Plus digit)).

(** [(?:[0-9]{1,3}\.){3}[0-9]{1,3}] between [^] and [$] *)
Definition dotted_quad : regex :=
  Cat Bol (Cat (Rep 3 0 (Cat (Rep 1 2 digit) Config.dot)) (Rep 1 2 digit)).

(** [re.match(r, s)]: a match that starts at the first character *)
Definition match_ (r : regex) (s : string) : option rematch :=
  match_at r None (list_ascii_of_string s).

(** [$]: the end of the text, or the line feed that ends it *)
Definition at_end (text : list ascii) : bool :=
  match text with
  | [] => true
  | [c] => Ascii.eqb c Py.newline
  | _ => false
  end.

(** [re.match(r + '$', s)] as a truth value *)
Definition full_match (r : regex) (s : string) : bool :=
  match rmatch r (MState None (list_ascii_of_string s) [])
               (fun st => if at_end (rest st) then Some st else None) with
  | Some _ => true
  | None => false
  end.

(** [VXLANFeatures]; the environment does not override it *)
Record VXLANFeatures : Type := {
  vn_segment_feature : string;
  nv_overlay_feature : string;
  bgp_feature : string;
  evpn_feature : string
}.

(** [CONFIG.features] *)
Definition features : VXLANFeatures := {|
  vn_segment_feature := "vn-segment-vlan-based";
  nv_overlay_feature := "nv overlay";
  bgp_feature := "bgp";
  evpn_feature := "evpn"
|}.

End Patterns.

(** ** vxlan_utils.py: the rest of the parsers, validators and helpers *)

Module MoreUtils.

Import Config Utils Patterns.

(** *** VXLANParser *)

Definition parse_feature_status (output : string) : gmap string string :=
  fold_left
    (fun (features : gmap string string) line =>
       match Re.search feature_status line with
       | Some m => <[Re.group 1 m := Py.lower (Re.group 2 m)]> features
       | None => features
       end)
    (Py.split Py.newline output) ∅.

(** The loop of [parse_interface_counters].  What [int()] raises is
    caught around the loop: the parser then returns the counters read
    so far. *)
Fixpoint counters_of_lines (lines : list string) (counters : gmap string Z)
  : gmap string Z :=
  match lines with
  | [] => counters
  | line :: lines' =>
      match Re.search error_counter line with
      | Some m =>
          match Py.int_of_digits (Re.group 2 m) with
          | Py.Ok count =>
              counters_of_lines lines' (<[Py.strip (Re.group 1 m) := count]> counters)
          | Py.Raise e => counters
          end
      | None => counters_of_lines lines' counters
      end
  end.

Definition parse_interface_counters (output : string) : gmap string Z :=
  counters_of_lines (Py.split Py.newline output) ∅.

(** *** VXLANValidator *)

Definition required_features : list string :=
  [vn_segment_feature features; nv_overlay_feature features].

Definition is_enabled (features : gmap string string) (feature : string) : bool :=
  match features !! feature with
  | Some status => String.eqb status "enabled"
  | None => false
  end.

Definition validate_required_features (features : gmap string string)
  : bool * list string :=
  let missing_features :=
    fold_left
      (fun missing feature =>
         if negb (is_enabled features feature) then missing ++ [feature] else missing)
      required_features [] in
  (Nat.eqb (length missing_features) 0, missing_features).

(** The dict that [validate_nve_peers] returns beside its verdict; the
    key [peers] is absent when there is no peer *)
Record PeerReport : Type := {
  pr_issue : option string;
  pr_details : string;
  pr_peers : option (list Peer)
}.

Definition validate_nve_peers (peers : list Peer) : bool * PeerReport :=
  match peers with
  | [] => (false, {| pr_issue := Some "no_peers";
                     pr_details := "No NVE peers configured";
                     pr_peers := None |})
  | _ =>
      let up_peers := List.filter (fun p => String.eqb (p_state p) "Up") peers in
      let total_peers := length peers in
      let up_count := length up_peers in
      if Nat.eqb up_count 0 then
        (false, {| pr_issue := Some "all_peers_down";
                   pr_details := "All " +:+ pretty total_peers +:+ " peers are down";
                   pr_peers := Some peers |})
      else if Nat.ltb up_count total_peers then
        (false, {| pr_issue := Some "some_peers_down";
                   pr_details := "Only " +:+ pretty up_count +:+ "/"
                                 +:+ pretty total_peers +:+ " peers are up";
                   pr_peers := Some peers |})
      else
        (true, {| pr_issue := None;
                  pr_details := "All " +:+ pretty total_peers +:+ " peers are up";
                  pr_peers := Some peers |})
  end.

(** The dict that [validate_bgp_evpn] returns beside its verdict *)
Record NeighborReport : Type := {
  nr_issue : option string;
  nr_details : string;
  nr_neighbors : option (list BGPNeighbor)
}.

Definition validate_bgp_evpn (neighbors : list BGPNeighbor) : bool * NeighborReport :=
  match neighbors with
  | [] => (false, {| nr_issue := Some "no_neighbors";
                     nr_details := "No BGP EVPN neighbors configured";
                     nr_neighbors := None |})
  | _ =>
      let established :=
        List.filter (fun n => String.eqb (Py.lower (n_state n)) "established") neighbors in
      let total := length neighbors in
      let established_count := length established in
      if Nat.eqb established_count 0 then
        (false, {| nr_issue := Some "no_established_neighbors";
                   nr_details := "No BGP EVPN neighbors in established state (0/"
                                 +:+ pretty total +:+ ")";
                   nr_neighbors := Some neighbors |})
      else if Nat.ltb established_count total then
        (false, {| nr_issue := Some "some_neighbors_down";
                   nr_details := "Only " +:+ pretty established_count +:+ "/"
                                 +:+ pretty total +:+ " BGP EVPN neighbors established";
                   nr_neighbors := Some neighbors |})
      else
        (true, {| nr_issue := None;
                  nr_details := "All " +:+ pretty total
                                +:+ " BGP EVPN neighbors established";
                  nr_neighbors := Some neighbors |})
  end.

(** *** DeviceExecutor *)

(** The loop over the fallback commands *)
Fixpoint try_fallbacks (device : Device) (device_name primary_command : string)
         (fallback_commands : list string) : Py.result string :=
  match fallback_commands with
  | [] =>
      Py.Raise (Py.VXLANTestException "CommandExecutionError"
                  "All commands failed including fallbacks"
                  (Some device_name) (Some primary_command))
  | fallback_cmd :: rest =>
      match execute_command device device_name fallback_cmd with
      | Py.Ok output => Py.Ok output
      | Py.Raise _ => try_fallbacks device device_name primary_command rest
      end
  end.

Definition execute_with_fallback (device : Device) (device_name primary_command : string)
           (fallback_commands : list string) : Py.result string :=
  match execute_command device device_name primary_command with
  | Py.Ok output => Py.Ok output
  | Py.Raise _ => try_fallbacks device device_name primary_command fallback_commands
  end.

(** *** Helpers *)

Definition is_separator (c : ascii) : bool :=
  Ascii.eqb c "." || Ascii.eqb c ":" || Ascii.eqb c "-".

(** [s[i:j]] for [0 <= i <= j] *)
Definition slice (i j : nat) (s : list ascii) : list ascii :=
  firstn (j - i) (skipn i s).

(** [re.sub(r'[.:-]', '', mac.lower())], then the three groups of four *)
Definition format_mac_address (mac : string) : string :=
  let clean_mac :=
    List.filter (fun c => negb (is_separator c)) (list_ascii_of_string (Py.lower mac)) in
  string_of_list_ascii
    (slice 0 4 clean_mac ++ ["."%char] ++ slice 4 8 clean_mac
     ++ ["."%char] ++ slice 8 12 clean_mac).

(** [[int(match) for match in matches]] *)
Fixpoint ints (matches : list string) : Py.result (list Z) :=
  match matches with
  | [] => Py.Ok []
  | m :: matches' =>
      Py.bind (Py.int_of_digits m) (fun n =>
      Py.bind (ints matches') (fun ns => Py.Ok (n :: ns)))
  end.

Definition extract_numbers_from_string (text : string) : Py.result (list Z) :=
  ints (map Re.group0 (Re.findall number text)).

Definition is_valid_ip (ip : string) : bool := full_match dotted_quad ip.

End MoreUtils.

(** ** vxlan_validators.py: the feature check and the NVE interface check *)

Module MoreValidators.

Import Config Utils Validators Patterns MoreUtils.

(** The values in the details of the feature check: a list of feature
    names, or the list of pairs of a disabled feature and the command
    that enables it *)
Inductive feature_detail : Type :=
| Names (l : list string)
| Disabled (l : list (string * string)).

(** The [ValidationResult] of the feature check *)
Record FeatureResult : Type := {
  f_passed : bool;
  f_message : string;
  f_details : list (string * feature_detail);
  f_recommendations : list string;
  f_severity : Severity
}.

(** The result as the [ValidationResult] it is, its details as values
    of [pyval] *)
Definition detail_value (d : feature_detail) : pyval :=
  match d with
  | Names l => VStrList l
  | Disabled l => VPairs l
  end.

Definition as_result (r : FeatureResult) : ValidationResult :=
  {| passed := f_passed r;
     message := f_message r;
     details := map (fun item => (fst item, detail_value (snd item))) (f_details r);
     recommendations := f_recommendations r;
     severity := f_severity r |}.

(** The dict [required_features] of [validate_vxlan_features] *)
Definition required_features : list (string * string) :=
  [(vn_segment_feature features, "feature vn-segment-vlan-based");
   (nv_overlay_feature features, "feature nv overlay")].

(** One turn of its loop: [acc] is [(missing_features, disabled_features)] *)
Definition feature_step (features : gmap string string)
           (acc : list string * list (string * string)) (item : string * string)
  : list string * list (string * string) :=
  let '(missing_features, disabled_features) := acc in
  let '(feature, enable_cmd) := item in
  match features !! feature with
  | None => (missing_features ++ [feature], disabled_features)
  | Some status =>
      if negb (String.eqb status "enabled")
      then (missing_features, disabled_features ++ [(feature, enable_cmd)])
      else (missing_features, disabled_features)
  end.

Section Validator.

Variable cfg : VXLANConfig.
Variable device : Device.
Variable device_name : string.

(** *** FeatureValidator *)

Definition validate_vxlan_features : FeatureResult :=
  match executor device device_name (show_feature (commands cfg)) with
  | Py.Ok output =>
      let features := parse_feature_status output in
      let '(missing_features, disabled_features) :=
        fold_left (feature_step features) required_features ([], []) in
      match missing_features, disabled_features with
      | [], [] =>
          {| f_passed := true;
             f_message := "All required VXLAN features are enabled";
             f_details := [("enabled_features", Names (map fst required_features))];
             f_recommendations := [];
             f_severity := info |}
      | _, _ =>
          let '(error_details, recommendations) :=
            match disabled_features with
            | [] => ([], [])
            | _ => ([("disabled", Disabled disabled_features)],
                    map (fun item => "Enable with: " +:+ snd item) disabled_features)
            end in
          let '(error_details, recommendations) :=
            match missing_features with
            | [] => (error_details, recommendations)
            | _ => (error_details ++ [("missing", Names missing_features)],
                    recommendations
                    ++ ["Features may not be available on this platform"])
            end in
          {| f_passed := false;
             f_message := "Required VXLAN features not enabled";
             f_details := error_details;
             f_recommendations := recommendations;
             f_severity := critical |}
      end
  | Py.Raise e =>
      {| f_passed := false;
         f_message := "Feature validation failed: " +:+ Py.str_exn e;
         f_details := [];
         f_recommendations := ["Check 'show feature' command output"];
         f_severity := error |}
  end.

(** *** InterfaceValidator *)

Definition validate_nve_interface : ValidationResult :=
  try_except
    (Py.bind (executor device device_name (show_nve_interface (commands cfg)))
       (fun output =>
     if Py.contains "invalid interface" (Py.lower output)
        || Py.contains "not found" (Py.lower output)
     then
       Py.Ok (create_result false "NVE1 interface not configured" []
                ["Configure NVE interface: interface nve1";
                 "Add source-interface configuration";
                 "Enable no shutdown"]
                critical)
     else
       let admin_down := Py.contains "administratively down" (Py.lower output) in
       if admin_down then
         Py.Ok (create_result false "NVE1 interface is administratively down" []
                  ["Enable interface: interface nve1 -> no shutdown"] error)
       else
         let line_protocol_up := Py.contains "line protocol is up" (Py.lower output) in
         if negb line_protocol_up then
           let troubleshooting :=
             ["Check source-interface configuration and status";
              "Verify underlay connectivity";
              "Check routing to peer devices";
              "Verify no conflicting configuration"] in
           Py.Ok (create_result false "NVE1 interface line protocol is down" []
                    troubleshooting error)
         else if negb (Py.contains "source-interface" (Py.lower output)) then
           Py.Ok (create_result false "NVE1 missing source-interface configuration" []
                    ["Configure source interface: interface nve1 -> source-interface <interface>";
                     "Use loopback interface for stability"]
                    error)
         else
           let source_match := Re.search source_interface output in
           let source_interface :=
             match source_match with
             | Some m => Re.group 1 m
             | None => "unknown"
             end in
           Py.Ok (create_result true
                    "NVE1 interface is properly configured and operational"
                    [("source_interface", VStr source_interface);
                     ("admin_status", VStr "up");
                     ("oper_status", VStr "up")]
                    [] info)))
    (fun e =>
       create_result false ("NVE interface validation failed: " +:+ Py.str_exn e) []
         ["Check NVE interface configuration"] error).

End Validator.

End MoreValidators.

(** ** base_test.py: the prerequisite check of the setup and the end of a step *)

Module MoreBaseTest.

Import Config Utils Validators BaseTest.

(** A device of the testbed, with the flag [connected] that
    [connect_to_devices] stored for it *)
Record TestbedDevice : Type := {
  td_name : string;
  td_device : Device;
  td_connected : bool
}.

(** The loop of [validate_prerequisites] *)
Definition incompatible_devices (cfg : VXLANConfig) (testbed : list TestbedDevice)
  : list (string * string) :=
  fold_left
    (fun incompatible d =>
       if negb (td_connected d) then incompatible
       else
         let result := validate_platform_support cfg (td_device d) (td_name d) in
         if negb (passed result)
            && match severity result with
               | error | critical => true
               | _ => false
               end
         then incompatible ++ [(td_name d, message result)]
         else incompatible)
    testbed [].

(** [EnhancedCommonSetup.validate_prerequisites]: the message of
    [self.failed], if it is called *)
Definition validate_prerequisites (cfg : VXLANConfig) (testbed : list TestbedDevice)
  : option string :=
  match incompatible_devices cfg testbed with
  | [] => None
  | incompatible =>
      let error_summary :=
        Py.join Py.nl
          (map (fun item => "  - " +:+ fst item +:+ ": " +:+ snd item) incompatible) in
      Some ("Platform compatibility issues found:" +:+ Py.nl +:+ error_summary)
  end.

(** [StructuredTestStep.__exit__] on an exception; the exceptions of the
    modelled code carry no recommendations *)
Definition exit_step (test_name : string) (e : Py.exn) : StepOutcome :=
  if Py.is_vxlan_exception e then StepFailed (Py.str_exn e)
  else StepFailed ("Unexpected error in " +:+ test_name +:+ ": " +:+ Py.str_exn e).

(** [self.test_results[device][test]] and [self.device_metrics[device][metric]] *)
Definition result_of (self : TestInstance) (device_name test_name : string)
  : option ValidationResult :=
  test_results self !! device_name ≫= fun tests => tests !! test_name.

Definition metric_of (self : TestInstance) (device_name metric_name : string)
  : option pyval :=
  device_metrics self !! device_name ≫= fun metrics => metrics !! metric_name.

End MoreBaseTest.

(** ** enhanced_vxlan_testsuite.py: the steps that record metrics *)

Module MoreSuite.

Import Config Utils Validators BaseTest MoreBaseTest Patterns.

(** [result.details[key]] under [if key in result.details] *)
Fixpoint detail (key : string) (d : list (string * pyval)) : option pyval :=
  match d with
  | [] => None
  | (k, v) :: d' => if String.eqb k key then Some v else detail key d'
  end.

(** [len([p for p in v if p.get('state') == 'Up'])] *)
Definition count_up (v : pyval) : Py.result Z :=
  let no_get (cls : string) {A : Type} (l : list A) : Py.result Z :=
    match l with
    | [] => Py.Ok 0
    | _ => Py.Raise (Py.Exception "AttributeError"
                       ("'" +:+ cls +:+ "' object has no attribute 'get'"))
    end in
  match v with
  | VPeers l => Py.Ok (Z.of_nat (length (List.filter is_up l)))
  | VInt _ => Py.Raise (Py.Exception "TypeError" "'int' object is not iterable")
  | VFloat _ => Py.Raise (Py.Exception "TypeError" "'float' object is not iterable")
  | VStr s => no_get "str" (list_ascii_of_string s)
  | VStrList l => no_get "str" l
  | VPairs l => no_get "tuple" l
  | VVnis l => no_get "VNIInfo" l
  | VNeighbors l => no_get "BGPNeighbor" l
  end.

(** [record_metric] under [if key in result.details] *)
Definition record_detail (self : TestInstance) (device_name metric_name : string)
           (result : ValidationResult) (key : string) : TestInstance :=
  match detail key (details result) with
  | Some v => record_metric self device_name metric_name v
  | None => self
  end.

Section Step.

Variable cfg : VXLANConfig.
Variable device : Device.
Variable device_name : string.

(** The steps of one device; each gives the test case and what the
    step was told *)

Definition test_platform_compatibility (self : TestInstance)
  : TestInstance * StepOutcome :=
  let '(result, (self, outcome)) :=
    validate_and_process device_name "platform_compatibility"
      (Py.Ok (validate_platform_support cfg device device_name)) self in
  let self := record_detail self device_name "nxos_version" result "version" in
  let self := record_detail self device_name "platform" result "platform" in
  (self, outcome).

Definition test_required_features (self : TestInstance)
  : TestInstance * StepOutcome :=
  let '(result, (self, outcome)) :=
    validate_and_process device_name "required_features"
      (Py.Ok (MoreValidators.as_result
                (MoreValidators.validate_vxlan_features cfg device device_name)))
      self in
  let self :=
    record_detail self device_name "enabled_features" result "enabled_features" in
  (self, outcome).

Definition test_nve_interface_status (self : TestInstance)
  : TestInstance * StepOutcome :=
  let '(result, (self, outcome)) :=
    validate_and_process device_name "nve_interface_status"
      (Py.Ok (MoreValidators.validate_nve_interface cfg device device_name)) self in
  let self :=
    if passed result
    then record_detail self device_name "nve_source_interface" result "source_interface"
    else self in
  (self, outcome).

Definition test_nve_peer_relationships (self : TestInstance)
  : TestInstance * StepOutcome :=
  let '(result, (self, outcome)) :=
    validate_and_process device_name "nve_peer_relationships"
      (Py.Ok (validate_nve_peers cfg device device_name)) self in
  let self := record_detail self device_name "nve_peer_count" result "peer_count" in
  match detail "peers" (details result) with
  | Some peers =>
      match count_up peers with
      | Py.Ok up_peers =>
          (record_metric self device_name "nve_peers_up" (VInt up_peers), outcome)
      | Py.Raise e => (self, exit_step "nve_peer_relationships" e)
      end
  | None => (self, outcome)
  end.


Definition test_ingress_replication (self : TestInstance)
  : TestInstance * StepOutcome :=
  let '(result, (self, outcome)) :=
    validate_and_process device_name "ingress_replication"
      (Py.Ok (validate_ingress_replication cfg device device_name)) self in
  let self := record_detail self device_name "replication_method" result "method" in
  (self, outcome).

Definition test_bgp_evpn_neighbors (self : TestInstance)
  : TestInstance * StepOutcome :=
  let '(result, (self, outcome)) :=
    validate_and_process device_name "bgp_evpn_neighbors"
      (Py.Ok (validate_bgp_evpn cfg device device_name)) self in
  let self :=
    record_detail self device_name "bgp_evpn_neighbors" result "established_count" in
  (self, outcome).

Definition test_evpn_route_advertisements (self : TestInstance)
  : TestInstance * StepOutcome :=
  let '(result, (self, outcome)) :=
    validate_and_process device_name "evpn_route_advertisements"
      (Py.Ok (validate_evpn_routes cfg device device_name)) self in
  let self :=
    record_detail self device_name "evpn_route_distinguishers" result "rd_count" in
  (self, outcome).

(** *** VXLANHealthMonitoring.test_resource_utilization *)

(** [round(x, 2)]: the decimal with two places nearest to [x], ties to
    even, read back as a float *)
Definition round2 (x : float) : float :=
  match Prim2SF x with
  | S754_finite s m e =>
      let '(num, den) := PyFloat.fraction m e in
      let t := PyFloat.round_half_even (100 * num) den in
      if t =? 0 then (if s then (-0)%float else 0%float)
      else SF2Prim (PyFloat.SF_quotient (if s then - t else t) 100)
  | _ => x
  end.

(** [len([line for line in vni_output.split('\n') if re.match(r'^\s*\d+', line)])] *)
Definition count_vni_lines (vni_output : string) : nat :=
  length (List.filter (fun line => Re.found (match_ vni_line line))
                      (Py.split Py.newline vni_output)).

Definition test_resource_utilization (self : TestInstance)
  : TestInstance * StepOutcome :=
  match device (show_nve_vni (commands cfg)) with
  | Py.Ok vni_output =>
      let vni_count := Z.of_nat (count_vni_lines vni_output) in
      let self := record_metric self device_name "current_vni_count" (VInt vni_count) in
      let max_vnis := max_vni_count (thresholds cfg) in
      match PyFloat.truediv vni_count max_vnis with
      | Py.Ok q =>
          let percentage := (q * 100)%float in
          let self :=
            record_metric self device_name "vni_utilization_percent"
                          (VFloat (round2 percentage)) in
          let figures :=
            device_name +:+ ": " +:+ Py.str_int vni_count +:+ "/"
            +:+ Py.str_int max_vnis +:+ " (" +:+ PyFloat.format_1f percentage +:+ "%)" in
          if PyFloat.ge percentage 90 then
            (self, StepFailed
               ("Critical VNI usage on " +:+ figures +:+ Py.nl +:+ Py.nl
                +:+ "Recommendations:" +:+ Py.nl
                +:+ "  ‚Ä¢ Immediate action required - approaching VNI limit" +:+ Py.nl
                +:+ "  ‚Ä¢ Review and remove unused VNIs" +:+ Py.nl
                +:+ "  ‚Ä¢ Consider VNI consolidation strategies" +:+ Py.nl
                +:+ "  ‚Ä¢ Plan for additional hardware if needed"))
          else if PyFloat.ge percentage 75 then
            (self, StepFailed
               ("High VNI usage on " +:+ figures +:+ Py.nl +:+ Py.nl
                +:+ "Recommendations:" +:+ Py.nl
                +:+ "  ‚Ä¢ Monitor VNI growth trends" +:+ Py.nl
                +:+ "  ‚Ä¢ Plan for capacity expansion" +:+ Py.nl
                +:+ "  ‚Ä¢ Optimize VNI allocation"))
          else
            (self, StepPassed
               ("VNI usage within acceptable limits on " +:+ figures))
      | Py.Raise e =>
          (self, StepFailed ("Resource utilization check failed on " +:+ device_name
                             +:+ ": " +:+ Py.str_exn e))
      end
  | Py.Raise e =>
      (self, StepFailed ("Resource utilization check failed on " +:+ device_name
                         +:+ ": " +:+ Py.str_exn e))
  end.

End Step.

End MoreSuite.

(** ** Notions for the statements about this code *)

Module MoreSpec.

(** A character that [format_mac_address] keeps: lower-casing leaves it
    alone and it is no separator *)
Definition kept (c : ascii) : Prop :=
  Py.lower_char c = c /\ MoreUtils.is_separator c = false.

(** The tables of results that the test cases of the script hold for a
    device, in the order in which the report visits the test cases, and
    the values they hold for one of its metrics *)
Definition result_tables (parent : gmap string BaseTest.TestInstance) (d : string)
  : list (gmap string Validators.ValidationResult) :=
  omap (fun name => parent !! Py.lower name
                    ≫= fun t => BaseTest.test_results t !! d)
       Suite.test_names.

Definition metric_values (parent : gmap string BaseTest.TestInstance)
           (d metric : string) : list Validators.pyval :=
  omap (fun name => parent !! Py.lower name
                    ≫= fun t => BaseTest.device_metrics t !! d
                    ≫= fun metrics => metrics !! metric)
       Suite.test_names.

(** A line of [show nve vni] that [parse_vni_info] reads without the
    [ValueError] of [int()] *)
Definition vni_line_readable (line : string) : bool :=
  match Utils.vni_of_line line with
  | Py.Ok _ => true
  | Py.Raise _ => false
  end.

(** No result of the table keeps a device from counting as healthy *)
Definition no_blocking (tests : gmap string Validators.ValidationResult) : bool :=
  negb (existsb Suite.is_blocking (Suite.values tests)).

End MoreSpec.

(** ** improved_pyats_vxlan_testsuite.py: the platform check of the setup *)

Module MoreMonolithic.

Import Re MoreBaseTest.

(** [VxlanConstants.VERSION_REGEX], matched with [re.IGNORECASE]:
    [system:\s+version\s+] and then, as group 1, digits, a dot, digits
    and at most one more dot with digits *)
Definition VERSION_REGEX : regex :=
  Cat (LitI "system:") (Cat (Plus space) (Cat (LitI "version") (Cat (Plus space)
    (Grp 1 (Cat (Plus digit) (Cat Config.dot (Cat (Plus digit)
                (Opt (Cat Config.dot (Plus digit)))))))))).

(** [VxlanParser.parse_nxos_version]: a version like 9.3.10 is read as
    9.3; what the body raises is caught and gives [None] *)
Definition parse_nxos_version (output : string) : option float :=
  match search VERSION_REGEX output with
  | Some m =>
      match Py.split "." (group 1 m) with
      | major :: minor :: _ => Some (PyFloat.float_of_decimal major minor)
      | _ => None
      end
  | None => None
  end.

(** [VxlanValidator.validate_nxos_version], with [MIN_NXOS_VERSION = 7.0] *)
Definition validate_nxos_version (version : option float) : bool * string :=
  match version with
  | None => (false, "Could not determine NX-OS version")
  | Some v =>
      if PyFloat.lt v 7
      then (false, "NX-OS " +:+ PyFloat.repr v
                   +:+ " does not support VXLAN (minimum: 7.0)")
      else (true, "NX-OS " +:+ PyFloat.repr v +:+ " supports VXLAN")
  end.

(** [DeviceExecutor.execute_command_safely]; the error raised is a
    [CommandExecutionError] of this file, whose text is its message *)
Definition execute_command_safely (device : Utils.Device) (device_name command : string)
           (error_msg : option string) : Py.result string :=
  match device command with
  | Py.Ok output => Py.Ok output
  | Py.Raise e =>
      let error_message :=
        match Py.truthy error_msg with
        | Some msg => msg
        | None => "Failed to execute '" +:+ command +:+ "'"
        end in
      Py.Raise (Py.Exception "CommandExecutionError"
                  (error_message +:+ ": " +:+ Py.str_exn e))
  end.

(** The loop of [CommonSetup.check_platform_compatibility]; the flag
    [td_connected] stands for [device.connected] *)
Definition incompatible_devices (testbed : list TestbedDevice) : list (string * string) :=
  fold_left
    (fun incompatible d =>
       if negb (td_connected d) then incompatible
       else
         match execute_command_safely (td_device d) (td_name d) "show version" None with
         | Py.Ok output =>
             if negb (Py.contains "nexus" (Py.lower output)
                      && (Py.contains "9000" output
                          || Py.contains "n9k" (Py.lower output)))
             then incompatible ++ [(td_name d, "Platform may not support VXLAN")]
             else
               let version := parse_nxos_version output in
               let '(is_valid, msg) := validate_nxos_version version in
               if negb is_valid then incompatible ++ [(td_name d, msg)]
               else incompatible
         | Py.Raise e => incompatible
         end)
    testbed [].

(** [CommonSetup.check_platform_compatibility]: the message of
    [self.failed], if it is called *)
Definition check_platform_compatibility (testbed : list TestbedDevice) : option string :=
  match incompatible_devices testbed with
  | [] => None
  | incompatible =>
      let error_summary :=
        Py.join Py.nl
          (map (fun item => "  • " +:+ fst item +:+ ": " +:+ snd item) incompatible) in
      Some ("Platform compatibility issues:" +:+ Py.nl +:+ error_summary)
  end.

End MoreMonolithic.

(** ** enhanced_vxlan_testsuite.py: the step on MAC learning *)

Module DataPlane.

Import Config Utils Validators BaseTest Re.

Definition hex_lower : regex :=
  Cls (fun c => Py.is_digit c || Py.between 97 102 c).

(** [[0-9a-f]{4}\.[0-9a-f]{4}\.[0-9a-f]{4}] *)
Definition mac_address : regex :=
  Cat (Rep 4 0 hex_lower) (Cat dot (Cat (Rep 4 0 hex_lower)
    (Cat dot (Rep 4 0 hex_lower)))).

(** The VLANs of the lines of [show nve vni], as the strings matched *)
Definition vxlan_vlans (vni_output : string) : list string :=
  fold_left
    (fun vlans line =>
       match search vlan_number line with
       | Some vlan_match => vlans ++ [group 1 vlan_match]
       | None => vlans
       end)
    (Py.split Py.newline vni_output) [].

Definition mac_command (vlan : string) : string :=
  "show mac address-table vlan " +:+ vlan.

(** One turn of the loop over the first VLANs: [acc] is
    [(mac_learned, checked_vlans)] *)
Definition mac_step (device : Device) (acc : bool * list string) (vlan : string)
  : bool * list string :=
  let '(mac_learned, checked_vlans) := acc in
  match device (mac_command vlan) with
  | Py.Ok mac_output =>
      if found (search mac_address (Py.lower mac_output))
      then (true, checked_vlans ++ [vlan])
      else (mac_learned, checked_vlans)
  | Py.Raise e => (mac_learned, checked_vlans)
  end.

(** The step of one device *)
Definition test_mac_address_learning (cfg : VXLANConfig) (device : Device)
           (device_name : string) (self : TestInstance) : TestInstance * StepOutcome :=
  match device (show_nve_vni (commands cfg)) with
  | Py.Ok vni_output =>
      let vxlan_vlans := vxlan_vlans vni_output in
      match vxlan_vlans with
      | [] => (self, StepSkipped ("No VXLAN VLANs found on " +:+ device_name))
      | _ =>
          let '(mac_learned, checked_vlans) :=
            fold_left (mac_step device) (firstn 3 vxlan_vlans) (false, []) in
          if mac_learned then
            (record_metric self device_name "mac_learning_vlans"
               (VStrList checked_vlans),
             StepPassed ("MAC addresses learned in VXLAN VLANs on " +:+ device_name))
          else
            (self, StepFailed ("No MAC addresses learned in VXLAN VLANs on "
                               +:+ device_name))
      end
  | Py.Raise e =>
      (self, StepFailed ("MAC learning validation failed on " +:+ device_name
                         +:+ ": " +:+ Py.str_exn e))
  end.

End DataPlane.
(** * Properties *)

(** Opens a check up to the answer of the device to its command. *)
Ltac open_check :=
  unfold Validators.validate_platform_support, Validators.validate_nve_peers,
    Validators.validate_vni_configuration, Validators.validate_ingress_replication,
    Validators.validate_bgp_evpn, Validators.validate_evpn_routes,
    Validators.executor, Utils.execute_command.

(** Follows the check once the command has answered [H]. *)
Ltac answer H :=
  rewrite H; unfold Py.bind, Validators.try_except.


(** ** Floats: the order facts the threshold rules rely on *)

Lemma SFcompare_antisym (x y : spec_float) :
  SFcompare y x = option_map CompOpp (SFcompare x y).
Proof.
  destruct x as [sx|sx| |sx mx ex], y as [sy|sy| |sy my ey]; simpl;
    try reflexivity;
    try (destruct sx; reflexivity);
    try (destruct sy; reflexivity);
    try (destruct sx, sy; reflexivity).
  destruct sx, sy; simpl; try reflexivity;
    rewrite (Z.compare_antisym ey ex);
    destruct (ey ?= ex)%Z eqn:E; simpl; try reflexivity;
    change (Pos.compare_cont Eq mx my) with (mx ?= my)%positive;
    change (Pos.compare_cont Eq my mx) with (my ?= mx)%positive;
    rewrite (Pos.compare_antisym my mx);
    destruct (my ?= mx)%positive; reflexivity.
Qed.

Lemma float_lt_not_ge (x y : float) :
  PyFloat.lt x y = true -> PyFloat.ge x y = false.
Proof.
  unfold PyFloat.lt, PyFloat.ge.
  rewrite ltb_spec, leb_spec. unfold SFltb, SFleb.
  rewrite (SFcompare_antisym (Prim2SF x) (Prim2SF y)).
  destruct (SFcompare (Prim2SF x) (Prim2SF y)) as [[]|]; simpl; congruence.
Qed.

Lemma float_not_ge_lt (x y z : float) :
  Prim2SF y <> S754_nan ->
  PyFloat.ge x y = false -> PyFloat.ge x z = true -> PyFloat.lt x y = true.
Proof.
  unfold PyFloat.lt, PyFloat.ge.
  rewrite ltb_spec, !leb_spec. unfold SFltb, SFleb.
  rewrite (SFcompare_antisym (Prim2SF x) (Prim2SF y)).
  intros Hy Hxy Hxz.
  destruct (SFcompare (Prim2SF x) (Prim2SF y)) as [[]|] eqn:E;
    simpl in *; try congruence.
  destruct (Prim2SF x) as [sx|sx| |sx mx ex].
  - destruct (Prim2SF y) as [sy|sy| |sy my ey]; simpl in E; congruence.
  - destruct (Prim2SF y) as [sy|sy| |sy my ey]; simpl in E; congruence.
  - destruct (Prim2SF z); simpl in Hxz; discriminate.
  - destruct (Prim2SF y) as [sy|sy| |sy my ey]; simpl in E; congruence.
Qed.

(** ** Strings and loops *)

Lemma append_cons (c : ascii) (s t : string) :
  String c s +:+ t = String c (s +:+ t).
Proof. reflexivity. Qed.

Lemma append_empty (t : string) : EmptyString +:+ t = t.
Proof. reflexivity. Qed.

Lemma prefix_append (sub s : string) :
  String.prefix sub s = true <-> exists post : string, s = sub +:+ post.
Proof.
  revert s. induction sub as [|a sub IH]; intros s.
  - split; [intros _; exists s; reflexivity | destruct s; reflexivity].
  - destruct s as [|b s]; simpl.
    + split; [discriminate | intros [post H]; rewrite append_cons in H; discriminate].
    + destruct (ascii_dec a b) as [->|Hab].
      * rewrite IH. split; intros [post H]; exists post.
        -- rewrite append_cons. congruence.
        -- rewrite append_cons in H. congruence.
      * split; [discriminate | intros [post H]; rewrite append_cons in H; congruence].
Qed.

Lemma contains_cons (sub : string) (c : ascii) (s : string) :
  Py.contains sub (String c s)
  = String.prefix sub (String c s) || Py.contains sub s.
Proof. reflexivity. Qed.

Lemma contains_occurs (sub s : string) :
  Py.contains sub s = true <-> Spec.occurs sub s.
Proof.
  unfold Spec.occurs. split.
  - induction s as [|c s IH].
    + intros H. exists EmptyString. apply prefix_append.
      change (String.prefix sub EmptyString || false = true) in H.
      rewrite orb_false_r in H. exact H.
    + rewrite contains_cons, orb_true_iff. intros [H|H].
      * apply prefix_append in H. exists EmptyString. exact H.
      * destruct (IH H) as (pre & post & ->). exists (String c pre), post. reflexivity.
  - intros (pre & post & ->). induction pre as [|c pre IH].
    + rewrite append_empty.
      assert (H : String.prefix sub (sub +:+ post) = true)
        by (apply prefix_append; exists post; reflexivity).
      destruct (sub +:+ post) as [|c t].
      * change (String.prefix sub EmptyString || false = true).
        rewrite H. reflexivity.
      * rewrite contains_cons, H. reflexivity.
    + rewrite append_cons, contains_cons, IH. apply orb_true_r.
Qed.

Lemma contains_false_occurs (sub s : string) :
  Py.contains sub s = false <-> ~ Spec.occurs sub s.
Proof.
  rewrite <- contains_occurs. destruct (Py.contains sub s); split; congruence.
Qed.

(** A loop that appends to its accumulator collects, in order, what each
    turn appends. *)
Lemma fold_left_appends {A B : Type} (step : list A -> B -> list A)
      (f : B -> list A) (l : list B) (init : list A) :
  (forall acc x, step acc x = acc ++ f x) ->
  fold_left step l init = init ++ flat_map f l.
Proof.
  intros Hstep. revert init. induction l as [|x l IH]; intros init; simpl.
  - symmetry. apply app_nil_r.
  - rewrite IH, Hstep, <- app_assoc. reflexivity.
Qed.

(** What the peer loop appends for one line *)
Lemma parse_nve_peers_lines (output : string) :
  Utils.parse_nve_peers output
  = flat_map
      (fun line =>
         match Re.search Config.ip_address line with
         | Some m =>
             [{| Utils.p_ip := Re.group0 m;
                 Utils.p_state := if Py.contains "Up" line then "Up" else "Down" |}]
         | None => []
         end)
      (Py.split Py.newline output).
Proof.
  unfold Utils.parse_nve_peers.
  rewrite fold_left_appends with
    (f := fun line =>
            match Re.search Config.ip_address line with
            | Some m =>
                [{| Utils.p_ip := Re.group0 m;
                    Utils.p_state := if Py.contains "Up" line then "Up" else "Down" |}]
            | None => []
            end).
  - reflexivity.
  - intros acc line. destruct (Re.search Config.ip_address line).
    + reflexivity.
    + symmetry. apply app_nil_r.
Qed.

(** C10.  Every peer record that the NVE-peers extractor produces has
    state 'Up' or 'Down'; the records are, in order, those of the lines
    that hold an IP literal, and the state of a record is 'Up' exactly
    when the two characters 'Up' occur somewhere in its line, 'Down'
    otherwise, whether or not the line says 'Down'.  A line of a down
    peer that also holds 'Uptime' is therefore read as Up.  The inline
    loop of the monolithic suite computes the same list. *)
Theorem nve_peer_state_is_up_iff_line_holds_up (output : string) :
  let lines := Py.split Py.newline output in
  let peers := Utils.parse_nve_peers output in
  Forall (fun p => Utils.p_state p = "Up" \/ Utils.p_state p = "Down") peers
  /\ Forall2
       (fun line p =>
          (exists m, Re.search Config.ip_address line = Some m
                     /\ Utils.p_ip p = Re.group0 m)
          /\ (Utils.p_state p = "Up" <-> Spec.occurs "Up" line)
          /\ (Utils.p_state p = "Down" <-> ~ Spec.occurs "Up" line))
       (List.filter Spec.has_ip lines) peers
  /\ Monolithic.parse_peers output = peers
  /\ Utils.parse_nve_peers "10.0.0.2 Down Uptime 00:05"
     = [{| Utils.p_ip := "10.0.0.2"; Utils.p_state := "Up" |}]
  /\ Utils.parse_nve_peers "10.0.0.3 unreachable"
     = [{| Utils.p_ip := "10.0.0.3"; Utils.p_state := "Down" |}].
Proof.
  intros lines peers. subst peers. rewrite parse_nve_peers_lines. fold lines.
  split; [|split; [|split; [|split]]].
  - induction lines as [|line lines IH]; simpl; [constructor|].
    apply Forall_app. split; [|exact IH].
    destruct (Re.search Config.ip_address line); [|constructor].
    constructor; [|constructor]. simpl.
    destruct (Py.contains "Up" line); [left|right]; reflexivity.
  - induction lines as [|line lines IH]; simpl; [constructor|].
    unfold Spec.has_ip at 1.
    destruct (Re.search Config.ip_address line) as [m|] eqn:Hm; [|exact IH].
    simpl. constructor; [|exact IH]. simpl.
    split; [exists m; split; [exact Hm | reflexivity]|].
    rewrite <- contains_occurs.
    destruct (Py.contains "Up" line); split; split; congruence.
  - unfold lines. rewrite <- parse_nve_peers_lines. reflexivity.
  - vm_compute. reflexivity.
  - vm_compute. reflexivity.
Qed.

(** ** The state-majority rule *)

Lemma filter_length_bound {A : Type} (f : A -> bool) (l : list A) :
  (length (List.filter f l) <= length l)%nat.
Proof.
  induction l as [|x l IH]; simpl; [lia|]. destruct (f x); simpl; lia.
Qed.

(** C2.  On a non-empty collection of peer records, with [up] the
    number of records in state 'Up' and [total] the number of records:
    the peer check is critical when [up = 0]; fails with severity error,
    a message that reads [up/total], and the addresses of the peers that
    are not up when [0 < up < total]; and passes when [up = total].  The
    BGP EVPN check does the same on the neighbor records, a neighbor
    being healthy when its state is 'established' in any letter case. *)
Theorem state_majority_rule
        (cfg : Config.VXLANConfig) (device : Utils.Device) (device_name : string)
        (peer_output bgp_output : string)
        (Hpeer_cmd : device (Config.show_nve_peers (Config.commands cfg))
                     = Py.Ok peer_output)
        (Hheader : Py.contains "Peer-IP" peer_output = true)
        (Hpeers : Utils.parse_nve_peers peer_output <> [])
        (Hbgp_cmd : device (Config.show_bgp_evpn_summary (Config.commands cfg))
                    = Py.Ok bgp_output)
        (Hrunning : Py.contains "bgp is not running" (Py.lower bgp_output) = false)
        (Hcommand : Py.contains "invalid command" (Py.lower bgp_output) = false)
        (Hneighbors : Utils.parse_bgp_neighbors bgp_output <> []) :
  (let peers := Utils.parse_nve_peers peer_output in
   let up := length (List.filter Validators.is_up peers) in
   let total := length peers in
   let down := List.filter (fun p => negb (Validators.is_up p)) peers in
   let r := Validators.validate_nve_peers cfg device device_name in
   (up = 0%nat ->
    Validators.passed r = false /\ Validators.severity r = Validators.critical)
   /\ ((0 < up < total)%nat ->
       Validators.passed r = false
       /\ Validators.severity r = Validators.error
       /\ Validators.message r
          = "Only " +:+ pretty up +:+ "/" +:+ pretty total +:+ " NVE peers are up"
       /\ In ("Check connectivity to down peers: "
              +:+ Py.repr_str_list (map Utils.p_ip down))
             (Validators.recommendations r)
       /\ Validators.dict_get "down_peers" (Validators.details r) (Validators.VInt 0)
          = Validators.VPeers down)
   /\ (up = total -> Validators.passed r = true))
  /\ (let neighbors := Utils.parse_bgp_neighbors bgp_output in
      let up := length (List.filter Validators.is_established neighbors) in
      let total := length neighbors in
      let down := List.filter (fun n => negb (Validators.is_established n)) neighbors in
      let r := Validators.validate_bgp_evpn cfg device device_name in
      (up = 0%nat ->
       Validators.passed r = false /\ Validators.severity r = Validators.critical)
      /\ ((0 < up < total)%nat ->
          Validators.passed r = false
          /\ Validators.severity r = Validators.error
          /\ Validators.message r
             = "Only " +:+ pretty up +:+ "/" +:+ pretty total
               +:+ " BGP EVPN neighbors established"
          /\ In ("Troubleshoot down neighbors: "
                 +:+ Py.repr_str_list (map Utils.n_ip down))
                (Validators.recommendations r)
          /\ Validators.dict_get "down" (Validators.details r) (Validators.VInt 0)
             = Validators.VNeighbors down)
      /\ (up = total -> Validators.passed r = true)).
Proof.
  split.
  - cbv zeta.
    open_check. answer Hpeer_cmd.
    rewrite Hheader. cbn [negb].
    destruct (Utils.parse_nve_peers peer_output) as [|p l]; [congruence|].
    set (peers := p :: l).
    pose proof (filter_length_bound Validators.is_up peers) as Hle.
    assert (Htotal : (0 < length peers)%nat) by (simpl; lia).
    destruct (Nat.eqb (length (List.filter Validators.is_up peers)) 0) eqn:E0.
    + apply Nat.eqb_eq in E0.
      repeat split; intros; try reflexivity; exfalso; lia.
    + apply Nat.eqb_neq in E0.
      destruct (Nat.ltb (length (List.filter Validators.is_up peers)) (length peers))
        eqn:E1.
      * apply Nat.ltb_lt in E1.
        repeat split; intros; try reflexivity; try (exfalso; lia).
        left. reflexivity.
      * apply Nat.ltb_ge in E1.
        repeat split; intros; try reflexivity; exfalso; lia.
  - cbv zeta.
    open_check. answer Hbgp_cmd.
    rewrite Hrunning, Hcommand. cbn [orb].
    destruct (Utils.parse_bgp_neighbors bgp_output) as [|n l]; [congruence|].
    set (neighbors := n :: l).
    pose proof (filter_length_bound Validators.is_established neighbors) as Hle.
    assert (Htotal : (0 < length neighbors)%nat) by (simpl; lia).
    destruct (Nat.eqb (length (List.filter Validators.is_established neighbors)) 0)
      eqn:E0.
    + apply Nat.eqb_eq in E0.
      repeat split; intros; try reflexivity; exfalso; lia.
    + apply Nat.eqb_neq in E0.
      destruct (Nat.ltb (length (List.filter Validators.is_established neighbors))
                        (length neighbors)) eqn:E1.
      * apply Nat.ltb_lt in E1.
        repeat split; intros; try reflexivity; try (exfalso; lia).
        left. reflexivity.
      * apply Nat.ltb_ge in E1.
        repeat split; intros; try reflexivity; exfalso; lia.
Qed.

(** The rule on the sample device: one peer of two is up, one neighbor
    of two is established. *)
Lemma state_majority_rule_witness :
  let r := Validators.validate_nve_peers Config.CONFIG Examples.leaf1 "leaf1" in
  let b := Validators.validate_bgp_evpn Config.CONFIG Examples.leaf1 "leaf1" in
  (Validators.passed r = false
   /\ Validators.severity r = Validators.error
   /\ Validators.message r = "Only 1/2 NVE peers are up"
   /\ In "Check connectivity to down peers: ['10.0.0.2']" (Validators.recommendations r))
  /\ (Validators.passed b = false
      /\ Validators.severity b = Validators.error
      /\ Validators.message b = "Only 1/2 BGP EVPN neighbors established"
      /\ In "Troubleshoot down neighbors: ['10.1.1.2']" (Validators.recommendations b)).
Proof.
  assert (Hp : Utils.parse_nve_peers Examples.peers_output <> [])
    by (vm_compute; discriminate).
  assert (Hn : Utils.parse_bgp_neighbors Examples.bgp_output <> [])
    by (vm_compute; discriminate).
  destruct (state_majority_rule Config.CONFIG Examples.leaf1 "leaf1"
              Examples.peers_output Examples.bgp_output
              eq_refl eq_refl Hp eq_refl eq_refl eq_refl Hn)
    as [(_ & Hpeers & _) (_ & Hbgp & _)].
  split.
  - destruct Hpeers as (H1 & H2 & H3 & H4 & _); [vm_compute; lia|].
    repeat split; assumption.
  - destruct Hbgp as (H1 & H2 & H3 & H4 & _); [vm_compute; lia|].
    repeat split; assumption.
Defined.

(** ** The presence rule *)

(** C3, as the code has it.  The VNI check answers an output without the
    token 'VNI' with a failing result of severity warning, and an output
    that holds the token but no VNI record with a failing result of
    severity error.  The BGP EVPN check answers an empty neighbor
    collection with a failing result of severity error.  The peer check
    answers an output without 'Peer-IP' with a passing result of
    severity info (the optional-peer policy), and an output that holds
    the header but no peer record with a failing result of severity
    warning. *)
Theorem presence_rule
        (cfg : Config.VXLANConfig) (device : Utils.Device) (device_name : string)
        (vni_output bgp_output peer_output : string)
        (Hvni_cmd : device (Config.show_nve_vni (Config.commands cfg))
                    = Py.Ok vni_output)
        (Hbgp_cmd : device (Config.show_bgp_evpn_summary (Config.commands cfg))
                    = Py.Ok bgp_output)
        (Hpeer_cmd : device (Config.show_nve_peers (Config.commands cfg))
                     = Py.Ok peer_output) :
  let v := Validators.validate_vni_configuration cfg device device_name in
  let b := Validators.validate_bgp_evpn cfg device device_name in
  let p := Validators.validate_nve_peers cfg device device_name in
  (Py.contains "VNI" vni_output = false ->
   Validators.passed v = false /\ Validators.severity v = Validators.warning)
  /\ (Py.contains "VNI" vni_output = true ->
      Utils.parse_vni_info vni_output = [] ->
      Validators.passed v = false /\ Validators.severity v = Validators.error)
  /\ (Utils.parse_bgp_neighbors bgp_output = [] ->
      Validators.passed b = false /\ Validators.severity b = Validators.error)
  /\ (Py.contains "Peer-IP" peer_output = false ->
      Validators.passed p = true /\ Validators.severity p = Validators.info)
  /\ (Py.contains "Peer-IP" peer_output = true ->
      Utils.parse_nve_peers peer_output = [] ->
      Validators.passed p = false /\ Validators.severity p = Validators.warning).
Proof.
  cbv zeta.
  open_check. rewrite Hvni_cmd, Hbgp_cmd. answer Hpeer_cmd.
  split; [|split; [|split; [|split]]].
  - intros ->. split; reflexivity.
  - intros -> ->. split; reflexivity.
  - intros ->.
    destruct (Py.contains "bgp is not running" (Py.lower bgp_output)
              || Py.contains "invalid command" (Py.lower bgp_output));
      split; reflexivity.
  - intros ->. split; reflexivity.
  - intros -> ->. split; reflexivity.
Qed.

(** The rule on a device with empty tables and on one whose tables hold
    only their headers. *)
Lemma presence_rule_witness :
  (let v := Validators.validate_vni_configuration Config.CONFIG Examples.bare "leaf1" in
   let b := Validators.validate_bgp_evpn Config.CONFIG Examples.bare "leaf1" in
   let p := Validators.validate_nve_peers Config.CONFIG Examples.bare "leaf1" in
   Validators.severity v = Validators.warning
   /\ Validators.severity b = Validators.error
   /\ (Validators.passed p = true /\ Validators.severity p = Validators.info))
  /\ (let v := Validators.validate_vni_configuration
                 Config.CONFIG Examples.headers_only "leaf1" in
      let p := Validators.validate_nve_peers
                 Config.CONFIG Examples.headers_only "leaf1" in
      Validators.severity v = Validators.error
      /\ Validators.severity p = Validators.warning).
Proof.
  split.
  - destruct (presence_rule Config.CONFIG Examples.bare "leaf1" "" "" ""
                eq_refl eq_refl eq_refl) as (Hv & _ & Hb & Hp & _).
    split; [apply Hv; reflexivity|].
    split; [apply Hb; reflexivity|].
    apply Hp. reflexivity.
  - destruct (presence_rule Config.CONFIG Examples.headers_only "leaf1"
                Examples.vni_header "Neighbor        V    AS" Examples.peers_header
                eq_refl eq_refl eq_refl) as (_ & Hv & _ & _ & Hp).
    split.
    + apply Hv; vm_compute; reflexivity.
    + apply Hp; vm_compute; reflexivity.
Defined.

(** C3 as stated fails on a VNI table that holds its header and no
    record: the VNI collection is empty and the severity is error, not
    warning. *)
Lemma presence_rule_empty_vni_table_is_error :
  let r := Validators.validate_vni_configuration
             Config.CONFIG Examples.headers_only "leaf1" in
  Utils.parse_vni_info Examples.vni_header = []
  /\ Validators.passed r = false
  /\ Validators.severity r = Validators.error
  /\ Validators.severity r <> Validators.warning.
Proof.
  vm_compute. repeat split; try reflexivity. discriminate.
Qed.

(** ** The association rule *)









(** ** The version rule *)

(** C5, as the code has it.  The platform check never raises.  A failed
    command gives a failing result of severity error.  Output that does
    not name a Nexus 9000 ('nexus' in any letter case and '9000') gives a
    failing result of severity warning, before any version is parsed.
    On output that names one: no parsable version string gives
    [None] and the failing result of severity error with the message
    'Could not determine NX-OS version'; a version below 7.0 gives a
    failing result of severity critical; any other version passes.  The
    stand-alone rule [validate_nxos_version] fails on [None] with the
    same message and on a version below 7.0, and passes otherwise. *)
Theorem version_rule
        (cfg : Config.VXLANConfig) (device : Utils.Device) (device_name : string)
        (output : string)
        (Hcmd : device (Config.show_version (Config.commands cfg)) = Py.Ok output) :
  let r := Validators.validate_platform_support cfg device device_name in
  let version := Utils.parse_nxos_version output in
  (Re.search Config.nxos_version output = None -> version = None)
  /\ (Py.contains "nexus" (Py.lower output) = false \/ Py.contains "9000" output = false ->
      Validators.passed r = false /\ Validators.severity r = Validators.warning)
  /\ (Py.contains "nexus" (Py.lower output) = true ->
      Py.contains "9000" output = true ->
      (version = None ->
       Validators.passed r = false
       /\ Validators.severity r = Validators.error
       /\ Validators.message r = "Could not determine NX-OS version")
      /\ (forall v, version = Some v -> PyFloat.lt v 7 = true ->
          Validators.passed r = false /\ Validators.severity r = Validators.critical)
      /\ (forall v, version = Some v -> PyFloat.lt v 7 = false ->
          Validators.passed r = true))
  /\ Utils.validate_nxos_version None = (false, "Could not determine NX-OS version")
  /\ (forall v, fst (Utils.validate_nxos_version (Some v)) = negb (PyFloat.lt v 7)).
Proof.
  cbv zeta.
  open_check. answer Hcmd.
  split; [|split; [|split; [|split]]].
  - unfold Utils.parse_nxos_version. intros ->. reflexivity.
  - intros [-> | ->]; cbn [negb orb]; rewrite ?orb_true_r; split; reflexivity.
  - intros -> ->. cbn [negb orb].
    split; [|split].
    + intros ->. repeat split; reflexivity.
    + intros v -> ->. split; reflexivity.
    + intros v -> ->. reflexivity.
  - reflexivity.
  - intros v. unfold Utils.validate_nxos_version.
    destruct (PyFloat.lt v 7); reflexivity.
Qed.

(** A failed command is answered with a result, not an exception. *)
Lemma platform_check_of_failed_command
      (cfg : Config.VXLANConfig) (device : Utils.Device) (device_name : string)
      (e : Py.exn) :
  device (Config.show_version (Config.commands cfg)) = Py.Raise e ->
  let r := Validators.validate_platform_support cfg device device_name in
  Validators.passed r = false /\ Validators.severity r = Validators.error.
Proof.
  intros Hcmd. cbv zeta.
  open_check. rewrite Hcmd. split; reflexivity.
Qed.

(** The rule on four devices: NX-OS 9.3 passes, NX-OS 6.2 is critical, a
    Nexus 9000 without version line is an error, another platform is a
    warning. *)
Lemma version_rule_witness :
  Validators.passed
    (Validators.validate_platform_support Config.CONFIG Examples.nexus_93 "n1") = true
  /\ Validators.severity
       (Validators.validate_platform_support Config.CONFIG Examples.nexus_62 "n2")
     = Validators.critical
  /\ Validators.severity
       (Validators.validate_platform_support Config.CONFIG Examples.nexus_unversioned "n3")
     = Validators.error
  /\ Validators.severity
       (Validators.validate_platform_support Config.CONFIG Examples.catalyst "c1")
     = Validators.warning.
Proof.
  split; [|split; [|split]].
  - destruct (version_rule Config.CONFIG Examples.nexus_93 "n1"
                Examples.version_93 eq_refl) as (_ & _ & H & _).
    destruct H as (_ & _ & H); [vm_compute; reflexivity ..|].
    eapply H; vm_compute; reflexivity.
  - destruct (version_rule Config.CONFIG Examples.nexus_62 "n2"
                Examples.version_62 eq_refl) as (_ & _ & H & _).
    destruct H as (_ & H & _); [vm_compute; reflexivity ..|].
    eapply H; vm_compute; reflexivity.
  - destruct (version_rule Config.CONFIG Examples.nexus_unversioned "n3"
                Examples.version_missing eq_refl) as (_ & _ & H & _).
    destruct H as (H & _); [vm_compute; reflexivity ..|].
    apply H. vm_compute. reflexivity.
  - destruct (version_rule Config.CONFIG Examples.catalyst "c1"
                Examples.version_other_platform eq_refl) as (_ & H & _).
    apply H. left. vm_compute. reflexivity.
Defined.

(** C5 as stated fails on output that holds no version string and does
    not name a Nexus 9000: the version is [None], yet the result is a
    warning, not the error result. *)
Lemma version_rule_other_platform_is_warning :
  let r := Validators.validate_platform_support Config.CONFIG Examples.catalyst "c1" in
  Utils.parse_nxos_version Examples.version_other_platform = None
  /\ Validators.passed r = false
  /\ Validators.severity r = Validators.warning
  /\ Validators.severity r <> Validators.error.
Proof.
  vm_compute. repeat split; try reflexivity. discriminate.
Qed.

(** ** The resource-threshold rule *)

(** The division of two integers succeeds when the divisor is not zero
    and the dividend is within the range of a float. *)
Lemma truediv_total (a b : Z) :
  b <> 0 -> Z.abs a < PyFloat.overflow_bound ->
  PyFloat.truediv a b = Py.Ok (SF2Prim (PyFloat.SF_quotient a b)).
Proof.
  intros Hb Ha. unfold PyFloat.truediv.
  destruct (b =? 0) eqn:E; [apply Z.eqb_eq in E; contradiction|].
  destruct (PyFloat.overflow_bound * Z.abs b <=? Z.abs a) eqn:Eo; [|reflexivity].
  apply Z.leb_le in Eo. exfalso.
  generalize dependent PyFloat.overflow_bound. intros bound Ha Eo. nia.
Qed.

(** With a maximum of zero the usage rule raises, where the helper
    [calculate_percentage] answers 0.0. *)
Lemma usage_rule_divides_by_the_maximum (c : Z) :
  Validators._validate_vni_usage (Config.with_max_vni_count 0 Config.CONFIG) c
  = Py.Raise (Py.Exception "ZeroDivisionError" "division by zero")
  /\ Utils.validate_resource_usage "vni" c 0
     = Py.Raise (Py.Exception "ZeroDivisionError" "division by zero")
  /\ Utils.calculate_percentage c 0 = Py.Ok 0%float.
Proof. repeat split; reflexivity. Qed.

(** The three tiers of a rule with the cut points [w < c], read off the
    two tests [p >= c] and [p >= w] that the code makes. *)
Lemma three_tiers (p w c : float) (A : Type) (critical_r warning_r ok_r : A) :
  Prim2SF c <> S754_nan ->
  let r := if PyFloat.ge p c then critical_r
           else if PyFloat.ge p w then warning_r else ok_r in
  (PyFloat.ge p c = true -> r = critical_r)
  /\ (PyFloat.ge p w = true -> PyFloat.lt p c = true -> r = warning_r)
  /\ (PyFloat.ge p c = false ->
      ~ (PyFloat.ge p w = true /\ PyFloat.lt p c = true) -> r = ok_r).
Proof.
  intros Hc r. subst r. split; [|split].
  - intros ->. reflexivity.
  - intros Hw Hlt. rewrite (float_lt_not_ge _ _ Hlt), Hw. reflexivity.
  - intros Hge Hnot. rewrite Hge.
    destruct (PyFloat.ge p w) eqn:Hw; [|reflexivity].
    exfalso. apply Hnot. split; [reflexivity|].
    exact (float_not_ge_lt p c w Hc Hge Hw).
Qed.

(** C1, as the code has it.  For a current count [c] and a maximum [m]
    that is not zero, the resource-threshold rule computes the
    percentage [p = c / m * 100] and, with its cut points [w < k]: fails
    with severity critical when [p >= k], fails with severity warning
    when [w <= p < k], and passes otherwise.  The cut points are
    literals of the code, whatever the configuration: the VNI usage rule
    of the validators has 75 and 90 and the configured maximum;
    [validate_resource_usage] has 75 and 90, and 70 and 85 for the
    resource type 'vni'. *)
Theorem resource_threshold_rule
        (cfg : Config.VXLANConfig) (resource_type : string) (c m : Z)
        (Hcfg : Config.max_vni_count (Config.thresholds cfg) <> 0)
        (Hm : m <> 0)
        (Hc : Z.abs c < PyFloat.overflow_bound) :
  (exists q r,
      PyFloat.truediv c (Config.max_vni_count (Config.thresholds cfg)) = Py.Ok q
      /\ Validators._validate_vni_usage cfg c = Py.Ok r
      /\ let p := (q * 100)%float in
         Validators.dict_get "percentage" (Validators.details r) (Validators.VInt 0)
         = Validators.VFloat p
         /\ (PyFloat.ge p 90 = true ->
             Validators.passed r = false
             /\ Validators.severity r = Validators.critical)
         /\ (PyFloat.ge p 75 = true -> PyFloat.lt p 90 = true ->
             Validators.passed r = false
             /\ Validators.severity r = Validators.warning)
         /\ (PyFloat.ge p 90 = false ->
             ~ (PyFloat.ge p 75 = true /\ PyFloat.lt p 90 = true) ->
             Validators.passed r = true))
  /\ (let w := Utils.warning_threshold resource_type in
      let k := Utils.critical_threshold resource_type in
      PyFloat.lt w k = true
      /\ (resource_type = "vni" -> w = 70%float /\ k = 85%float)
      /\ (resource_type <> "vni" -> w = 75%float /\ k = 90%float)
      /\ exists q ok u,
          PyFloat.truediv c m = Py.Ok q
          /\ Utils.validate_resource_usage resource_type c m = Py.Ok (ok, u)
          /\ let p := (q * 100)%float in
             Utils.u_percentage u = p
             /\ (PyFloat.ge p k = true -> ok = false /\ Utils.u_level u = "critical")
             /\ (PyFloat.ge p w = true -> PyFloat.lt p k = true ->
                 ok = false /\ Utils.u_level u = "warning")
             /\ (PyFloat.ge p k = false ->
                 ~ (PyFloat.ge p w = true /\ PyFloat.lt p k = true) ->
                 ok = true)).
Proof.
  split.
  - exists (SF2Prim (PyFloat.SF_quotient c (Config.max_vni_count (Config.thresholds cfg)))).
    unfold Validators._validate_vni_usage.
    rewrite (truediv_total _ _ Hcfg Hc). unfold Py.bind.
    set (p := (SF2Prim _ * 100)%float).
    match goal with
    | |- context [if PyFloat.ge p 90 then Py.Ok ?a
                  else if PyFloat.ge p 75 then Py.Ok ?b else Py.Ok ?d] =>
        destruct (three_tiers p 75 90 _ a b d ltac:(vm_compute; discriminate))
          as (H1 & H2 & H3);
        exists (if PyFloat.ge p 90 then a else if PyFloat.ge p 75 then b else d)
    end.
    cbv zeta in H1, H2, H3.
    split; [reflexivity|].
    split.
    { destruct (PyFloat.ge p 90); [|destruct (PyFloat.ge p 75)]; reflexivity. }
    cbv zeta. split; [|split; [|split]].
    + destruct (PyFloat.ge p 90); [|destruct (PyFloat.ge p 75)]; reflexivity.
    + intros H. rewrite (H1 H). split; reflexivity.
    + intros Hw Hk. rewrite (H2 Hw Hk). split; reflexivity.
    + intros Hk Hn. rewrite (H3 Hk Hn). reflexivity.
  - cbv zeta.
    assert (Hcut : Prim2SF (Utils.critical_threshold resource_type) <> S754_nan).
    { unfold Utils.critical_threshold.
      destruct (String.eqb resource_type "vni"); vm_compute; discriminate. }
    split; [|split; [|split]].
    + unfold Utils.warning_threshold, Utils.critical_threshold.
      destruct (String.eqb resource_type "vni"); vm_compute; reflexivity.
    + intros ->. split; reflexivity.
    + intros Hrt. apply String.eqb_neq in Hrt.
      unfold Utils.warning_threshold, Utils.critical_threshold.
      rewrite Hrt. split; reflexivity.
    + exists (SF2Prim (PyFloat.SF_quotient c m)).
      unfold Utils.validate_resource_usage.
      rewrite (truediv_total _ _ Hm Hc). unfold Py.bind.
      set (p := (SF2Prim _ * 100)%float).
      match goal with
      | |- context [if PyFloat.ge p ?k then Py.Ok ?a
                    else if PyFloat.ge p ?w then Py.Ok ?b else Py.Ok ?d] =>
          destruct (three_tiers p w k _ a b d Hcut) as (H1 & H2 & H3);
          exists (fst (if PyFloat.ge p k then a else if PyFloat.ge p w then b else d)),
                 (snd (if PyFloat.ge p k then a else if PyFloat.ge p w then b else d))
      end.
      cbv zeta in H1, H2, H3.
      split; [reflexivity|].
      split.
      { destruct (PyFloat.ge p (Utils.critical_threshold resource_type));
          [|destruct (PyFloat.ge p (Utils.warning_threshold resource_type))];
          reflexivity. }
      cbv zeta. split; [|split; [|split]].
      * destruct (PyFloat.ge p (Utils.critical_threshold resource_type));
          [|destruct (PyFloat.ge p (Utils.warning_threshold resource_type))];
          reflexivity.
      * intros H. rewrite (H1 H). split; reflexivity.
      * intros Hw Hk. rewrite (H2 Hw Hk). split; reflexivity.
      * intros Hk Hn. rewrite (H3 Hk Hn). reflexivity.
Qed.

(** The rule at 9500 VNIs of 12000, which is 79.2 percent: a warning
    under both pairs of cut points. *)
Lemma resource_threshold_rule_witness :
  (exists r, Validators._validate_vni_usage Config.CONFIG 9500 = Py.Ok r
             /\ Validators.passed r = false
             /\ Validators.severity r = Validators.warning)
  /\ (exists u, Utils.validate_resource_usage "vni" 9500 12000 = Py.Ok (false, u)
                /\ Utils.u_level u = "warning").
Proof.
  destruct (resource_threshold_rule Config.CONFIG "vni" 9500 12000
              ltac:(discriminate) ltac:(discriminate)
              ltac:(vm_compute; reflexivity))
    as [(q & r & Hq & Hr & H) (_ & _ & _ & q' & ok & u & Hq' & Hu & H')].
  vm_compute in Hq. injection Hq as <-.
  vm_compute in Hq'. injection Hq' as <-.
  cbv zeta in H, H'.
  destruct H as (_ & _ & Hw & _). destruct H' as (_ & _ & Hw' & _).
  split.
  - exists r. split; [exact Hr|]. apply Hw; vm_compute; reflexivity.
  - exists u. destruct Hw' as [-> Hl]; [vm_compute; reflexivity ..|].
    split; [exact Hu | exact Hl].
Defined.

(** C1 as stated fails on [validate_resource_usage]: the cut points for
    VNI usage are 70 and 85 there, so that 8640 VNIs of 12000, which is
    72 percent and below the cut point of 75, is a warning; the rule of
    the validators passes at the same count. *)
Lemma vni_usage_of_72_percent_is_a_warning :
  (exists u, Utils.validate_resource_usage "vni" 8640 12000 = Py.Ok (false, u)
             /\ Utils.u_percentage u = 72%float
             /\ Utils.u_level u = "warning")
  /\ PyFloat.lt 72 75 = true
  /\ (exists r, Validators._validate_vni_usage Config.CONFIG 8640 = Py.Ok r
                /\ Validators.passed r = true).
Proof.
  split; [|split].
  - eexists. vm_compute. repeat split.
  - vm_compute. reflexivity.
  - eexists. vm_compute. repeat split.
Qed.

(** ** Several rules in one check *)





(** ** Counter extraction *)

Lemma findall_none (r : Re.regex) (s : string) :
  Re.search r s = None -> Re.findall r s = [].
Proof.
  unfold Re.search, Re.findall. intros H. cbn [Re.findall_from]. rewrite H. reflexivity.
Qed.

Lemma sum_from (l : list Z) (a : Z) : fold_left Z.add l a = a + Suite.sum l.
Proof.
  unfold Suite.sum. revert a. induction l as [|x l IH]; intros a; cbn [fold_left].
  - lia.
  - rewrite IH, (IH (0 + x)). lia.
Qed.

Lemma sum_cons (x : Z) (l : list Z) : Suite.sum (x :: l) = x + Suite.sum l.
Proof. unfold Suite.sum at 1. cbn [fold_left]. rewrite sum_from. lia. Qed.

Lemma numbers_none (line : string) :
  Re.search Config.number line = None -> Suite.numbers line = [].
Proof.
  intros H. unfold Suite.numbers. rewrite (findall_none _ _ H). reflexivity.
Qed.

(** [int()] within its limit, and beyond *)
Lemma int_of_convertible (num : string) :
  Spec.convertible num = true -> Py.int_of_digits num = Py.Ok (Py.digits_value num).
Proof.
  unfold Spec.convertible, Py.int_of_digits. intros H.
  apply Nat.leb_le in H.
  destruct (Nat.ltb Py.max_str_digits (String.length num)) eqn:E; [|reflexivity].
  apply Nat.ltb_lt in E. lia.
Qed.

Lemma int_of_long (num : string) :
  Spec.convertible num = false ->
  exists e, Py.int_of_digits num = Py.Raise e /\ Py.type_name e = "ValueError".
Proof.
  unfold Spec.convertible, Py.int_of_digits. intros H.
  apply Nat.leb_gt in H.
  destruct (Nat.ltb Py.max_str_digits (String.length num)) eqn:E.
  - eexists. split; reflexivity.
  - apply Nat.ltb_ge in E. lia.
Qed.

Lemma any_above_values (threshold : Z) (nums : list string) :
  forallb Spec.convertible nums = true ->
  Suite.any_above threshold nums
  = Py.Ok (existsb (fun n => threshold <? n) (map Py.digits_value nums)).
Proof.
  induction nums as [|num nums IH]; cbn [forallb Suite.any_above map existsb];
    [reflexivity|].
  intros H. apply andb_true_iff in H. destruct H as [Hn Hr].
  rewrite (int_of_convertible _ Hn). cbn [Py.bind].
  destruct (threshold <? Py.digits_value num); [reflexivity|].
  apply IH, Hr.
Qed.

Lemma sum_positive_values (nums : list string) :
  forallb Spec.convertible nums = true ->
  forall acc,
    Suite.sum_positive nums acc
    = Py.Ok (acc + Suite.sum (List.filter (fun n => 0 <? n)
                                          (map Py.digits_value nums))).
Proof.
  induction nums as [|num nums IH]; cbn [forallb Suite.sum_positive];
    intros H acc.
  - unfold Suite.sum. cbn. f_equal. lia.
  - apply andb_true_iff in H. destruct H as [Hn Hr].
    rewrite (int_of_convertible _ Hn). cbn [Py.bind].
    destruct (0 <? Py.digits_value num) eqn:Ep; cbn [Py.bind].
    + rewrite (IH Hr). cbn [List.filter map]. rewrite Ep, sum_cons. f_equal. lia.
    + rewrite (IH Hr). cbn [List.filter map]. rewrite Ep. reflexivity.
Qed.

Lemma sum_positive_raises (nums : list string) :
  forallb Spec.convertible nums = false ->
  exists e, Py.type_name e = "ValueError"
            /\ forall acc, Suite.sum_positive nums acc = Py.Raise e.
Proof.
  induction nums as [|num nums IH]; cbn [forallb Suite.sum_positive];
    [discriminate|].
  intros H. destruct (Spec.convertible num) eqn:Hn.
  - cbn [andb] in H. destruct (IH H) as (e & He & Hsum).
    exists e. split; [exact He|]. intros acc.
    rewrite (int_of_convertible _ Hn). cbn [Py.bind].
    destruct (0 <? Py.digits_value num); cbn [Py.bind]; apply Hsum.
  - destruct (int_of_long _ Hn) as (e & He & Ht).
    exists e. split; [exact Ht|]. intros acc. rewrite He. reflexivity.
Qed.

Lemma any_above_raises_or_holds (threshold : Z) (nums : list string) :
  forallb Spec.convertible nums = false ->
  (exists e, Suite.any_above threshold nums = Py.Raise e
             /\ Py.type_name e = "ValueError")
  \/ Suite.any_above threshold nums = Py.Ok true.
Proof.
  induction nums as [|num nums IH]; cbn [forallb Suite.any_above];
    [discriminate|].
  intros H. destruct (Spec.convertible num) eqn:Hn.
  - cbn [andb] in H. rewrite (int_of_convertible _ Hn). cbn [Py.bind].
    destruct (threshold <? Py.digits_value num); [right; reflexivity|].
    apply IH, H.
  - destruct (int_of_long _ Hn) as (e & He & Ht).
    left. exists e. rewrite He. split; [reflexivity|exact Ht].
Qed.

(** One turn of the inner loop on a line whose numbers [int()] converts:
    the test on [re.search] adds nothing to the test on the numbers. *)
Lemma scan_pattern_flags (floor : Z) (line pattern : string)
      (errors_found : list string) (total_errors : Z) :
  forallb Spec.convertible (Suite.numbers line) = true ->
  Suite.scan_pattern floor line (errors_found, total_errors) pattern
  = Py.Ok (if Py.contains pattern (Py.lower line) && Spec.above_floor floor line
           then (errors_found ++ [Py.strip line],
                 total_errors + Spec.positive_sum line)
           else (errors_found, total_errors)).
Proof.
  intros Hc.
  unfold Suite.scan_pattern, Spec.above_floor, Spec.positive_sum, Spec.values.
  destruct (Py.contains pattern (Py.lower line)); cbn [andb]; [|reflexivity].
  destruct (Re.search Config.number line) as [m|] eqn:E; cbn [Re.found].
  - rewrite (any_above_values _ _ Hc). cbn [Py.bind].
    destruct (existsb _ _); [|reflexivity].
    rewrite (sum_positive_values _ Hc). cbn [Py.bind]. rewrite Z.add_0_l.
    reflexivity.
  - rewrite (numbers_none _ E). reflexivity.
Qed.

(** One turn of the inner loop for a keyword that the line does not hold *)
Lemma scan_pattern_skips (floor : Z) (line pattern : string)
      (acc : list string * Z) :
  Py.contains pattern (Py.lower line) = false ->
  Suite.scan_pattern floor line acc pattern = Py.Ok acc.
Proof.
  intros H. unfold Suite.scan_pattern. destruct acc as [errors_found total_errors].
  rewrite H. reflexivity.
Qed.

(** One turn of the inner loop for a keyword that the line holds, when
    [int()] does not convert one of its numbers *)
Lemma scan_pattern_raises (floor : Z) (line pattern : string)
      (acc : list string * Z) :
  Py.contains pattern (Py.lower line) = true ->
  forallb Spec.convertible (Suite.numbers line) = false ->
  exists e, Suite.scan_pattern floor line acc pattern = Py.Raise e
            /\ Py.type_name e = "ValueError".
Proof.
  intros Hk Hc. unfold Suite.scan_pattern. destruct acc as [errors_found total_errors].
  rewrite Hk. cbn [andb].
  destruct (Re.search Config.number line) as [m|] eqn:E; cbn [Re.found].
  - destruct (any_above_raises_or_holds floor _ Hc) as [(e & He & Ht)|Ha].
    + exists e. rewrite He. split; [reflexivity|exact Ht].
    + rewrite Ha. cbn [Py.bind].
      destruct (sum_positive_raises _ Hc) as (e & Ht & Hs).
      exists e. rewrite Hs. split; [reflexivity|exact Ht].
  - rewrite (numbers_none _ E) in Hc. discriminate.
Qed.

Lemma no_keyword (line : string) :
  Spec.keyword_hits line = 0%nat ->
  Py.contains "error" (Py.lower line) = false
  /\ Py.contains "drop" (Py.lower line) = false
  /\ Py.contains "discard" (Py.lower line) = false
  /\ Py.contains "invalid" (Py.lower line) = false.
Proof.
  unfold Spec.keyword_hits, Suite.error_patterns. cbn [List.filter].
  destruct (Py.contains "error" (Py.lower line)); [discriminate|].
  destruct (Py.contains "drop" (Py.lower line)); [discriminate|].
  destruct (Py.contains "discard" (Py.lower line)); [discriminate|].
  destruct (Py.contains "invalid" (Py.lower line)); [discriminate|].
  repeat split.
Qed.

Lemma scan_line_adds (floor : Z) (line : string)
      (errors_found : list string) (total_errors : Z) :
  Spec.readable line = true ->
  Suite.scan_line floor (errors_found, total_errors) line
  = Py.Ok (errors_found ++ Spec.line_flags floor line,
           total_errors + Spec.line_total floor line).
Proof.
  unfold Spec.readable. intros Hr.
  destruct (forallb Spec.convertible (Suite.numbers line)) eqn:Hc.
  - clear Hr.
    unfold Suite.scan_line, Suite.error_patterns, Spec.line_flags, Spec.line_total,
      Spec.keyword_hits, Suite.error_patterns.
    cbn [Py.loop List.filter].
    destruct (Spec.above_floor floor line) eqn:Ea.
    + rewrite (scan_pattern_flags _ _ _ _ _ Hc), Ea, andb_true_r.
      destruct (Py.contains "error" (Py.lower line)); cbn [Py.bind];
        rewrite (scan_pattern_flags _ _ _ _ _ Hc), Ea, andb_true_r;
        destruct (Py.contains "drop" (Py.lower line)); cbn [Py.bind];
        rewrite (scan_pattern_flags _ _ _ _ _ Hc), Ea, andb_true_r;
        destruct (Py.contains "discard" (Py.lower line)); cbn [Py.bind];
        rewrite (scan_pattern_flags _ _ _ _ _ Hc), Ea, andb_true_r;
        destruct (Py.contains "invalid" (Py.lower line)); cbn [Py.bind];
        cbn [length repeat]; rewrite <- ?app_assoc, ?app_nil_r; cbn [app];
        do 2 f_equal; lia.
    + rewrite (scan_pattern_flags _ _ _ _ _ Hc), Ea, andb_false_r. cbn [Py.bind].
      rewrite (scan_pattern_flags _ _ _ _ _ Hc), Ea, andb_false_r. cbn [Py.bind].
      rewrite (scan_pattern_flags _ _ _ _ _ Hc), Ea, andb_false_r. cbn [Py.bind].
      rewrite (scan_pattern_flags _ _ _ _ _ Hc), Ea, andb_false_r. cbn [Py.bind].
      rewrite app_nil_r. do 2 f_equal. lia.
  - rewrite orb_false_r in Hr. apply Nat.eqb_eq in Hr.
    destruct (no_keyword _ Hr) as (H1 & H2 & H3 & H4).
    unfold Suite.scan_line, Suite.error_patterns, Spec.line_flags, Spec.line_total.
    cbn [Py.loop].
    rewrite (scan_pattern_skips _ _ _ _ H1). cbn [Py.bind].
    rewrite (scan_pattern_skips _ _ _ _ H2). cbn [Py.bind].
    rewrite (scan_pattern_skips _ _ _ _ H3). cbn [Py.bind].
    rewrite (scan_pattern_skips _ _ _ _ H4). cbn [Py.bind].
    rewrite Hr. destruct (Spec.above_floor floor line); cbn [repeat];
      rewrite app_nil_r; do 2 f_equal; lia.
Qed.

Lemma scan_line_raises (floor : Z) (line : string) (acc : list string * Z) :
  Spec.readable line = false ->
  exists e, Suite.scan_line floor acc line = Py.Raise e
            /\ Py.type_name e = "ValueError".
Proof.
  unfold Spec.readable. intros Hr. apply orb_false_iff in Hr.
  destruct Hr as [Hk Hc]. apply Nat.eqb_neq in Hk.
  unfold Suite.scan_line, Suite.error_patterns. cbn [Py.loop].
  destruct (Py.contains "error" (Py.lower line)) eqn:E1.
  { destruct (scan_pattern_raises floor _ _ acc E1 Hc) as (e & He & Ht).
    exists e. rewrite He. split; [reflexivity|exact Ht]. }
  rewrite (scan_pattern_skips _ _ _ _ E1). cbn [Py.bind].
  destruct (Py.contains "drop" (Py.lower line)) eqn:E2.
  { destruct (scan_pattern_raises floor _ _ acc E2 Hc) as (e & He & Ht).
    exists e. rewrite He. split; [reflexivity|exact Ht]. }
  rewrite (scan_pattern_skips _ _ _ _ E2). cbn [Py.bind].
  destruct (Py.contains "discard" (Py.lower line)) eqn:E3.
  { destruct (scan_pattern_raises floor _ _ acc E3 Hc) as (e & He & Ht).
    exists e. rewrite He. split; [reflexivity|exact Ht]. }
  rewrite (scan_pattern_skips _ _ _ _ E3). cbn [Py.bind].
  destruct (Py.contains "invalid" (Py.lower line)) eqn:E4.
  { destruct (scan_pattern_raises floor _ _ acc E4 Hc) as (e & He & Ht).
    exists e. rewrite He. split; [reflexivity|exact Ht]. }
  exfalso. apply Hk. unfold Spec.keyword_hits, Suite.error_patterns.
  cbn [List.filter]. rewrite E1, E2, E3, E4. reflexivity.
Qed.

Lemma scan_lines (floor : Z) (lines : list string)
      (errors_found : list string) (total_errors : Z) :
  Forall (fun line => Spec.readable line = true) lines ->
  Py.loop (Suite.scan_line floor) lines (errors_found, total_errors)
  = Py.Ok (errors_found ++ flat_map (Spec.line_flags floor) lines,
           total_errors + Suite.sum (map (Spec.line_total floor) lines)).
Proof.
  intros Hall. revert errors_found total_errors.
  induction Hall as [|line lines Hr _ IH]; intros errors_found total_errors.
  - cbn. rewrite app_nil_r. do 2 f_equal. unfold Suite.sum. cbn. lia.
  - cbn [Py.loop flat_map map]. rewrite (scan_line_adds _ _ _ _ Hr).
    cbn [Py.bind]. rewrite IH, sum_cons.
    rewrite <- app_assoc. do 2 f_equal. lia.
Qed.

Lemma scan_lines_raise (floor : Z) (lines : list string) :
  Exists (fun line => Spec.readable line = false) lines ->
  forall acc : list string * Z,
  exists e, Py.loop (Suite.scan_line floor) lines acc = Py.Raise e
            /\ Py.type_name e = "ValueError".
Proof.
  induction lines as [|line lines IH]; intros Hex acc; [inversion Hex|].
  cbn [Py.loop]. destruct (Spec.readable line) eqn:Hr.
  - destruct acc as [errors_found total_errors].
    rewrite (scan_line_adds _ _ _ _ Hr). cbn [Py.bind]. apply IH.
    inversion Hex as [? ? H|? ? H]; subst; [congruence|exact H].
  - destruct (scan_line_raises floor _ acc Hr) as (e & He & Ht).
    exists e. rewrite He. split; [reflexivity|exact Ht].
Qed.

Lemma readable_lines (lines : list string) :
  forallb Spec.readable lines = true ->
  Forall (fun line => Spec.readable line = true) lines.
Proof.
  intros H. apply List.Forall_forall. intros line Hin.
  exact (proj1 (forallb_forall _ _) H line Hin).
Qed.

Lemma below_floor_not_flagged (floor : Z) (line : string) :
  Forall (fun n => n <= floor) (Spec.values line) ->
  Spec.above_floor floor line = false.
Proof.
  unfold Spec.above_floor. induction 1 as [|n l Hn _ IH]; [reflexivity|].
  cbn [existsb]. rewrite IH, orb_false_r. apply Z.ltb_ge. exact Hn.
Qed.

Lemma no_flags_no_failure (floor : Z) (lines : list string) :
  (forall line, In line lines ->
                Spec.keyword_hits line = 0%nat
                \/ Forall (fun n => n <= floor) (Spec.values line)) ->
  flat_map (Spec.line_flags floor) lines = [].
Proof.
  induction lines as [|line lines IH]; intros H; [reflexivity|].
  cbn [flat_map]. rewrite IH by (intros l Hl; apply H; right; exact Hl).
  rewrite app_nil_r. unfold Spec.line_flags.
  destruct (H line (or_introl eq_refl)) as [H0 | Hlow].
  - rewrite H0. destruct (Spec.above_floor floor line); reflexivity.
  - rewrite (below_floor_not_flagged _ _ Hlow). reflexivity.
Qed.

(** C7, as the code has it.  The counter check of the modular suite
    scans every line for the keywords error, drop, discard and invalid
    in any letter case, against the one configured floor, and converts
    the numbers of a line that holds a keyword with [int()].  As long as
    no such line holds a number of more than 4300 digits: a line is
    flagged, once for each keyword it holds, when one of the numbers on
    it is above the floor, and then all the positive numbers on the line
    are added to the total, once for each keyword; a line without
    keyword, and a line whose numbers are all at or below the floor,
    adds nothing and is not flagged; and when no line is flagged the
    step passes.  When a line with a keyword holds a number of more than
    4300 digits, [int()] raises [ValueError]: the step fails with the
    text of the exception and records nothing. *)
Theorem counter_scan (cfg : Config.VXLANConfig) (output : string) :
  let floor := Config.error_counter_threshold (Config.thresholds cfg) in
  let lines := Py.split Py.newline output in
  (Forall (fun line => Spec.readable line = true) lines ->
   Suite.parse_error_counters cfg output
   = Py.Ok (flat_map (Spec.line_flags floor) lines,
            Suite.sum (map (Spec.line_total floor) lines)))
  /\ (forall line,
         Spec.above_floor floor line = true ->
         Spec.line_flags floor line = repeat (Py.strip line) (Spec.keyword_hits line)
         /\ Spec.line_total floor line
            = Z.of_nat (Spec.keyword_hits line) * Spec.positive_sum line)
  /\ (forall line,
         Forall (fun n => n <= floor) (Spec.values line) ->
         Spec.line_flags floor line = [] /\ Spec.line_total floor line = 0)
  /\ (forall line,
         Spec.keyword_hits line = 0%nat ->
         Spec.line_flags floor line = [] /\ Spec.line_total floor line = 0)
  /\ (forall (self : BaseTest.TestInstance) (device : Utils.Device) (device_name : string),
         device (Config.show_nve_counters (Config.commands cfg)) = Py.Ok output ->
         Forall (fun line => Spec.readable line = true) lines ->
         (forall line, In line lines ->
                       Spec.keyword_hits line = 0%nat
                       \/ Forall (fun n => n <= floor) (Spec.values line)) ->
         snd (Suite.test_interface_statistics cfg self device device_name)
         = BaseTest.StepPassed
             ("No significant errors in NVE statistics on " +:+ device_name))
  /\ (forall (self : BaseTest.TestInstance) (device : Utils.Device) (device_name : string),
         device (Config.show_nve_counters (Config.commands cfg)) = Py.Ok output ->
         Exists (fun line => Spec.readable line = false) lines ->
         exists e,
           Py.type_name e = "ValueError"
           /\ Suite.parse_error_counters cfg output = Py.Raise e
           /\ Suite.test_interface_statistics cfg self device device_name
              = (self, BaseTest.StepFailed
                         ("Statistics check failed on " +:+ device_name +:+ ": "
                          +:+ Py.str_exn e))).
Proof.
  intros floor lines.
  assert (Hscan : Forall (fun line => Spec.readable line = true) lines ->
                  Suite.parse_error_counters cfg output
                  = Py.Ok (flat_map (Spec.line_flags floor) lines,
                           Suite.sum (map (Spec.line_total floor) lines))).
  { intros Hall. unfold Suite.parse_error_counters. fold floor. fold lines.
    rewrite (scan_lines _ _ _ _ Hall). cbn [app]. do 2 f_equal. }
  split; [exact Hscan|].
  split; [|split; [|split; [|split]]].
  - intros line Ha. unfold Spec.line_flags, Spec.line_total. rewrite Ha.
    split; reflexivity.
  - intros line Hlow. unfold Spec.line_flags, Spec.line_total.
    rewrite (below_floor_not_flagged _ _ Hlow). split; reflexivity.
  - intros line H0. unfold Spec.line_flags, Spec.line_total. rewrite H0.
    destruct (Spec.above_floor floor line); split; reflexivity.
  - intros self device device_name Hcmd Hall Hquiet.
    unfold Suite.test_interface_statistics. rewrite Hcmd. cbn [Py.bind].
    rewrite (Hscan Hall).
    rewrite (no_flags_no_failure floor lines Hquiet). reflexivity.
  - intros self device device_name Hcmd Hex.
    destruct (scan_lines_raise floor lines Hex ([], 0)) as (e & He & Ht).
    exists e. split; [exact Ht|].
    assert (Hp : Suite.parse_error_counters cfg output = Py.Raise e) by exact He.
    split; [exact Hp|].
    unfold Suite.test_interface_statistics. rewrite Hcmd. cbn [Py.bind].
    rewrite Hp. reflexivity.
Qed.

(** The check on counters that stay at or below the floor of 100. *)
Lemma counter_scan_witness :
  Suite.parse_error_counters Config.CONFIG Examples.quiet_counters = Py.Ok ([], 0)
  /\ snd (Suite.test_interface_statistics Config.CONFIG BaseTest.new_test
            Examples.quiet_device "leaf1")
     = BaseTest.StepPassed "No significant errors in NVE statistics on leaf1".
Proof.
  assert (Hall : Forall (fun line => Spec.readable line = true)
                        (Py.split Py.newline Examples.quiet_counters))
    by (apply readable_lines; vm_compute; reflexivity).
  destruct (counter_scan Config.CONFIG Examples.quiet_counters)
    as (Hscan & _ & _ & _ & Hpass & _).
  split.
  - rewrite (Hscan Hall). vm_compute. reflexivity.
  - apply (Hpass BaseTest.new_test Examples.quiet_device "leaf1" eq_refl Hall).
    intros line Hin. vm_compute in Hin.
    destruct Hin as [<- | [<- | [<- | [<- | []]]]].
    + right. vm_compute. repeat constructor; discriminate.
    + right. vm_compute. repeat constructor; discriminate.
    + left. vm_compute. reflexivity.
    + right. vm_compute. repeat constructor; discriminate.
Defined.

(** C7 as stated fails on the modular suite: on a line with an error
    counter of 150 next to the number 7 the total is 157, where the sum
    of the values above the floor of 100 is 150; a CRC counter of 500 is
    not seen at all; and a line that holds two keywords is counted
    twice.  The monolithic suite, which does list crc, counts the
    occurrences of a keyword and never reads the value; the check of
    tests/health.py reports every line with a keyword and a positive
    number, whatever the floor.  A counter of 4301 digits, all zero, is
    at or below the floor, and the step fails on it. *)
Lemma counter_sum_is_not_the_sum_above_the_floor :
  Suite.parse_error_counters Config.CONFIG Examples.errors_line
  = Py.Ok (["input errors: 150 of 7"], 157)
  /\ Spec.sum_over_floor 100 Examples.errors_line = 150
  /\ Suite.parse_error_counters Config.CONFIG Examples.crc_line = Py.Ok ([], 0)
  /\ Spec.sum_over_floor 100 Examples.crc_line = 500
  /\ Suite.parse_error_counters Config.CONFIG Examples.two_keywords_line
     = Py.Ok (["error drop: 200"; "error drop: 200"], 400)
  /\ Spec.sum_over_floor 100 Examples.two_keywords_line = 200
  /\ Monolithic.count_error_patterns Examples.crc_line = ([], 0)
  /\ TestsHealth.statistics_errors "input errors: 5" = Py.Ok ["input errors: 5"]
  /\ Spec.sum_over_floor 100 Examples.long_counter = 0
  /\ exists msg,
      Suite.test_interface_statistics Config.CONFIG BaseTest.new_test
        Examples.long_counter_device "leaf1"
      = (BaseTest.new_test, BaseTest.StepFailed msg).
Proof.
  vm_compute. repeat split; try reflexivity. eexists. reflexivity.
Qed.

(** ** The summary report *)

(** On the table of results that the report holds, a device counts as
    healthy exactly when none of its results is a failing one of
    severity error or critical. *)
Lemma healthy_iff_no_blocking_result (all_results : Suite.ResultTable) (d : string) :
  Suite.device_is_healthy all_results d = true
  <-> forall (tests : gmap string Validators.ValidationResult) (t : string)
             (r : Validators.ValidationResult),
      all_results !! d = Some tests -> tests !! t = Some r ->
      ~ (Validators.passed r = false
         /\ (Validators.severity r = Validators.error
             \/ Validators.severity r = Validators.critical)).
Proof.
  unfold Suite.device_is_healthy, Suite.values.
  rewrite negb_true_iff. split.
  - intros Hnone tests t r Hd Ht (Hp & Hs).
    rewrite Hd in Hnone.
    change (default ∅ (Some tests)) with tests in Hnone.
    assert (Hex : existsb Suite.is_blocking (map snd (map_to_list tests)) = true).
    { apply existsb_exists. exists r. split.
      - apply in_map_iff. exists (t, r). split; [reflexivity|].
        apply list_elem_of_In, elem_of_map_to_list. exact Ht.
      - unfold Suite.is_blocking. rewrite Hp.
        destruct Hs as [-> | ->]; reflexivity. }
    congruence.
  - intros Hall.
    destruct (existsb Suite.is_blocking
                (map snd (map_to_list (default ∅ (all_results !! d))))) eqn:E;
      [|reflexivity].
    exfalso. apply existsb_exists in E. destruct E as (r & Hin & Hb).
    apply in_map_iff in Hin. destruct Hin as ([t r'] & Hr & Hin).
    cbn [snd] in Hr. subst r'.
    apply list_elem_of_In, elem_of_map_to_list in Hin.
    destruct (all_results !! d) as [tests|] eqn:Hd.
    + change (default ∅ (Some tests)) with tests in Hin.
      apply (Hall tests t r eq_refl Hin).
      unfold Suite.is_blocking in Hb. apply andb_true_iff in Hb.
      destruct Hb as (Hp & Hs). apply negb_true_iff in Hp.
      split; [exact Hp|].
      destruct (Validators.severity r); try discriminate; [left|right]; reflexivity.
    + change (default ∅ None !! t = Some r) with
        ((∅ : gmap string Validators.ValidationResult) !! t = Some r) in Hin.
      rewrite lookup_empty in Hin. discriminate.
Qed.

(** The totals of the report *)
Lemma summary_totals (all_results : Suite.ResultTable) (devices : list string) :
  let s := Suite.overall_summary all_results devices in
  Suite.total_devices s = length devices
  /\ Suite.healthy_devices s
     = length (List.filter (Suite.device_is_healthy all_results) devices)
  /\ (Suite.healthy_devices s <= Suite.total_devices s)%nat.
Proof.
  cbn. repeat split. apply filter_length_bound.
Qed.

(** A device whose failing results are all warnings counts as healthy. *)
Lemma warnings_leave_a_device_healthy (all_results : Suite.ResultTable) (d : string) :
  (forall tests t r,
      all_results !! d = Some tests -> tests !! t = Some r ->
      Validators.passed r = true \/ Validators.severity r = Validators.warning) ->
  Suite.device_is_healthy all_results d = true.
Proof.
  intros H. apply healthy_iff_no_blocking_result.
  intros tests t r Hd Ht (Hp & Hs).
  destruct (H tests t r Hd Ht) as [Hp' | Hw]; [congruence|].
  rewrite Hw in Hs. destruct Hs; discriminate.
Qed.

(** The metrics, collected in the same loop, are merged device by
    device: those of both test cases are kept. *)
Lemma metrics_of_all_test_cases_are_kept :
  let all_metrics := snd (Suite.collect Examples.script_with_metrics) in
  all_metrics !! "leaf1" ≫= (fun m => m !! "platform")
  = Some (Validators.VStr "Nexus 9000")
  /\ all_metrics !! "leaf1" ≫= (fun m => m !! "bgp_evpn_neighbors")
     = Some (Validators.VInt 2).
Proof.
  vm_compute. split; reflexivity.
Qed.

(** C8 on a run of two test cases.  The leaf runs NX-OS 6.2, so the
    prerequisite test case records a failing result of severity critical
    for it; the BGP test case then records a passing result.  The report
    keeps, for each device, the results of the last test case only, and
    counts the leaf as healthy. *)
Theorem summary_forgets_results_of_earlier_test_cases :
  (exists r,
      BaseTest.test_results Examples.prerequisite_case !! "leaf1"
        ≫= (fun tests => tests !! "platform_compatibility") = Some r
      /\ Validators.passed r = false
      /\ Validators.severity r = Validators.critical)
  /\ (fst (Suite.collect Examples.script) !! "leaf1")
       ≫= (fun tests => tests !! "platform_compatibility") = None
  /\ Suite.generate_summary_report Examples.script ["leaf1"]
     = {| Suite.total_devices := 1;
          Suite.healthy_devices := 1;
          Suite.devices_with_issues := 0 |}.
Proof.
  split; [|split].
  - eexists. split; [vm_compute; reflexivity|]. split; reflexivity.
  - vm_compute. reflexivity.
  - vm_compute. reflexivity.
Qed.

(** ** Exceptions at the boundary of a check *)

Lemma recorded_result (self : BaseTest.TestInstance) (device_name test_name : string)
      (r : Validators.ValidationResult) :
  BaseTest.test_results
    (fst (BaseTest.process_validation_result self device_name test_name r))
    !! device_name ≫= (fun tests => tests !! test_name) = Some r.
Proof.
  assert (H : BaseTest.test_results
                (BaseTest.record_test_result self device_name test_name r)
                !! device_name ≫= (fun tests => tests !! test_name) = Some r).
  { unfold BaseTest.record_test_result. cbn [BaseTest.test_results].
    rewrite lookup_insert_eq. cbn. apply lookup_insert_eq. }
  unfold BaseTest.process_validation_result.
  destruct (Validators.passed r); [exact H|].
  destruct (Validators.severity r); exact H.
Qed.

(** C9, as the code has it.  A check run through [validate_and_process]
    yields one result, which is also the one recorded for the device and
    the test, and never an exception: the result of the validator when
    it returns one, and a failing result of severity error when it
    raises, with the text of the exception as message, after 'Unexpected
    error: ' unless the exception is one of the suite's own.  The
    validators catch what their own body raises: the platform, peer, VNI
    and BGP EVPN checks turn it into a failing result of severity error,
    the VNI check also a division by a maximum of zero; the
    ingress-replication and EVPN-route checks turn it into a passing
    result of severity info.  The step object is the runner's: telling
    it an outcome is taken to return. *)
Theorem check_boundary
        (cfg : Config.VXLANConfig) (device : Utils.Device)
        (device_name test_name : string) (self : BaseTest.TestInstance)
        (validator_func : Py.result Validators.ValidationResult) :
  let run := BaseTest.validate_and_process device_name test_name validator_func self in
  let r := fst run in
  let self' := fst (snd run) in
  BaseTest.test_results self' !! device_name ≫= (fun tests => tests !! test_name) = Some r
  /\ (forall r0, validator_func = Py.Ok r0 -> r = r0)
  /\ (forall e, validator_func = Py.Raise e ->
      Validators.passed r = false
      /\ Validators.severity r = Validators.error
      /\ Validators.message r
         = if Py.is_vxlan_exception e then Py.str_exn e
           else "Unexpected error: " +:+ Py.str_exn e)
  /\ (forall e, device (Config.show_version (Config.commands cfg)) = Py.Raise e ->
      let v := Validators.validate_platform_support cfg device device_name in
      Validators.passed v = false /\ Validators.severity v = Validators.error)
  /\ (forall e, device (Config.show_nve_peers (Config.commands cfg)) = Py.Raise e ->
      let v := Validators.validate_nve_peers cfg device device_name in
      Validators.passed v = false /\ Validators.severity v = Validators.error)
  /\ (forall e, device (Config.show_nve_vni (Config.commands cfg)) = Py.Raise e ->
      let v := Validators.validate_vni_configuration cfg device device_name in
      Validators.passed v = false /\ Validators.severity v = Validators.error)
  /\ (forall output,
      device (Config.show_nve_vni (Config.commands cfg)) = Py.Ok output ->
      Py.contains "VNI" output = true ->
      Utils.parse_vni_info output <> [] ->
      Config.max_vni_count (Config.thresholds cfg) = 0 ->
      let v := Validators.validate_vni_configuration cfg device device_name in
      Validators.passed v = false
      /\ Validators.severity v = Validators.error
      /\ Validators.message v = "VNI validation failed: division by zero")
  /\ (forall e, device (Config.show_bgp_evpn_summary (Config.commands cfg)) = Py.Raise e ->
      let v := Validators.validate_bgp_evpn cfg device device_name in
      Validators.passed v = false /\ Validators.severity v = Validators.error)
  /\ (forall e, device (Config.show_nve_vni_ingress (Config.commands cfg)) = Py.Raise e ->
      let v := Validators.validate_ingress_replication cfg device device_name in
      Validators.passed v = true /\ Validators.severity v = Validators.info)
  /\ (forall e,
      device (Config.show_bgp_evpn_routes (Config.commands cfg)
              +:+ " | include 'Route Distinguisher'") = Py.Raise e ->
      let v := Validators.validate_evpn_routes cfg device device_name in
      Validators.passed v = true /\ Validators.severity v = Validators.info).
Proof.
  cbv zeta.
  split; [|split; [|split]].
  - unfold BaseTest.validate_and_process.
    destruct validator_func as [r0|e]; cbn [fst snd]; apply recorded_result.
  - intros r0 ->. reflexivity.
  - intros e ->. cbn [BaseTest.validate_and_process fst].
    destruct (Py.is_vxlan_exception e); repeat split; reflexivity.
  - open_check.
    split; [intros e He; rewrite He; split; reflexivity|].
    split; [intros e He; rewrite He; split; reflexivity|].
    split; [intros e He; rewrite He; split; reflexivity|].
    split;
      [|split; [intros e He; rewrite He; split; reflexivity|];
        split; intros e He; rewrite He; split; reflexivity].
    intros output Hcmd Hheader Hparse Hmax.
    answer Hcmd. rewrite Hheader. cbn [negb].
    destruct (Utils.parse_vni_info output) as [|v l]; [congruence|].
    destruct (fold_left Validators.vni_step (v :: l) ([], [], [])) as [[i l2] l3].
    unfold Validators._validate_vni_usage, PyFloat.truediv.
    rewrite Hmax. repeat split; reflexivity.
Qed.

(** The boundary on a device that cannot be reached, and on an exception
    that escapes a validator. *)
Lemma check_boundary_witness :
  (let r := fst (BaseTest.validate_and_process "leaf1" "vni_configuration"
                   (Py.Raise (Py.Exception "KeyError" "'vni'")) BaseTest.new_test) in
   Validators.passed r = false
   /\ Validators.severity r = Validators.error
   /\ Validators.message r = "Unexpected error: 'vni'")
  /\ Validators.severity
       (Validators.validate_nve_peers Config.CONFIG Examples.unreachable "leaf1")
     = Validators.error
  /\ Validators.passed
       (Validators.validate_evpn_routes Config.CONFIG Examples.unreachable "leaf1")
     = true.
Proof.
  destruct (check_boundary Config.CONFIG Examples.unreachable "leaf1" "vni_configuration"
              BaseTest.new_test (Py.Raise (Py.Exception "KeyError" "'vni'")))
    as (_ & _ & Hraise & _ & Hpeers & _ & _ & _ & _ & Hroutes).
  split; [|split].
  - apply (Hraise _ eq_refl).
  - apply (Hpeers _ eq_refl).
  - apply (Hroutes _ eq_refl).
Defined.

(** C9 as stated fails on the ingress-replication and EVPN-route
    checks: on a device that cannot be reached the command raises, and
    the result that the boundary returns and records is a passing one of
    severity info. *)
Lemma failed_command_is_reported_as_passed :
  let v := Validators.validate_ingress_replication
             Config.CONFIG Examples.unreachable "leaf1" in
  let r := fst (BaseTest.validate_and_process "leaf1" "ingress_replication"
                  (Py.Ok v) BaseTest.new_test) in
  Utils.execute_command Examples.unreachable "leaf1" "show nve vni ingress-replication"
  = Py.Raise (Py.VXLANTestException "CommandExecutionError"
                "Command execution failed: timed out"
                (Some "leaf1") (Some "show nve vni ingress-replication"))
  /\ Validators.passed r = true
  /\ Validators.severity r = Validators.info
  /\ Validators.message r = "Ingress replication check not applicable"
  /\ Validators.passed
       (Validators.validate_evpn_routes Config.CONFIG Examples.unreachable "leaf1")
     = true.
Proof.
  vm_compute. repeat split; reflexivity.
Qed.

(** ** Passing results are of severity info *)

(** Splits the goal along the tests of the code, innermost first. *)
Ltac split_branches :=
  repeat match goal with
         | |- context [match ?x with _ => _ end] =>
             lazymatch x with
             | context [match _ with _ => _ end] => fail
             | _ => destruct x eqn:?
             end
         end.

Ltac read_result :=
  cbn [Validators.passed Validators.severity Validators.create_result];
  intros; congruence.

Lemma usage_passing_is_info (cfg : Config.VXLANConfig) (c : Z)
      (u : Validators.ValidationResult) :
  Validators._validate_vni_usage cfg c = Py.Ok u ->
  Validators.passed u = true -> Validators.severity u = Validators.info.
Proof.
  unfold Validators._validate_vni_usage, Py.bind.
  destruct (PyFloat.truediv c (Config.max_vni_count (Config.thresholds cfg)));
    [|discriminate].
  split_branches; intros [= <-]; read_result.
Qed.

(** Every result that the modelled validators build passes only with
    severity info, so that on their results a failing result of severity
    error or critical is the same as a result of severity error or
    critical. *)
Lemma passing_results_are_info
      (cfg : Config.VXLANConfig) (device : Utils.Device) (device_name : string) :
  Forall (fun r => Validators.passed r = true -> Validators.severity r = Validators.info)
         [Validators.validate_platform_support cfg device device_name;
          Validators.validate_nve_peers cfg device device_name;
          Validators.validate_vni_configuration cfg device device_name;
          Validators.validate_ingress_replication cfg device device_name;
          Validators.validate_bgp_evpn cfg device device_name;
          Validators.validate_evpn_routes cfg device device_name].
Proof.
  repeat constructor.
  - open_check. unfold Py.bind, Validators.try_except.
    split_branches; read_result.
  - open_check. unfold Py.bind, Validators.try_except.
    split_branches; read_result.
  - open_check. unfold Py.bind, Validators.try_except.
    destruct (device (Config.show_nve_vni (Config.commands cfg))) as [output|e];
      [|read_result].
    destruct (negb (Py.contains "VNI" output)); [read_result|].
    destruct (Utils.parse_vni_info output) as [|v l]; [read_result|].
    destruct (fold_left Validators.vni_step (v :: l) ([], [], [])) as [[i l2] l3].
    destruct (Validators._validate_vni_usage cfg (Z.of_nat (length (v :: l))))
      as [u|e] eqn:Hu; [|read_result].
    destruct i; [|read_result].
    cbn [Validators.passed Validators.severity Validators.create_result].
    apply (usage_passing_is_info _ _ _ Hu).
  - open_check. unfold Py.bind, Validators.try_except.
    split_branches; read_result.
  - open_check. unfold Py.bind, Validators.try_except.
    split_branches; read_result.
  - open_check. unfold Py.bind, Validators.try_except.
    split_branches; read_result.
Qed.

Lemma blocking_is_error_or_critical (r : Validators.ValidationResult) :
  (Validators.passed r = true -> Validators.severity r = Validators.info) ->
  Suite.is_blocking r = Spec.error_or_critical r.
Proof.
  unfold Suite.is_blocking, Spec.error_or_critical. intros H.
  destruct (Validators.passed r); [rewrite H by reflexivity|]; reflexivity.
Qed.

(** * Further properties *)

(** ** What a match consumes and captures *)

Lemma list_ascii_of_string_of_list (l : list ascii) :
  list_ascii_of_string (string_of_list_ascii l) = l.
Proof. apply list_ascii_of_string_of_list_ascii. Qed.

Lemma firstn_consumed {A : Type} (consumed rest : list A) :
  firstn (length (consumed ++ rest) - length rest) (consumed ++ rest) = consumed.
Proof.
  rewrite length_app.
  replace (length consumed + length rest - length rest)%nat with (length consumed) by lia.
  rewrite firstn_app, Nat.sub_diag, firstn_all. cbn. apply app_nil_r.
Qed.

(** Whatever [rmatch] hands to its continuation lies behind a stretch of
    text that the pattern consumed: its characters are of every class
    that bounds the pattern, and the groups closed on the way hold
    characters of their classes. *)
Lemma rmatch_sound (Pg : nat -> ascii -> bool) (r : Re.regex) :
  forall (st : Re.mstate) (k : Re.mstate -> option Re.mstate) (res : Re.mstate),
    Re.rmatch r st k = Some res ->
    exists st1 consumed,
      k st1 = Some res
      /\ Re.rest st = consumed ++ Re.rest st1
      /\ (forall P, ReSpec.within P r -> Forall (fun c => P c = true) consumed)
      /\ (ReSpec.groups_within Pg r -> ReSpec.caps_ok Pg (Re.caps st) ->
          ReSpec.caps_ok Pg (Re.caps st1)).
Proof.
  induction r as [|p|r1 IH1 r2 IH2|r1 IH1|r1 IH1|i r1 IH1| |]; intros st k res H.
  - exists st, []. cbn in H. repeat split; auto.
  - cbn in H. destruct (Re.rest st) as [|c tl] eqn:E; [discriminate|].
    destruct (p c) eqn:Ep; [|discriminate].
    exists (Re.MState (Some c) tl (Re.caps st)), [c]. cbn. repeat split; auto.
  - cbn in H. apply IH1 in H. destruct H as (st1 & c1 & H & E1 & P1 & G1).
    apply IH2 in H. destruct H as (st2 & c2 & H & E2 & P2 & G2).
    exists st2, (c1 ++ c2). split; [exact H|]. split.
    { rewrite E1, E2. apply app_assoc. }
    split.
    + intros P [W1 W2]. apply Forall_app. split; [apply P1 | apply P2]; assumption.
    + intros [W1 W2] Hc. apply G2; [exact W2|]. apply G1; assumption.
  - cbn [Re.rmatch] in H.
    match type of H with
    | match ?m with _ => _ end = _ => destruct m as [res'|] eqn:E
    end.
    + assert (res' = res) by congruence. subst res'. apply IH1 in E.
      destruct E as (st1 & c1 & E & E1 & P1 & G1).
      exists st1, c1. repeat split; auto.
    + exists st, []. repeat split; auto.
  - cbn in H. revert H. generalize (length (Re.rest st)). intros fuel.
    revert st. induction fuel as [|fuel IHf]; intros st H.
    + exists st, []. repeat split; auto.
    + match type of H with
      | match ?m with _ => _ end = _ => destruct m as [res'|] eqn:E
      end.
      * assert (res' = res) by congruence. subst res'. apply IH1 in E.
        destruct E as (st1 & c1 & E & E1 & P1 & G1). cbv beta in E.
        match type of E with
        | (if ?c then _ else _) = _ => destruct c; [|discriminate]
        end.
        apply IHf in E. destruct E as (st2 & c2 & E & E2 & P2 & G2).
        exists st2, (c1 ++ c2). split; [exact E|]. split.
        { rewrite E1, E2. apply app_assoc. }
        split.
        -- intros P W. apply Forall_app. split; [apply P1 | apply P2]; exact W.
        -- intros W Hc. apply G2; [exact W|]. apply G1; assumption.
      * exists st, []. repeat split; auto.
  - cbn in H. apply IH1 in H. destruct H as (st1 & c1 & H & E1 & P1 & G1).
    eexists _, c1. split; [exact H|]. cbn [Re.rest Re.caps Re.prev].
    split; [exact E1|]. split; [exact P1|].
    intros [W1 W2] Hc. constructor; [|apply G1; assumption].
    cbn [fst snd]. unfold ReSpec.all_chars.
    rewrite E1, firstn_consumed, list_ascii_of_string_of_list.
    apply P1. exact W1.
  - cbn in H. destruct (Re.prev st); [discriminate|].
    exists st, []. repeat split; auto.
  - cbn in H.
    destruct (xorb (Re.is_word_opt (Re.prev st)) (Re.is_word_opt (head (Re.rest st))));
      [|discriminate].
    exists st, []. repeat split; auto.
Qed.

Lemma match_at_sound (Pg : nat -> ascii -> bool) (r : Re.regex)
      (p : option ascii) (s : list ascii) (m : Re.rematch) :
  Re.match_at r p s = Some m ->
  (forall P, ReSpec.within P r -> ReSpec.all_chars P (Re.group0 m))
  /\ (ReSpec.groups_within Pg r -> ReSpec.caps_ok Pg (Re.groups m)).
Proof.
  unfold Re.match_at. destruct (Re.rmatch r _ Some) as [st|] eqn:E; [|discriminate].
  intros H. injection H as <-.
  apply (rmatch_sound Pg) in E. destruct E as (st1 & consumed & Hk & Hrest & Hw & Hg).
  injection Hk as ->. cbn in Hrest, Hg. cbn. split.
  - intros P HP. unfold ReSpec.all_chars. rewrite Hrest, firstn_consumed.
    rewrite list_ascii_of_string_of_list. apply Hw, HP.
  - intros HG. apply Hg; [exact HG|constructor].
Qed.

Lemma search_from_sound (Pg : nat -> ascii -> bool) (r : Re.regex)
      (s : list ascii) :
  forall (p : option ascii) (m : Re.rematch),
    Re.search_from r p s = Some m ->
    (forall P, ReSpec.within P r -> ReSpec.all_chars P (Re.group0 m))
    /\ (ReSpec.groups_within Pg r -> ReSpec.caps_ok Pg (Re.groups m)).
Proof.
  induction s as [|c tl IH]; intros p m H; cbn in H.
  - destruct (Re.match_at r p []) eqn:E; [|discriminate].
    injection H as ->. eapply match_at_sound, E.
  - destruct (Re.match_at r p (c :: tl)) eqn:E.
    + injection H as ->. eapply match_at_sound, E.
    + eapply IH, H.
Qed.

Lemma search_sound (Pg : nat -> ascii -> bool) (r : Re.regex) (s : string)
      (m : Re.rematch) :
  Re.search r s = Some m ->
  (forall P, ReSpec.within P r -> ReSpec.all_chars P (Re.group0 m))
  /\ (ReSpec.groups_within Pg r -> ReSpec.caps_ok Pg (Re.groups m)).
Proof. apply search_from_sound. Qed.

Lemma assoc_ok (Pg : nat -> ascii -> bool) (i : nat) (caps : list (nat * string)) :
  ReSpec.caps_ok Pg caps -> ReSpec.all_chars (Pg i) (Re.assoc i caps).
Proof.
  induction 1 as [|[j v] caps Hv _ IH]; cbn.
  - constructor.
  - destruct (Nat.eqb i j) eqn:E; [|exact IH].
    apply Nat.eqb_eq in E. subst j. exact Hv.
Qed.

(** The groups of a match hold characters of their classes *)
Lemma search_group (Pg : nat -> ascii -> bool) (r : Re.regex) (s : string)
      (m : Re.rematch) (i : nat) :
  ReSpec.groups_within Pg r ->
  Re.search r s = Some m ->
  ReSpec.all_chars (Pg i) (Re.group i m).
Proof.
  intros HG H. apply assoc_ok. eapply search_sound; eauto.
Qed.

Ltac class_bound :=
  cbn -[Ascii.eqb Py.is_digit Py.is_word Py.is_space]; repeat split; intros c Hc;
  unfold ReSpec.digit_or_dot, ReSpec.word_or_hyphen;
  first [ rewrite Hc; reflexivity
        | apply Ascii.eqb_eq in Hc; subst c; reflexivity
        | exact I ].

Lemma ip_address_class : ReSpec.within ReSpec.digit_or_dot Config.ip_address.
Proof. class_bound. Qed.


Lemma fold_left_invariant {A B : Type} (I : A -> Prop) (step : A -> B -> A)
      (l : list B) (init : A) :
  I init -> (forall acc x, I acc -> I (step acc x)) -> I (fold_left step l init).
Proof.
  intros H0 Hstep. revert init H0.
  induction l as [|x l IH]; intros init H0; simpl; [exact H0|].
  apply IH, Hstep, H0.
Qed.

(** ** The parsers *)

(** X1.  Every address that [parse_nve_peers] reports consists of
    digits and dots only, whatever the output of the device. *)
Theorem nve_peer_addresses_hold_digits_and_dots (output : string) :
  Forall (fun p => ReSpec.all_chars ReSpec.digit_or_dot (Utils.p_ip p))
         (Utils.parse_nve_peers output).
Proof.
  unfold Utils.parse_nve_peers. apply fold_left_invariant; [constructor|].
  intros acc line Hacc.
  destruct (Re.search Config.ip_address line) as [m|] eqn:E; [|exact Hacc].
  apply Forall_app. split; [exact Hacc|]. constructor; [|constructor]. cbn.
  eapply (search_sound (fun _ _ => true)); [exact E|]. apply ip_address_class.
Qed.

Lemma bgp_neighbor_state_classes :
  ReSpec.groups_within ReSpec.neighbor_class Config.bgp_neighbor_state.
Proof. class_bound. Qed.

(** X2.  Every neighbor that [parse_bgp_neighbors] reports has an
    address made of digits and dots and a state made of word characters
    (so a state never holds a space); the uptime and the prefix count
    are never filled in. *)
Theorem bgp_neighbor_records_are_well_formed (output : string) :
  Forall (fun n =>
            ReSpec.all_chars ReSpec.digit_or_dot (Utils.n_ip n)
            /\ ReSpec.all_chars Py.is_word (Utils.n_state n)
            /\ Utils.n_uptime n = None
            /\ Utils.n_prefixes n = None)
         (Utils.parse_bgp_neighbors output).
Proof.
  unfold Utils.parse_bgp_neighbors. apply fold_left_invariant; [constructor|].
  intros acc line Hacc.
  destruct (Re.search Config.bgp_neighbor_state line) as [m|] eqn:E; [|exact Hacc].
  apply Forall_app. split; [exact Hacc|]. constructor; [|constructor]. cbn.
  split; [|split; [|split; reflexivity]].
  - apply (search_group ReSpec.neighbor_class _ _ _ 1 bgp_neighbor_state_classes E).
  - apply (search_group ReSpec.neighbor_class _ _ _ 2 bgp_neighbor_state_classes E).
Qed.

Lemma feature_status_classes :
  ReSpec.groups_within ReSpec.feature_class Patterns.feature_status.
Proof. class_bound. Qed.

Lemma lower_char_lower_char (c : ascii) :
  Py.lower_char (Py.lower_char c) = Py.lower_char c.
Proof. destruct c as [[] [] [] [] [] [] [] []]; reflexivity. Qed.

Lemma lower_lower (s : string) : Py.lower (Py.lower s) = Py.lower s.
Proof.
  induction s as [|c s IH]; [reflexivity|].
  cbn. rewrite lower_char_lower_char. f_equal. exact IH.
Qed.

Lemma feature_keys (output name status : string) :
  MoreUtils.parse_feature_status output !! name = Some status ->
  ReSpec.all_chars ReSpec.word_or_hyphen name /\ Py.lower status = status.
Proof.
  unfold MoreUtils.parse_feature_status. revert name status.
  apply fold_left_invariant.
  - intros name status H. rewrite lookup_empty in H. discriminate.
  - intros acc line Hacc name status.
    destruct (Re.search Patterns.feature_status line) as [m|] eqn:E; [|apply Hacc].
    destruct (decide (Re.group 1 m = name)) as [<-|Hne].
    + rewrite lookup_insert_eq. intros H. injection H as <-. split.
      * apply (search_group ReSpec.feature_class _ _ _ 1 feature_status_classes E).
      * apply lower_lower.
    + rewrite lookup_insert_ne by exact Hne. apply Hacc.
Qed.

(** X3.  The names under which [parse_feature_status] files a status
    are made of word characters and hyphens, so a name with a space in
    it is never a key of the result; the status filed is in lower
    case. *)
Theorem feature_names_hold_no_space (output name status : string) :
  MoreUtils.parse_feature_status output !! name = Some status ->
  ReSpec.all_chars ReSpec.word_or_hyphen name
  /\ ~ In " "%char (list_ascii_of_string name)
  /\ Py.lower status = status.
Proof.
  intros H. apply feature_keys in H. destruct H as [Hname Hstatus].
  split; [exact Hname|]. split; [|exact Hstatus].
  intros Hin. unfold ReSpec.all_chars in Hname.
  rewrite List.Forall_forall in Hname. specialize (Hname _ Hin). discriminate Hname.
Qed.

Lemma feature_names_hold_no_space_witness :
  ReSpec.all_chars ReSpec.word_or_hyphen "vn-segment-vlan-based"
  /\ ~ In " "%char (list_ascii_of_string "vn-segment-vlan-based")
  /\ Py.lower "disabled" = "disabled".
Proof.
  apply (feature_names_hold_no_space
           ("vn-segment-vlan-based  1          Disabled")).
  vm_compute. reflexivity.
Defined.

Lemma nv_overlay_is_no_key (output : string) :
  MoreUtils.parse_feature_status output !! "nv overlay" = None.
Proof.
  destruct (MoreUtils.parse_feature_status output !! "nv overlay") as [status|] eqn:E;
    [|reflexivity].
  apply feature_keys in E. destruct E as [H _]. exfalso.
  unfold ReSpec.all_chars in H.
  rewrite List.Forall_forall in H.
  assert (Hin : In " "%char (list_ascii_of_string "nv overlay")) by (cbn; tauto).
  specialize (H _ Hin). discriminate H.
Qed.

(** X4.  On what [parse_feature_status] reads from any output,
    [validate_required_features] is never satisfied: the feature
    'nv overlay' is reported missing, because its name holds a space
    and so is never a key of the parsed table. *)
Theorem required_features_never_validate (output : string) :
  let features := MoreUtils.parse_feature_status output in
  fst (MoreUtils.validate_required_features features) = false
  /\ In "nv overlay" (snd (MoreUtils.validate_required_features features)).
Proof.
  intros features. unfold MoreUtils.validate_required_features.
  cbn [fold_left MoreUtils.required_features fst snd
       Patterns.nv_overlay_feature Patterns.vn_segment_feature Patterns.features].
  assert (Hnv : MoreUtils.is_enabled features "nv overlay" = false).
  { unfold MoreUtils.is_enabled, features. rewrite nv_overlay_is_no_key. reflexivity. }
  rewrite Hnv. cbn [negb].
  destruct (negb (MoreUtils.is_enabled features "vn-segment-vlan-based")); cbn;
    split; auto.
Qed.

(** X5.  [validate_required_features] accepts a table exactly when it
    files the status 'enabled', in lower case, under both names; the
    names it returns are those that fail this, in the order of the
    requirement. *)
Theorem required_features_valid_iff_both_enabled (features : gmap string string) :
  (fst (MoreUtils.validate_required_features features) = true
   <-> features !! "vn-segment-vlan-based" = Some "enabled"
       /\ features !! "nv overlay" = Some "enabled")
  /\ snd (MoreUtils.validate_required_features features)
     = List.filter (fun f => negb (MoreUtils.is_enabled features f))
                   ["vn-segment-vlan-based"; "nv overlay"].
Proof.
  assert (Hen : forall f, MoreUtils.is_enabled features f = true
                          <-> features !! f = Some "enabled").
  { intros f. unfold MoreUtils.is_enabled. destruct (features !! f) as [s|].
    - rewrite String.eqb_eq. split; congruence.
    - split; discriminate. }
  rewrite <- !Hen.
  unfold MoreUtils.validate_required_features.
  cbn [fold_left MoreUtils.required_features fst snd List.filter
       Patterns.nv_overlay_feature Patterns.vn_segment_feature Patterns.features].
  destruct (MoreUtils.is_enabled features "vn-segment-vlan-based");
    destruct (MoreUtils.is_enabled features "nv overlay"); cbn;
    (split; [split; [try discriminate; auto | intros [? ?]; try discriminate; auto]
            | reflexivity]).
Qed.

(** X6.  The feature check of [FeatureValidator] never passes: when
    the command answers, the result is critical and lists 'nv overlay'
    among the missing features; when it does not, the result is an
    error. *)
Theorem feature_check_never_passes
        (cfg : Config.VXLANConfig) (device : Utils.Device) (device_name : string) :
  let result := MoreValidators.validate_vxlan_features cfg device device_name in
  MoreValidators.f_passed result = false
  /\ (forall output,
        device (Config.show_feature (Config.commands cfg)) = Py.Ok output ->
        MoreValidators.f_severity result = Validators.critical
        /\ exists missing,
            In ("missing", MoreValidators.Names missing)
               (MoreValidators.f_details result)
            /\ In "nv overlay" missing)
  /\ (forall e,
        device (Config.show_feature (Config.commands cfg)) = Py.Raise e ->
        MoreValidators.f_severity result = Validators.error).
Proof.
  intros result. subst result.
  unfold MoreValidators.validate_vxlan_features, Validators.executor,
    Utils.execute_command.
  destruct (device (Config.show_feature (Config.commands cfg))) as [output|e].
  - cbn [fold_left MoreValidators.required_features MoreValidators.feature_step
         Patterns.nv_overlay_feature Patterns.vn_segment_feature Patterns.features].
    destruct (MoreUtils.parse_feature_status output !! "vn-segment-vlan-based")
      as [status|]; [destruct (negb (String.eqb status "enabled"))|];
      cbn [MoreValidators.feature_step app]; rewrite nv_overlay_is_no_key; cbn;
      (split; [reflexivity|]; split; [|intros e' H'; discriminate H'];
       intros o _; split; [reflexivity|]).
    + exists ["nv overlay"]. cbn. auto.
    + exists ["nv overlay"]. cbn. auto.
    + exists ["vn-segment-vlan-based"; "nv overlay"]. cbn. auto.
  - cbn. split; [reflexivity|]. split; [intros o H'; discriminate H'|].
    intros e' _. reflexivity.
Qed.

(** ** The checks of [VXLANValidator] on records *)

Lemma filter_all_length {A : Type} (f : A -> bool) (l : list A) :
  length (List.filter f l) = length l <-> Forall (fun x => f x = true) l.
Proof.
  induction l as [|x l IH]; simpl.
  - split; [constructor|reflexivity].
  - pose proof (filter_length_bound f l) as Hb.
    destruct (f x) eqn:E; simpl; split.
    + intros H. constructor; [exact E|]. apply IH. lia.
    + intros H. inversion H; subst. f_equal. apply IH. assumption.
    + intros H. lia.
    + intros H. inversion H; subst. congruence.
Qed.

Lemma filter_none_length {A : Type} (f : A -> bool) (l : list A) :
  length (List.filter f l) = 0%nat <-> Forall (fun x => f x = false) l.
Proof.
  induction l as [|x l IH]; simpl.
  - split; [constructor|reflexivity].
  - destruct (f x) eqn:E; simpl; split.
    + discriminate.
    + intros H. inversion H; subst. congruence.
    + intros H. constructor; [exact E|]. apply IH, H.
    + intros H. inversion H; subst. apply IH. assumption.
Qed.

(** The three-way split that both checks make on a non-empty list *)
Lemma tally_cases {A : Type} (f : A -> bool) (x : A) (l : list A) :
  let n := length (List.filter f (x :: l)) in
  let total := length (x :: l) in
  (Nat.eqb n 0 = true /\ Forall (fun y => f y = false) (x :: l)
   /\ ~ Forall (fun y => f y = true) (x :: l))
  \/ (Nat.eqb n 0 = false /\ Nat.ltb n total = true
      /\ ~ Forall (fun y => f y = false) (x :: l)
      /\ ~ Forall (fun y => f y = true) (x :: l))
  \/ (Nat.eqb n 0 = false /\ Nat.ltb n total = false
      /\ ~ Forall (fun y => f y = false) (x :: l)
      /\ Forall (fun y => f y = true) (x :: l)).
Proof.
  intros n total.
  pose proof (filter_length_bound f (x :: l)) as Hb. fold n total in Hb.
  pose proof (filter_none_length f (x :: l)) as H0. fold n in H0.
  pose proof (filter_all_length f (x :: l)) as H1. fold n total in H1.
  assert (Ht : (0 < total)%nat) by (unfold total; simpl; lia).
  destruct (Nat.eqb n 0) eqn:E0.
  - apply Nat.eqb_eq in E0. left. split; [reflexivity|]. split; [apply H0, E0|].
    rewrite <- H1. lia.
  - apply Nat.eqb_neq in E0. right.
    destruct (Nat.ltb n total) eqn:E1.
    + apply Nat.ltb_lt in E1. left. repeat split; try reflexivity.
      * rewrite <- H0. exact E0.
      * rewrite <- H1. lia.
    + apply Nat.ltb_ge in E1. right. repeat split; try reflexivity.
      * rewrite <- H0. exact E0.
      * apply H1. lia.
Qed.

Lemma Forall_eqb_true (A : Type) (g : A -> string) (s : string) (l : list A) :
  Forall (fun x => String.eqb (g x) s = true) l <-> Forall (fun x => g x = s) l.
Proof.
  split; intros H; eapply Forall_impl; try exact H; intros x Hx; cbn in *;
    apply String.eqb_eq; exact Hx.
Qed.

Lemma Forall_eqb_false (A : Type) (g : A -> string) (s : string) (l : list A) :
  Forall (fun x => String.eqb (g x) s = false) l <-> Forall (fun x => g x <> s) l.
Proof.
  split; intros H; eapply Forall_impl; try exact H; intros x Hx; cbn in *;
    apply String.eqb_neq; exact Hx.
Qed.

(** X7.  [VXLANValidator.validate_nve_peers] accepts a list of peers
    exactly when it is not empty and every peer is 'Up'.  The issue it
    names is [None] exactly on acceptance, 'no_peers' exactly on the
    empty list, and 'all_peers_down' exactly when the list is not
    empty and no peer is 'Up'; the peers are handed back except on the
    empty list. *)
Theorem utils_peer_check_accepts_iff_all_up (peers : list Utils.Peer) :
  let r := MoreUtils.validate_nve_peers peers in
  (fst r = true <-> peers <> [] /\ Forall (fun p => Utils.p_state p = "Up") peers)
  /\ (MoreUtils.pr_issue (snd r) = None <-> fst r = true)
  /\ (MoreUtils.pr_issue (snd r) = Some "no_peers" <-> peers = [])
  /\ (MoreUtils.pr_issue (snd r) = Some "all_peers_down"
      <-> peers <> [] /\ Forall (fun p => Utils.p_state p <> "Up") peers)
  /\ (MoreUtils.pr_peers (snd r) = None <-> peers = []).
Proof.
  intros r. subst r. destruct peers as [|p ps].
  - cbn. repeat split; try discriminate; try tauto; intros [H _]; congruence.
  - rewrite <- Forall_eqb_true, <- Forall_eqb_false.
    unfold MoreUtils.validate_nve_peers.
    assert (Hne : p :: ps <> []) by discriminate.
    destruct (tally_cases (fun q => String.eqb (Utils.p_state q) "Up") p ps)
      as [(E0 & Hnone & Hall)|[(E0 & E1 & Hnone & Hall)|(E0 & E1 & Hnone & Hall)]];
      rewrite E0; try rewrite E1; cbn [fst snd MoreUtils.pr_issue MoreUtils.pr_peers];
      repeat split; try discriminate; try tauto; try congruence.
Qed.

(** X8.  On an output that holds the header 'Peer-IP', the peer check
    of [InterfaceValidator] passes exactly when
    [VXLANValidator.validate_nve_peers] accepts the peers parsed from
    it.  On an output without the header the former passes whatever
    the peers are, so the two differ there as soon as the latter
    rejects. *)
Theorem peer_checks_agree_under_the_header
        (cfg : Config.VXLANConfig) (device : Utils.Device) (device_name : string)
        (output : string) :
  device (Config.show_nve_peers (Config.commands cfg)) = Py.Ok output ->
  let result := Validators.validate_nve_peers cfg device device_name in
  let verdict := fst (MoreUtils.validate_nve_peers (Utils.parse_nve_peers output)) in
  (Py.contains "Peer-IP" output = true -> Validators.passed result = verdict)
  /\ (Py.contains "Peer-IP" output = false -> Validators.passed result = true).
Proof.
  intros Hdev result verdict. subst result verdict.
  unfold Validators.validate_nve_peers, Validators.executor, Utils.execute_command.
  rewrite Hdev. cbn [Py.bind Validators.try_except].
  split; intros Hh; rewrite Hh; cbn [negb]; [|reflexivity].
  unfold MoreUtils.validate_nve_peers.
  destruct (Utils.parse_nve_peers output) as [|p ps]; [reflexivity|].
  change Validators.is_up with (fun q => String.eqb (Utils.p_state q) "Up").
  destruct (Nat.eqb _ 0); [reflexivity|].
  destruct (Nat.ltb _ _); reflexivity.
Qed.

Lemma peer_checks_agree_under_the_header_witness :
  let result := Validators.validate_nve_peers Config.CONFIG Examples.leaf1 "leaf1" in
  let verdict :=
    fst (MoreUtils.validate_nve_peers (Utils.parse_nve_peers Examples.peers_output)) in
  (Py.contains "Peer-IP" Examples.peers_output = true
   -> Validators.passed result = verdict)
  /\ (Py.contains "Peer-IP" Examples.peers_output = false
      -> Validators.passed result = true).
Proof.
  apply (peer_checks_agree_under_the_header Config.CONFIG Examples.leaf1 "leaf1").
  reflexivity.
Defined.

(** X9.  [VXLANValidator.validate_bgp_evpn] accepts a list of
    neighbors exactly when it is not empty and every state reads
    'established' in any letter case.  The BGP EVPN check of
    [BGPValidator] never passes where it rejects the parsed neighbors,
    and agrees with it on every output that holds neither 'bgp is not
    running' nor 'invalid command'. *)
Theorem bgp_checks_agree
        (cfg : Config.VXLANConfig) (device : Utils.Device) (device_name : string)
        (neighbors : list Utils.BGPNeighbor) :
  (fst (MoreUtils.validate_bgp_evpn neighbors) = true
   <-> neighbors <> []
       /\ Forall (fun n => Py.lower (Utils.n_state n) = "established") neighbors)
  /\ (forall output,
        device (Config.show_bgp_evpn_summary (Config.commands cfg)) = Py.Ok output ->
        let result := Validators.validate_bgp_evpn cfg device device_name in
        let verdict :=
          fst (MoreUtils.validate_bgp_evpn (Utils.parse_bgp_neighbors output)) in
        (Validators.passed result = true -> verdict = true)
        /\ (Py.contains "bgp is not running" (Py.lower output) = false ->
            Py.contains "invalid command" (Py.lower output) = false ->
            Validators.passed result = verdict)).
Proof.
  split.
  - destruct neighbors as [|n ns].
    + cbn. split; [discriminate|intros [H _]; congruence].
    + rewrite <- (Forall_eqb_true _ (fun n => Py.lower (Utils.n_state n))).
      unfold MoreUtils.validate_bgp_evpn.
      assert (Hne : n :: ns <> []) by discriminate.
      destruct (tally_cases
                  (fun q => String.eqb (Py.lower (Utils.n_state q)) "established") n ns)
        as [(E0 & Hnone & Hall)|[(E0 & E1 & Hnone & Hall)|(E0 & E1 & Hnone & Hall)]];
        rewrite E0; try rewrite E1; cbn [fst];
        split; try discriminate; try tauto.
  - intros output Hdev result verdict.
    assert (Hsame : Py.contains "bgp is not running" (Py.lower output)
                    || Py.contains "invalid command" (Py.lower output) = false ->
                    Validators.passed result = verdict).
    { intros Hno. subst result verdict.
      unfold Validators.validate_bgp_evpn, Validators.executor, Utils.execute_command.
      rewrite Hdev. cbn [Py.bind Validators.try_except]. rewrite Hno.
      unfold MoreUtils.validate_bgp_evpn.
      destruct (Utils.parse_bgp_neighbors output) as [|n ns]; [reflexivity|].
      change Validators.is_established
        with (fun q => String.eqb (Py.lower (Utils.n_state q)) "established").
      destruct (Nat.eqb _ 0); [reflexivity|].
      destruct (Nat.ltb _ _); reflexivity. }
    split.
    + destruct (Py.contains "bgp is not running" (Py.lower output)
                || Py.contains "invalid command" (Py.lower output)) eqn:Hno.
      * subst result.
        unfold Validators.validate_bgp_evpn, Validators.executor, Utils.execute_command.
        rewrite Hdev. cbn [Py.bind Validators.try_except]. rewrite Hno.
        cbn. discriminate.
      * rewrite Hsame by reflexivity. auto.
    + intros H1 H2. apply Hsame. rewrite H1, H2. reflexivity.
Qed.

Lemma bgp_checks_agree_witness :
  let result := Validators.validate_bgp_evpn Config.CONFIG Examples.leaf1 "leaf1" in
  let verdict :=
    fst (MoreUtils.validate_bgp_evpn (Utils.parse_bgp_neighbors Examples.bgp_output)) in
  (Validators.passed result = true -> verdict = true)
  /\ (Py.contains "bgp is not running" (Py.lower Examples.bgp_output) = false ->
      Py.contains "invalid command" (Py.lower Examples.bgp_output) = false ->
      Validators.passed result = verdict).
Proof.
  apply (bgp_checks_agree Config.CONFIG Examples.leaf1 "leaf1" []).
  reflexivity.
Defined.

(** ** [DeviceExecutor.execute_with_fallback] *)

Lemma try_fallbacks_all_fail (device : Utils.Device) (device_name primary : string)
      (fallbacks : list string) :
  Forall (fun c => exists e, device c = Py.Raise e) fallbacks ->
  MoreUtils.try_fallbacks device device_name primary fallbacks
  = Py.Raise (Py.VXLANTestException "CommandExecutionError"
                "All commands failed including fallbacks"
                (Some device_name) (Some primary)).
Proof.
  induction 1 as [|c l [e He] _ IH]; cbn; [reflexivity|].
  unfold Utils.execute_command. rewrite He. exact IH.
Qed.

Lemma try_fallbacks_first_answer (device : Utils.Device) (device_name primary : string)
      (pre : list string) (c : string) (post : list string) (out : string) :
  Forall (fun c => exists e, device c = Py.Raise e) pre ->
  device c = Py.Ok out ->
  MoreUtils.try_fallbacks device device_name primary (pre ++ c :: post) = Py.Ok out.
Proof.
  intros Hpre Hc. induction Hpre as [|c' l [e He] _ IH]; cbn.
  - unfold Utils.execute_command. rewrite Hc. reflexivity.
  - unfold Utils.execute_command at 1. rewrite He. exact IH.
Qed.

(** X10.  [execute_with_fallback] returns the output of the first
    command, among the primary one and the fallbacks in their order,
    that the device answers.  When the device answers none, it raises
    a [CommandExecutionError] that names the device and the primary
    command and keeps nothing of the errors of the commands. *)
Theorem fallback_returns_first_answer
        (device : Utils.Device) (device_name primary : string)
        (fallbacks : list string) :
  (forall pre c post out,
      primary :: fallbacks = pre ++ c :: post ->
      Forall (fun c => exists e, device c = Py.Raise e) pre ->
      device c = Py.Ok out ->
      MoreUtils.execute_with_fallback device device_name primary fallbacks = Py.Ok out)
  /\ (Forall (fun c => exists e, device c = Py.Raise e) (primary :: fallbacks) ->
      MoreUtils.execute_with_fallback device device_name primary fallbacks
      = Py.Raise (Py.VXLANTestException "CommandExecutionError"
                    "All commands failed including fallbacks"
                    (Some device_name) (Some primary))
      /\ Py.str_exn (Py.VXLANTestException "CommandExecutionError"
                       "All commands failed including fallbacks"
                       (Some device_name) (Some primary))
         = "All commands failed including fallbacks"
           +:+ (if String.eqb device_name "" then ""
                else " (Device: " +:+ device_name +:+ ")")
           +:+ (if String.eqb primary "" then ""
                else " (Command: " +:+ primary +:+ ")")).
Proof.
  unfold MoreUtils.execute_with_fallback. split.
  - intros pre c post out Hsplit Hpre Hc.
    destruct pre as [|c0 pre]; cbn in Hsplit; injection Hsplit as -> ->.
    + unfold Utils.execute_command. rewrite Hc. reflexivity.
    + inversion Hpre as [|? ? [e He] Hrest]; subst.
      unfold Utils.execute_command at 1. rewrite He.
      apply try_fallbacks_first_answer; assumption.
  - intros Hall. inversion Hall as [|? ? [e He] Hrest]; subst. split.
    + unfold Utils.execute_command at 1. rewrite He.
      apply try_fallbacks_all_fail, Hrest.
    + cbn. destruct (String.eqb device_name ""), (String.eqb primary ""); reflexivity.
Qed.

Lemma fallback_returns_first_answer_witness :
  MoreUtils.execute_with_fallback Examples.leaf1 "leaf1" "show nve peers detail"
    ["show nve peer"; "show nve peers"; "show bgp l2vpn evpn summary"]
  = Py.Ok Examples.peers_output.
Proof.
  apply (fallback_returns_first_answer Examples.leaf1 "leaf1" "show nve peers detail"
           ["show nve peer"; "show nve peers"; "show bgp l2vpn evpn summary"])
    with (pre := ["show nve peers detail"; "show nve peer"])
         (c := "show nve peers") (post := ["show bgp l2vpn evpn summary"]).
  - reflexivity.
  - repeat constructor; eexists; reflexivity.
  - reflexivity.
Defined.

(** ** The helpers of vxlan_utils.py *)

Lemma list_ascii_of_lower (s : string) :
  list_ascii_of_string (Py.lower s) = map Py.lower_char (list_ascii_of_string s).
Proof. induction s as [|c s IH]; cbn; [reflexivity|]. f_equal. exact IH. Qed.

Lemma firstn_plus {A : Type} (a b : nat) (l : list A) :
  firstn (a + b) l = firstn a l ++ firstn b (skipn a l).
Proof.
  revert l. induction a as [|a IH]; intros l; [reflexivity|].
  destruct l as [|x l]; cbn.
  - destruct b; reflexivity.
  - f_equal. apply IH.
Qed.

Lemma slices_cover (l : list ascii) :
  MoreUtils.slice 0 4 l ++ MoreUtils.slice 4 8 l ++ MoreUtils.slice 8 12 l
  = firstn 12 l.
Proof.
  unfold MoreUtils.slice. cbn [Nat.sub skipn].
  change 12%nat with (4 + (4 + 4))%nat.
  rewrite !firstn_plus. rewrite List.skipn_skipn. reflexivity.
Qed.

Lemma slice_of_prefix (i j n : nat) (l : list ascii) :
  (j <= n)%nat -> MoreUtils.slice i j (firstn n l) = MoreUtils.slice i j l.
Proof.
  intros Hj. unfold MoreUtils.slice.
  rewrite List.skipn_firstn_comm, List.firstn_firstn.
  f_equal. lia.
Qed.

Lemma clean_kept (l : list ascii) :
  Forall MoreSpec.kept (List.filter (fun c => negb (MoreUtils.is_separator c))
                           (map Py.lower_char l)).
Proof.
  induction l as [|c l IH]; cbn; [constructor|].
  destruct (MoreUtils.is_separator (Py.lower_char c)) eqn:E; cbn; [exact IH|].
  constructor; [|exact IH]. split; [apply lower_char_lower_char|exact E].
Qed.

Lemma clean_of_kept (l : list ascii) :
  Forall MoreSpec.kept l ->
  List.filter (fun c => negb (MoreUtils.is_separator c)) (map Py.lower_char l) = l.
Proof.
  induction 1 as [|c l [Hl Hs] _ IH]; cbn; [reflexivity|].
  rewrite Hl, Hs. cbn. f_equal. exact IH.
Qed.

Lemma slice_kept (i j : nat) (l : list ascii) :
  Forall MoreSpec.kept l -> Forall MoreSpec.kept (MoreUtils.slice i j l).
Proof.
  intros H. unfold MoreUtils.slice. apply Forall_take, Forall_drop, H.
Qed.

Lemma clean_of_format (mac : string) :
  List.filter (fun c => negb (MoreUtils.is_separator c))
              (list_ascii_of_string (Py.lower (MoreUtils.format_mac_address mac)))
  = firstn 12 (List.filter (fun c => negb (MoreUtils.is_separator c))
                           (list_ascii_of_string (Py.lower mac))).
Proof.
  unfold MoreUtils.format_mac_address.
  set (clean := List.filter (fun c => negb (MoreUtils.is_separator c))
                            (list_ascii_of_string (Py.lower mac))).
  assert (Hclean : Forall MoreSpec.kept clean).
  { unfold clean. rewrite list_ascii_of_lower. apply clean_kept. }
  rewrite list_ascii_of_lower, list_ascii_of_string_of_list.
  rewrite !map_app, !List.filter_app.
  rewrite (clean_of_kept (MoreUtils.slice 0 4 clean)) by (apply slice_kept, Hclean).
  rewrite (clean_of_kept (MoreUtils.slice 4 8 clean)) by (apply slice_kept, Hclean).
  rewrite (clean_of_kept (MoreUtils.slice 8 12 clean)) by (apply slice_kept, Hclean).
  change (List.filter (fun c => negb (MoreUtils.is_separator c))
                      (map Py.lower_char ["."%char])) with (@nil ascii).
  cbn [app]. apply slices_cover.
Qed.

(** X11.  [format_mac_address] is idempotent: formatting its own
    result changes nothing.  The result has at most fourteen
    characters, whatever the input. *)
Theorem mac_format_is_idempotent (mac : string) :
  MoreUtils.format_mac_address (MoreUtils.format_mac_address mac)
  = MoreUtils.format_mac_address mac
  /\ (String.length (MoreUtils.format_mac_address mac) <= 14)%nat.
Proof.
  split.
  - unfold MoreUtils.format_mac_address at 1. rewrite clean_of_format.
    rewrite !slice_of_prefix by lia. reflexivity.
  - unfold MoreUtils.format_mac_address.
    assert (Hlen : forall l, String.length (string_of_list_ascii l) = length l).
    { induction l as [|c l IH]; cbn; congruence. }
    rewrite Hlen, !length_app.
    unfold MoreUtils.slice. rewrite !List.length_firstn. cbn [length]. lia.
Qed.

(** X12.  [calculate_percentage] answers 0.0 for a maximum of zero,
    where [validate_resource_usage] raises [ZeroDivisionError]; for
    any other maximum it gives the very percentage that
    [validate_resource_usage] reports, and it gives one whenever the
    current value is below the overflow bound of the division. *)
Theorem percentage_helper_agrees_with_usage_rule
        (resource_type : string) (current maximum : Z) :
  (maximum = 0 ->
   Utils.calculate_percentage current maximum = Py.Ok 0%float
   /\ Utils.validate_resource_usage resource_type current maximum
      = Py.Raise (Py.Exception "ZeroDivisionError" "division by zero"))
  /\ (maximum <> 0 ->
      (forall ok usage,
          Utils.validate_resource_usage resource_type current maximum
          = Py.Ok (ok, usage) ->
          Utils.calculate_percentage current maximum
          = Py.Ok (Utils.u_percentage usage))
      /\ (Z.abs current < PyFloat.overflow_bound ->
          exists p, Utils.calculate_percentage current maximum = Py.Ok p)).
Proof.
  split.
  - intros ->. split; reflexivity.
  - intros Hm. unfold Utils.calculate_percentage, Utils.validate_resource_usage.
    destruct (maximum =? 0) eqn:E; [apply Z.eqb_eq in E; contradiction|].
    split.
    + intros ok usage.
      destruct (PyFloat.truediv current maximum) as [q|e]; cbn [Py.bind];
        [|discriminate].
      destruct (PyFloat.ge _ _); [|destruct (PyFloat.ge _ _)];
        intros H; injection H as <- <-; reflexivity.
    + intros Hc. rewrite truediv_total by assumption. cbn. eauto.
Qed.

Lemma percentage_helper_agrees_with_usage_rule_witness :
  Utils.calculate_percentage 9000 12000 = Py.Ok 75%float
  /\ exists p, Utils.calculate_percentage 9000 12000 = Py.Ok p.
Proof.
  destruct (percentage_helper_agrees_with_usage_rule "vni" 9000 12000) as [_ H].
  destruct H as [Hsame Hsome]; [lia|]. split.
  - eassert (Hu : Utils.validate_resource_usage "vni" 9000 12000 = Py.Ok (_, _))
      by (vm_compute; reflexivity).
    rewrite (Hsame _ _ Hu). vm_compute. reflexivity.
  - apply Hsome. vm_compute. reflexivity.
Defined.

Lemma dotted_quad_class : ReSpec.within ReSpec.digit_or_dot Patterns.dotted_quad.
Proof. class_bound. Qed.

(** X13.  What [is_valid_ip] accepts consists of digits and dots,
    followed by at most one line feed: no other character gets
    through, but a trailing line feed does, and the octets are not
    checked against 255. *)
Theorem valid_ip_holds_digits_and_dots (ip : string) :
  MoreUtils.is_valid_ip ip = true ->
  exists body,
    Forall (fun c => ReSpec.digit_or_dot c = true) body
    /\ (list_ascii_of_string ip = body
        \/ list_ascii_of_string ip = body ++ [Py.newline]).
Proof.
  unfold MoreUtils.is_valid_ip, Patterns.full_match.
  destruct (Re.rmatch _ _ _) as [res|] eqn:E; [|discriminate]. intros _.
  apply (rmatch_sound (fun _ _ => true)) in E.
  destruct E as (st1 & consumed & Hk & Hrest & Hw & _).
  cbn [Re.rest] in Hrest. exists consumed. split; [apply Hw, dotted_quad_class|].
  destruct (Patterns.at_end (Re.rest st1)) eqn:Hend; [|discriminate].
  rewrite Hrest. destruct (Re.rest st1) as [|c [|c' tl]]; cbn in Hend.
  - left. apply app_nil_r.
  - right. apply Ascii.eqb_eq in Hend. subst c. reflexivity.
  - discriminate.
Qed.

Lemma valid_ip_holds_digits_and_dots_witness :
  exists body,
    Forall (fun c => ReSpec.digit_or_dot c = true) body
    /\ (list_ascii_of_string ("999.1.2.3" +:+ Py.nl) = body
        \/ list_ascii_of_string ("999.1.2.3" +:+ Py.nl) = body ++ [Py.newline]).
Proof.
  apply (valid_ip_holds_digits_and_dots ("999.1.2.3" +:+ Py.nl)).
  vm_compute. reflexivity.
Defined.

Lemma digits_value_nonneg (s : string) : 0 <= Py.digits_value s.
Proof.
  unfold Py.digits_value.
  apply (fold_left_invariant (fun z => 0 <= z)); [lia|]. intros acc c H. lia.
Qed.

Lemma int_of_digits_nonneg (s : string) (n : Z) :
  Py.int_of_digits s = Py.Ok n -> 0 <= n.
Proof.
  unfold Py.int_of_digits.
  destruct (Nat.ltb Py.max_str_digits (String.length s)); [discriminate|].
  intros [= <-]. apply digits_value_nonneg.
Qed.

(** What holds of every record that the body of the loop builds holds
    of the records that [parse_vni_info] returns, also when the loop is
    left early. *)
Lemma parse_vni_lines_invariant (P : Utils.VNIInfo -> Prop) :
  (forall line v, Utils.vni_of_line line = Py.Ok (Some v) -> P v) ->
  forall lines vnis, Forall P vnis -> Forall P (Utils.parse_vni_lines lines vnis).
Proof.
  intros Hbody. induction lines as [|line lines IH]; intros vnis Hacc; [exact Hacc|].
  cbn [Utils.parse_vni_lines].
  destruct (Utils.vni_of_line line) as [[v|]|e] eqn:E.
  - apply IH. apply Forall_app. split; [exact Hacc|].
    constructor; [exact (Hbody line v E)|constructor].
  - apply IH, Hacc.
  - exact Hacc.
Qed.

Lemma vrf_name_classes : ReSpec.groups_within (fun _ => Py.is_word) Config.vrf_name.
Proof. class_bound. Qed.

(** X14.  Every record of [parse_vni_info] is of type 'L2' or 'L3';
    its state is 'Up', 'Down' or missing; its number, and its VLAN if
    it has one, are not negative; its VRF, if it has one, is made of
    word characters; and its replication mode is never filled in. *)
Theorem vni_records_are_well_formed (output : string) :
  Forall (fun v =>
            (Utils.vni_type v = "L2" \/ Utils.vni_type v = "L3")
            /\ (Utils.vni_state v = Some "Up" \/ Utils.vni_state v = Some "Down"
                \/ Utils.vni_state v = None)
            /\ 0 <= Utils.vni v
            /\ (forall n, Utils.vlan v = Some n -> 0 <= n)
            /\ (forall name, Utils.vrf v = Some name -> ReSpec.all_chars Py.is_word name)
            /\ Utils.replication v = None)
         (Utils.parse_vni_info output).
Proof.
  unfold Utils.parse_vni_info. apply parse_vni_lines_invariant; [|constructor].
  intros line v. unfold Utils.vni_of_line.
  destruct (Re.search Config.vni_number line) as [m|] eqn:E; [|discriminate].
  destruct (Py.int_of_digits (Re.group 1 m)) as [vni_num|e] eqn:En;
    cbn [Py.bind]; [|discriminate].
  assert (Hvlan : forall vlan,
             match Re.search Config.vlan_number line with
             | Some vlan_match =>
                 Py.bind (Py.int_of_digits (Re.group 1 vlan_match))
                         (fun vlan => Py.Ok (Some vlan))
             | None => Py.Ok None
             end = Py.Ok vlan ->
             forall n, vlan = Some n -> 0 <= n).
  { intros vlan. destruct (Re.search Config.vlan_number line) as [mv|].
    - destruct (Py.int_of_digits (Re.group 1 mv)) as [k|e] eqn:Ek;
        cbn [Py.bind]; [|discriminate].
      intros [= <-] n [= <-]. exact (int_of_digits_nonneg _ _ Ek).
    - intros [= <-] n. discriminate. }
  destruct (match Re.search Config.vlan_number line with
            | Some vlan_match => _ | None => _ end) as [vlan|e];
    cbn [Py.bind]; [|discriminate].
  intros [= <-]. cbn.
  split; [destruct (Py.contains "L3" line); auto|].
  split; [destruct (Py.contains "Up" line); [auto|];
          destruct (Py.contains "Down" line); auto|].
  split; [exact (int_of_digits_nonneg _ _ En)|].
  split; [exact (Hvlan vlan eq_refl)|].
  split; [|reflexivity].
  intros name. destruct (Re.search Config.vrf_name line) as [mv|] eqn:Ev;
    [|discriminate].
  intros H. injection H as <-.
  apply (search_group (fun _ => Py.is_word) _ _ _ 1 vrf_name_classes Ev).
Qed.

(** ** What a test case records *)

(** X15.  What [record_metric] and [record_test_result] store is read
    back under the same device and name; every other entry of the two
    tables is left as it was, and neither touches the table of the
    other. *)
Theorem recorded_values_are_read_back
        (self : BaseTest.TestInstance) (d name : string)
        (v : Validators.pyval) (r : Validators.ValidationResult) :
  let with_metric := BaseTest.record_metric self d name v in
  let with_result := BaseTest.record_test_result self d name r in
  MoreBaseTest.metric_of with_metric d name = Some v
  /\ MoreBaseTest.result_of with_result d name = Some r
  /\ (forall d' name', (d', name') <> (d, name) ->
        MoreBaseTest.metric_of with_metric d' name' = MoreBaseTest.metric_of self d' name'
        /\ MoreBaseTest.result_of with_result d' name'
           = MoreBaseTest.result_of self d' name')
  /\ BaseTest.test_results with_metric = BaseTest.test_results self
  /\ BaseTest.device_metrics with_result = BaseTest.device_metrics self.
Proof.
  intros with_metric with_result. subst with_metric with_result.
  unfold MoreBaseTest.metric_of, MoreBaseTest.result_of,
    BaseTest.record_metric, BaseTest.record_test_result.
  cbn [BaseTest.test_results BaseTest.device_metrics].
  split; [rewrite lookup_insert_eq; cbn; apply lookup_insert_eq|].
  split; [rewrite lookup_insert_eq; cbn; apply lookup_insert_eq|].
  split; [|split; reflexivity].
  intros d' name' Hne.
  destruct (decide (d = d')) as [<-|Hd].
  - assert (Hn : name <> name') by congruence.
    rewrite !lookup_insert_eq. cbn [mbind option_bind].
    rewrite !lookup_insert_ne by exact Hn.
    split.
    + destruct (BaseTest.device_metrics self !! d); cbn; [reflexivity|].
      apply lookup_empty.
    + destruct (BaseTest.test_results self !! d); cbn; [reflexivity|].
      apply lookup_empty.
  - rewrite !lookup_insert_ne by exact Hd. split; reflexivity.
Qed.

Lemma recorded_values_are_read_back_witness :
  MoreBaseTest.metric_of
    (BaseTest.record_metric BaseTest.new_test "leaf1" "total_vnis" (Validators.VInt 2))
    "leaf1" "l2_vnis"
  = None.
Proof.
  destruct (recorded_values_are_read_back BaseTest.new_test "leaf1" "total_vnis"
              (Validators.VInt 2)
              (Validators.create_result true "" [] [] Validators.info))
    as (_ & _ & H & _).
  destruct (H "leaf1" "l2_vnis") as [Hm _]; [discriminate|].
  rewrite Hm. reflexivity.
Defined.

(** ** No check is skipped *)

Ltac read_failure :=
  cbn [Validators.passed Validators.severity Validators.create_result];
  intros; congruence.

Lemma usage_failing_is_not_info (cfg : Config.VXLANConfig) (c : Z)
      (u : Validators.ValidationResult) :
  Validators._validate_vni_usage cfg c = Py.Ok u ->
  Validators.passed u = false -> Validators.severity u <> Validators.info.
Proof.
  unfold Validators._validate_vni_usage, Py.bind.
  destruct (PyFloat.truediv c (Config.max_vni_count (Config.thresholds cfg)));
    [|discriminate].
  split_branches; intros [= <-]; read_failure.
Qed.

(** Every failing result that the validators build is a warning, an
    error or critical. *)
Lemma failing_results_are_not_info
      (cfg : Config.VXLANConfig) (device : Utils.Device) (device_name : string) :
  Forall (fun r => Validators.passed r = false ->
                   Validators.severity r <> Validators.info)
         [Validators.validate_platform_support cfg device device_name;
          MoreValidators.as_result
            (MoreValidators.validate_vxlan_features cfg device device_name);
          MoreValidators.validate_nve_interface cfg device device_name;
          Validators.validate_nve_peers cfg device device_name;
          Validators.validate_vni_configuration cfg device device_name;
          Validators.validate_ingress_replication cfg device device_name;
          Validators.validate_bgp_evpn cfg device device_name;
          Validators.validate_evpn_routes cfg device device_name].
Proof.
  repeat constructor.
  - open_check. unfold Py.bind, Validators.try_except.
    split_branches; read_failure.
  - unfold MoreValidators.as_result, MoreValidators.validate_vxlan_features.
    destruct (Validators.executor device device_name
                (Config.show_feature (Config.commands cfg))) as [output|e];
      [|cbn; intros; congruence].
    destruct (fold_left _ _ _) as [missing_features disabled_features].
    destruct missing_features, disabled_features; cbn; intros; congruence.
  - unfold MoreValidators.validate_nve_interface, Validators.executor,
      Utils.execute_command, Py.bind, Validators.try_except.
    split_branches; read_failure.
  - open_check. unfold Py.bind, Validators.try_except.
    split_branches; read_failure.
  - open_check. unfold Py.bind, Validators.try_except.
    destruct (device (Config.show_nve_vni (Config.commands cfg))) as [output|e];
      [|read_failure].
    destruct (negb (Py.contains "VNI" output)); [read_failure|].
    destruct (Utils.parse_vni_info output) as [|v l]; [read_failure|].
    destruct (fold_left Validators.vni_step (v :: l) ([], [], [])) as [[i l2] l3].
    destruct (Validators._validate_vni_usage cfg (Z.of_nat (length (v :: l))))
      as [u|e] eqn:Hu; [|read_failure].
    destruct i; [|read_failure].
    cbn [Validators.passed Validators.severity Validators.create_result].
    apply (usage_failing_is_not_info _ _ _ Hu).
  - open_check. unfold Py.bind, Validators.try_except.
    split_branches; read_failure.
  - open_check. unfold Py.bind, Validators.try_except.
    split_branches; read_failure.
  - open_check. unfold Py.bind, Validators.try_except.
    split_branches; read_failure.
Qed.

(** X16.  Whatever the device answers, no check of the validators ends
    in a skipped step, the check of the required features included: run
    through [validate_and_process], a result that passed tells the step
    it passed, with the message of the result, and a result that failed
    tells the step it failed.  The branch of
    [process_validation_result] that skips is never taken on their
    results. *)
Theorem no_check_is_ever_skipped
        (cfg : Config.VXLANConfig) (device : Utils.Device)
        (device_name test_name : string) (self : BaseTest.TestInstance) :
  Forall (fun r =>
            match snd (snd (BaseTest.validate_and_process
                              device_name test_name (Py.Ok r) self)) with
            | BaseTest.StepPassed msg =>
                Validators.passed r = true /\ msg = Validators.message r
            | BaseTest.StepFailed _ => Validators.passed r = false
            | BaseTest.StepSkipped _ => False
            end)
         [Validators.validate_platform_support cfg device device_name;
          MoreValidators.as_result
            (MoreValidators.validate_vxlan_features cfg device device_name);
          MoreValidators.validate_nve_interface cfg device device_name;
          Validators.validate_nve_peers cfg device device_name;
          Validators.validate_vni_configuration cfg device device_name;
          Validators.validate_ingress_replication cfg device device_name;
          Validators.validate_bgp_evpn cfg device device_name;
          Validators.validate_evpn_routes cfg device device_name].
Proof.
  eapply Forall_impl; [apply (failing_results_are_not_info cfg device device_name)|].
  intros r Hr. cbn beta in Hr.
  unfold BaseTest.validate_and_process, BaseTest.process_validation_result.
  cbn [snd].
  destruct (Validators.passed r) eqn:Hp; cbn [snd]; [split; reflexivity|].
  destruct (Validators.severity r) eqn:Hs; cbn [snd]; try reflexivity.
  apply Hr; reflexivity.
Qed.

(** ** The report *)

(** The loop that merges the metrics of a test case, device by device *)
Lemma merged_metrics (metrics_of_case all_metrics : Suite.MetricTable) (d : string) :
  map_fold
    (fun device metrics (all_metrics : Suite.MetricTable) =>
       <[device := metrics ∪ default ∅ (all_metrics !! device)]> all_metrics)
    all_metrics metrics_of_case !! d
  = match metrics_of_case !! d with
    | Some metrics => Some (metrics ∪ default ∅ (all_metrics !! d))
    | None => all_metrics !! d
    end.
Proof.
  unfold Suite.MetricTable in *. revert d.
  apply (map_fold_weak_ind
           (fun (r m : gmap string (gmap string Validators.pyval)) =>
              forall d, r !! d = match m !! d with
                                 | Some metrics =>
                                     Some (metrics ∪ default ∅ (all_metrics !! d))
                                 | None => all_metrics !! d
                                 end)).
  - intros d. rewrite lookup_empty. reflexivity.
  - intros i x m r Hi IH d. destruct (decide (i = d)) as [<-|Hne].
    + rewrite !lookup_insert_eq. rewrite (IH i), Hi. reflexivity.
    + rewrite !lookup_insert_ne by exact Hne. apply IH.
Qed.

(** The collecting loop over any list of test cases, from any tables *)
Lemma collected_results (parent : gmap string BaseTest.TestInstance) (d : string)
      (names : list string) :
  forall acc : Suite.ResultTable * Suite.MetricTable,
    fst (fold_left (Suite.collect_step parent) names acc) !! d
    = match last (omap (fun name => parent !! Py.lower name
                                    ≫= fun t => BaseTest.test_results t !! d) names) with
      | Some tests => Some tests
      | None => fst acc !! d
      end.
Proof.
  induction names as [|name names IH]; intros [all_results all_metrics];
    [reflexivity|].
  cbn [fold_left omap list_omap]. rewrite IH. clear IH.
  unfold Suite.collect_step, Suite.MetricTable, Suite.ResultTable in *.
  destruct (parent !! Py.lower name) as [t|]; cbn [mbind option_bind fst];
    [|reflexivity].
  rewrite lookup_union.
  destruct (BaseTest.test_results t !! d) as [tests|]; [rewrite last_cons|];
    match goal with |- context [last ?l] => generalize (last l) end;
    intros [tests'|]; try reflexivity;
    destruct (all_results !! d); reflexivity.
Qed.

Lemma collected_metrics (parent : gmap string BaseTest.TestInstance)
      (d metric : string) (names : list string) :
  forall acc : Suite.ResultTable * Suite.MetricTable,
    snd (fold_left (Suite.collect_step parent) names acc) !! d
      ≫= (fun metrics => metrics !! metric)
    = match last (omap (fun name => parent !! Py.lower name
                                    ≫= fun t => BaseTest.device_metrics t !! d
                                    ≫= fun metrics => metrics !! metric) names) with
      | Some v => Some v
      | None => snd acc !! d ≫= (fun metrics => metrics !! metric)
      end.
Proof.
  induction names as [|name names IH]; intros [all_results all_metrics];
    [reflexivity|].
  cbn [fold_left omap list_omap]. rewrite IH. clear IH.
  pose proof merged_metrics as Hmerge.
  unfold Suite.collect_step, Suite.MetricTable, Suite.ResultTable in *.
  destruct (parent !! Py.lower name) as [t|]; cbn [mbind option_bind snd];
    [|reflexivity].
  rewrite Hmerge.
  destruct (BaseTest.device_metrics t !! d) as [metrics|];
    cbn [mbind option_bind]; [|reflexivity].
  rewrite lookup_union.
  destruct (metrics !! metric) as [v|]; [rewrite last_cons|];
    match goal with |- context [last ?l] => generalize (last l) end;
    intros [v'|]; try reflexivity;
    destruct (all_metrics !! d) as [old|]; cbn; try reflexivity;
    try (destruct (old !! metric); reflexivity);
    rewrite lookup_empty; reflexivity.
Qed.

(** X17.  The report holds, for a device, the table of results of the
    last test case that has results for the device, and nothing of the
    test cases before it; a metric of the device, though, is kept from
    whichever test case recorded it last. *)
Theorem report_keeps_the_last_table_and_every_metric
        (parent : gmap string BaseTest.TestInstance) (d : string) :
  fst (Suite.collect parent) !! d = last (MoreSpec.result_tables parent d)
  /\ forall metric,
      snd (Suite.collect parent) !! d ≫= (fun metrics => metrics !! metric)
      = last (MoreSpec.metric_values parent d metric).
Proof.
  unfold Suite.collect, MoreSpec.result_tables, MoreSpec.metric_values. split.
  - rewrite collected_results. cbn [fst].
    destruct (last _); [reflexivity|]. apply lookup_empty.
  - intros metric. rewrite collected_metrics. cbn [snd].
    destruct (last _); [reflexivity|].
    unfold Suite.MetricTable. rewrite lookup_empty. reflexivity.
Qed.

Lemma healthy_by_last_table (parent : gmap string BaseTest.TestInstance) (d : string) :
  Suite.device_is_healthy (fst (Suite.collect parent)) d
  = match last (MoreSpec.result_tables parent d) with
    | Some tests => MoreSpec.no_blocking tests
    | None => true
    end.
Proof.
  unfold Suite.device_is_healthy, Suite.collect, MoreSpec.result_tables,
    MoreSpec.no_blocking.
  rewrite collected_results. cbn [fst].
  destruct (last _) as [tests|]; [reflexivity|].
  unfold Suite.ResultTable. rewrite lookup_empty. reflexivity.
Qed.

(** X18.  The summary counts every device it is given; a device
    counts as healthy exactly when the last test case that has results
    for it holds no failing result of severity error or critical, and
    a device for which no test case has results counts as healthy.
    The devices with issues are the rest. *)
Theorem summary_counts_by_the_last_table
        (parent : gmap string BaseTest.TestInstance) (devices : list string) :
  let s := Suite.generate_summary_report parent devices in
  Suite.total_devices s = length devices
  /\ Suite.healthy_devices s
     = length (List.filter
                 (fun d => match last (MoreSpec.result_tables parent d) with
                           | Some tests => MoreSpec.no_blocking tests
                           | None => true
                           end)
                 devices)
  /\ (Suite.healthy_devices s + Suite.devices_with_issues s
      = Suite.total_devices s)%nat.
Proof.
  intros s. subst s. unfold Suite.generate_summary_report.
  pose proof (healthy_by_last_table parent) as Hh.
  destruct (Suite.collect parent) as [all_results all_metrics]. cbn [fst] in Hh.
  unfold Suite.overall_summary.
  cbn [Suite.total_devices Suite.healthy_devices Suite.devices_with_issues].
  split; [reflexivity|]. split.
  - f_equal. apply List.filter_ext. exact Hh.
  - pose proof (filter_length_bound (Suite.device_is_healthy all_results) devices).
    lia.
Qed.

(** ** The counters *)

Lemma sum_nonneg (l : list Z) : Forall (fun n => 0 <= n) l -> 0 <= Suite.sum l.
Proof.
  induction 1 as [|x l Hx _ IH]; [unfold Suite.sum; cbn; lia|].
  rewrite sum_cons. lia.
Qed.

Lemma positive_sum_nonneg (line : string) : 0 <= Spec.positive_sum line.
Proof.
  unfold Spec.positive_sum. apply sum_nonneg.
  apply List.Forall_forall. intros n Hn. apply List.filter_In in Hn.
  destruct Hn as [_ Hn]. apply Z.ltb_lt in Hn. lia.
Qed.

Lemma positive_sum_above (floor : Z) (line : string) :
  0 <= floor -> Spec.above_floor floor line = true -> 0 < Spec.positive_sum line.
Proof.
  unfold Spec.above_floor, Spec.positive_sum. intros Hf.
  induction (Spec.values line) as [|n l IH]; cbn [existsb List.filter];
    [discriminate|].
  intros H. apply orb_true_iff in H.
  assert (Hrest : 0 <= Suite.sum (List.filter (fun n => 0 <? n) l)).
  { apply sum_nonneg, List.Forall_forall. intros k Hk.
    apply List.filter_In in Hk. destruct Hk as [_ Hk]. apply Z.ltb_lt in Hk. lia. }
  destruct (0 <? n) eqn:En.
  - apply Z.ltb_lt in En. rewrite sum_cons. lia.
  - destruct H as [H|H]; [apply Z.ltb_lt in H; apply Z.ltb_ge in En; lia|].
    apply IH, H.
Qed.

Lemma line_total_nonneg (floor : Z) (line : string) : 0 <= Spec.line_total floor line.
Proof.
  unfold Spec.line_total. destruct (Spec.above_floor floor line); [|lia].
  pose proof (positive_sum_nonneg line). nia.
Qed.

Lemma line_flagged_iff_adds (floor : Z) (line : string) :
  0 <= floor ->
  (Spec.line_flags floor line = [] <-> Spec.line_total floor line = 0).
Proof.
  intros Hf. unfold Spec.line_flags, Spec.line_total.
  destruct (Spec.above_floor floor line) eqn:Ea; [|tauto].
  pose proof (positive_sum_above floor line Hf Ea) as Hp.
  destruct (Spec.keyword_hits line) as [|k]; cbn [repeat].
  - split; [intros _; lia|reflexivity].
  - split; [discriminate|]. intros H. nia.
Qed.

Lemma flagged_iff_total (floor : Z) (lines : list string) :
  0 <= floor ->
  0 <= Suite.sum (map (Spec.line_total floor) lines)
  /\ (flat_map (Spec.line_flags floor) lines = []
      <-> Suite.sum (map (Spec.line_total floor) lines) = 0).
Proof.
  intros Hf. induction lines as [|line lines [IH0 IH]].
  - unfold Suite.sum. cbn. split; [lia|tauto].
  - cbn [map flat_map]. rewrite sum_cons.
    pose proof (line_total_nonneg floor line) as Hl.
    pose proof (line_flagged_iff_adds floor line Hf) as Hiff.
    split; [lia|]. split.
    + intros H. apply app_eq_nil in H. destruct H as [H1 H2].
      apply Hiff in H1. apply IH in H2. lia.
    + intros H. assert (H1 : Spec.line_total floor line = 0) by lia.
      assert (H2 : Suite.sum (map (Spec.line_total floor) lines) = 0) by lia.
      apply Hiff in H1. apply IH in H2. rewrite H1, H2. reflexivity.
Qed.

Lemma readable_or_not (lines : list string) :
  Forall (fun line => Spec.readable line = true) lines
  \/ Exists (fun line => Spec.readable line = false) lines.
Proof.
  induction lines as [|line lines [IH|IH]].
  - left. constructor.
  - destruct (Spec.readable line) eqn:Hr.
    + left. constructor; assumption.
    + right. apply Exists_cons_hd. exact Hr.
  - right. apply Exists_cons_tl. exact IH.
Qed.

(** The two loops complete exactly when [int()] converts every number
    they reach *)
Lemma scan_completes_iff (cfg : Config.VXLANConfig) (output : string) :
  (exists r, Suite.parse_error_counters cfg output = Py.Ok r)
  <-> Forall (fun line => Spec.readable line = true) (Py.split Py.newline output).
Proof.
  unfold Suite.parse_error_counters. split.
  - intros [r Hr].
    destruct (readable_or_not (Py.split Py.newline output)) as [H|H]; [exact H|].
    destruct (scan_lines_raise
                (Config.error_counter_threshold (Config.thresholds cfg)) _ H ([], 0))
      as (e & He & _).
    rewrite He in Hr. discriminate.
  - intros H. rewrite (scan_lines _ _ _ _ H). eexists. reflexivity.
Qed.

(** X19.  With a floor that is not negative, and as long as [int()]
    converts every number on the lines that hold a keyword, the step on
    the NVE counters fails exactly when the error count it records is
    above zero: the count is never negative, it is zero when no line
    was flagged, and a flagged line always adds to it.  When a line
    with a keyword holds a number of more than 4300 digits, the step
    fails and records no count. *)
Theorem counter_step_fails_iff_count_is_positive
        (cfg : Config.VXLANConfig) (self : BaseTest.TestInstance)
        (device : Utils.Device) (device_name output : string) :
  0 <= Config.error_counter_threshold (Config.thresholds cfg) ->
  device (Config.show_nve_counters (Config.commands cfg)) = Py.Ok output ->
  let run := Suite.test_interface_statistics cfg self device device_name in
  let lines := Py.split Py.newline output in
  (Forall (fun line => Spec.readable line = true) lines ->
   exists total_errors,
     MoreBaseTest.metric_of (fst run) device_name "nve_error_count"
     = Some (Validators.VInt total_errors)
     /\ 0 <= total_errors
     /\ ((exists msg, snd run = BaseTest.StepFailed msg) <-> 0 < total_errors)
     /\ ((exists msg, snd run = BaseTest.StepPassed msg) <-> total_errors = 0))
  /\ (Exists (fun line => Spec.readable line = false) lines ->
      exists e,
        Suite.parse_error_counters cfg output = Py.Raise e
        /\ run = (self, BaseTest.StepFailed
                          ("Statistics check failed on " +:+ device_name +:+ ": "
                           +:+ Py.str_exn e))).
Proof.
  intros Hf Hdev run lines. subst run lines.
  unfold Suite.test_interface_statistics. rewrite Hdev. cbn [Py.bind].
  unfold Suite.parse_error_counters. split.
  - intros Hall. rewrite (scan_lines _ _ _ _ Hall). cbn [app].
    destruct (flagged_iff_total _ (Py.split Py.newline output) Hf) as [H0 Hiff].
    set (flags := flat_map _ _) in *. set (total := Suite.sum _) in *.
    rewrite Z.add_0_l. exists total.
    assert (Hmetric : forall o,
               MoreBaseTest.metric_of
                 (fst (BaseTest.record_metric self device_name "nve_error_count"
                         (Validators.VInt total), o : BaseTest.StepOutcome))
                 device_name "nve_error_count"
               = Some (Validators.VInt total)).
    { intros o. unfold MoreBaseTest.metric_of, BaseTest.record_metric.
      cbn [fst BaseTest.device_metrics]. rewrite lookup_insert_eq. cbn.
      apply lookup_insert_eq. }
    destruct flags as [|f fl] eqn:Ef.
    + assert (Ht : total = 0) by (apply Hiff; reflexivity).
      split; [apply Hmetric|]. split; [lia|]. cbn [snd]. split; split.
      * intros [msg H]. discriminate.
      * lia.
      * intros _. exact Ht.
      * intros _. eexists. reflexivity.
    + assert (Ht : total <> 0) by (intros Ht; apply Hiff in Ht; discriminate).
      split; [apply Hmetric|]. split; [lia|]. cbn [snd]. split; split.
      * intros _. lia.
      * intros _. eexists. reflexivity.
      * intros [msg H]. discriminate.
      * intros H. contradiction.
  - intros Hex.
    destruct (scan_lines_raise
                (Config.error_counter_threshold (Config.thresholds cfg)) _ Hex ([], 0))
      as (e & He & _).
    exists e. rewrite He. split; reflexivity.
Qed.

(** The step on counters that stay at or below the floor, and on a
    counter of 4301 digits. *)
Lemma counter_step_fails_iff_count_is_positive_witness :
  (let run := Suite.test_interface_statistics Config.CONFIG BaseTest.new_test
                Examples.quiet_device "leaf1" in
   exists total_errors,
     MoreBaseTest.metric_of (fst run) "leaf1" "nve_error_count"
     = Some (Validators.VInt total_errors)
     /\ 0 <= total_errors
     /\ ((exists msg, snd run = BaseTest.StepFailed msg) <-> 0 < total_errors)
     /\ ((exists msg, snd run = BaseTest.StepPassed msg) <-> total_errors = 0))
  /\ MoreBaseTest.metric_of
       (fst (Suite.test_interface_statistics Config.CONFIG BaseTest.new_test
               Examples.long_counter_device "leaf1"))
       "leaf1" "nve_error_count"
     = None.
Proof.
  split.
  - apply (counter_step_fails_iff_count_is_positive Config.CONFIG BaseTest.new_test
             Examples.quiet_device "leaf1" Examples.quiet_counters).
    + vm_compute. discriminate.
    + reflexivity.
    + apply readable_lines. vm_compute. reflexivity.
  - destruct (counter_step_fails_iff_count_is_positive Config.CONFIG
                BaseTest.new_test Examples.long_counter_device "leaf1"
                Examples.long_counter) as [_ H].
    + vm_compute. discriminate.
    + reflexivity.
    + destruct H as (e & _ & ->); [|reflexivity].
      apply Exists_cons_hd. vm_compute. reflexivity.
Defined.

Lemma keyword_seen (line : string) :
  existsb (fun k => Py.contains k (Py.lower line))
          ["error"; "drop"; "discard"; "invalid"]
  = negb (Nat.eqb (Spec.keyword_hits line) 0).
Proof.
  unfold Spec.keyword_hits, Suite.error_patterns. cbn [existsb List.filter].
  destruct (Py.contains "error" (Py.lower line)); [reflexivity|].
  destruct (Py.contains "drop" (Py.lower line)); [reflexivity|].
  destruct (Py.contains "discard" (Py.lower line)); [reflexivity|].
  destruct (Py.contains "invalid" (Py.lower line)); reflexivity.
Qed.

(** The loop of tests/health.py on lines whose numbers [int()] converts *)
Lemma statistics_loop (lines : list string) :
  Forall (fun line => Spec.readable line = true) lines ->
  forall errors : list string,
    Py.loop
      (fun errors line =>
         if existsb (fun k => Py.contains k (Py.lower line))
                    ["error"; "drop"; "discard"; "invalid"]
         then
           Py.bind (Suite.any_above 0 (Suite.numbers line)) (fun positive =>
           if positive then Py.Ok (errors ++ [Py.strip line]) else Py.Ok errors)
         else Py.Ok errors)
      lines errors
    = Py.Ok (errors
             ++ flat_map
                  (fun line =>
                     if existsb (fun k => Py.contains k (Py.lower line))
                                ["error"; "drop"; "discard"; "invalid"]
                        && existsb (fun num => 0 <? num) (Spec.values line)
                     then [Py.strip line] else [])
                  lines).
Proof.
  induction 1 as [|line lines Hr _ IH]; intros errors.
  - cbn. rewrite app_nil_r. reflexivity.
  - cbn [Py.loop flat_map]. rewrite keyword_seen.
    unfold Spec.readable in Hr.
    destruct (Nat.eqb (Spec.keyword_hits line) 0); cbn [negb andb orb] in *.
    + cbn [Py.bind app]. apply IH.
    + rewrite (any_above_values _ _ Hr). cbn [Py.bind]. unfold Spec.values.
      destruct (existsb _ _); cbn [Py.bind].
      * rewrite IH, <- app_assoc. reflexivity.
      * apply IH.
Qed.

Lemma statistics_errors_lines (output : string) :
  Forall (fun line => Spec.readable line = true) (Py.split Py.newline output) ->
  TestsHealth.statistics_errors output
  = Py.Ok (flat_map
             (fun line =>
                if existsb (fun k => Py.contains k (Py.lower line))
                           ["error"; "drop"; "discard"; "invalid"]
                   && existsb (fun num => 0 <? num) (Spec.values line)
                then [Py.strip line] else [])
             (Py.split Py.newline output)).
Proof.
  intros Hall. unfold TestsHealth.statistics_errors.
  rewrite (statistics_loop _ Hall). reflexivity.
Qed.

(** X20.  With a floor that is not negative, every line that the
    counter check of the modular suite flags is also reported by the
    check of tests/health.py on the same output: where the loop of the
    modular suite completes, that of tests/health.py completes too, and
    it reports every line with a keyword and a positive number,
    whatever the floor. *)
Theorem flagged_lines_are_reported_by_the_plain_check
        (cfg : Config.VXLANConfig) (output line : string)
        (errors_found : list string) (total_errors : Z) :
  0 <= Config.error_counter_threshold (Config.thresholds cfg) ->
  Suite.parse_error_counters cfg output = Py.Ok (errors_found, total_errors) ->
  In line errors_found ->
  exists errors,
    TestsHealth.statistics_errors output = Py.Ok errors /\ In line errors.
Proof.
  intros Hf Hscan.
  assert (Hall : Forall (fun line => Spec.readable line = true)
                        (Py.split Py.newline output)).
  { apply (scan_completes_iff cfg). eexists. exact Hscan. }
  unfold Suite.parse_error_counters in Hscan.
  rewrite (scan_lines _ _ _ _ Hall) in Hscan. cbn [app] in Hscan.
  injection Hscan as <- _.
  rewrite (statistics_errors_lines _ Hall). eexists. split; [reflexivity|].
  revert H. rewrite !in_flat_map. intros (l & Hl & Hin). exists l.
  split; [exact Hl|].
  unfold Spec.line_flags in Hin.
  destruct (Spec.above_floor _ l) eqn:Ea; [|contradiction].
  apply repeat_spec in Hin as Heq.
  assert (Hk : existsb (fun k => Py.contains k (Py.lower l))
                       ["error"; "drop"; "discard"; "invalid"] = true).
  { rewrite keyword_seen. destruct (Spec.keyword_hits l); [contradiction|].
    reflexivity. }
  assert (Hp : existsb (fun num => 0 <? num) (Spec.values l) = true).
  { unfold Spec.above_floor in Ea. apply existsb_exists in Ea.
    destruct Ea as (n & Hn & Hgt). apply existsb_exists. exists n.
    split; [exact Hn|]. apply Z.ltb_lt in Hgt. apply Z.ltb_lt. lia. }
  rewrite Hk, Hp. cbn. left. symmetry. exact Heq.
Qed.

Lemma flagged_lines_are_reported_by_the_plain_check_witness :
  exists errors,
    TestsHealth.statistics_errors Examples.errors_line = Py.Ok errors
    /\ In "input errors: 150 of 7" errors.
Proof.
  apply (flagged_lines_are_reported_by_the_plain_check Config.CONFIG
           Examples.errors_line "input errors: 150 of 7"
           ["input errors: 150 of 7"] 157).
  - vm_compute. discriminate.
  - vm_compute. reflexivity.
  - left. reflexivity.
Defined.

(** ** The steps that record metrics *)

Lemma metric_of_record (self : BaseTest.TestInstance) (d m : string)
      (v : Validators.pyval) :
  MoreBaseTest.metric_of (BaseTest.record_metric self d m v) d m = Some v.
Proof.
  unfold MoreBaseTest.metric_of, BaseTest.record_metric.
  cbn [BaseTest.device_metrics]. rewrite lookup_insert_eq. cbn.
  apply lookup_insert_eq.
Qed.

Lemma metric_of_record_other (self : BaseTest.TestInstance) (d m m' : string)
      (v : Validators.pyval) :
  m <> m' ->
  MoreBaseTest.metric_of (BaseTest.record_metric self d m v) d m'
  = MoreBaseTest.metric_of self d m'.
Proof.
  intros Hne. unfold MoreBaseTest.metric_of, BaseTest.record_metric.
  cbn [BaseTest.device_metrics]. rewrite lookup_insert_eq. cbn [mbind option_bind].
  rewrite lookup_insert_ne by exact Hne.
  destruct (BaseTest.device_metrics self !! d); cbn; [reflexivity|].
  apply lookup_empty.
Qed.

Lemma metrics_after_processing (self : BaseTest.TestInstance)
      (device_name test_name : string) (r : Validators.ValidationResult) :
  BaseTest.device_metrics
    (fst (BaseTest.process_validation_result self device_name test_name r))
  = BaseTest.device_metrics self.
Proof.
  unfold BaseTest.process_validation_result.
  destruct (Validators.passed r); [reflexivity|].
  destruct (Validators.severity r); reflexivity.
Qed.

Lemma metric_after_processing (self : BaseTest.TestInstance)
      (device_name test_name d m : string) (r : Validators.ValidationResult) :
  MoreBaseTest.metric_of
    (fst (BaseTest.process_validation_result self device_name test_name r)) d m
  = MoreBaseTest.metric_of self d m.
Proof.
  unfold MoreBaseTest.metric_of. rewrite metrics_after_processing. reflexivity.
Qed.

Lemma peer_step_unfolded (cfg : Config.VXLANConfig) (device : Utils.Device)
      (device_name : string) (self : BaseTest.TestInstance) :
  MoreSuite.test_nve_peer_relationships cfg device device_name self
  = let result := Validators.validate_nve_peers cfg device device_name in
    let run := BaseTest.process_validation_result self device_name
                 "nve_peer_relationships" result in
    let self1 := MoreSuite.record_detail (fst run) device_name "nve_peer_count"
                   result "peer_count" in
    match MoreSuite.detail "peers" (Validators.details result) with
    | Some peers =>
        match MoreSuite.count_up peers with
        | Py.Ok up_peers =>
            (BaseTest.record_metric self1 device_name "nve_peers_up"
               (Validators.VInt up_peers), snd run)
        | Py.Raise e => (self1, MoreBaseTest.exit_step "nve_peer_relationships" e)
        end
    | None => (self1, snd run)
    end.
Proof.
  unfold MoreSuite.test_nve_peer_relationships, BaseTest.validate_and_process.
  destruct (BaseTest.process_validation_result _ _ _ _) as [s o]. reflexivity.
Qed.

(** X21.  The step on the NVE peers records the metric of the peers
    that are up, [nve_peers_up], only when all the peers are up or all
    are down, and the metric [nve_peer_count] only when all are up.
    When some peers are up and some are down, when the table holds no
    peer, and when the output has no header 'Peer-IP', the step leaves
    the metrics as they were.  The step object
    is the runner's: as in [BaseTest], telling it an outcome returns. *)
Theorem peer_metrics_are_recorded_only_without_partial_outage
        (cfg : Config.VXLANConfig) (device : Utils.Device)
        (device_name output : string) (self : BaseTest.TestInstance) :
  device (Config.show_nve_peers (Config.commands cfg)) = Py.Ok output ->
  let run := MoreSuite.test_nve_peer_relationships cfg device device_name self in
  let peers := Utils.parse_nve_peers output in
  let up := length (List.filter Validators.is_up peers) in
  let total := length peers in
  (Py.contains "Peer-IP" output = false \/ peers = [] ->
   BaseTest.device_metrics (fst run) = BaseTest.device_metrics self)
  /\ (Py.contains "Peer-IP" output = true -> peers <> [] ->
      (up = total ->
       MoreBaseTest.metric_of (fst run) device_name "nve_peer_count"
       = Some (Validators.VInt (Z.of_nat total))
       /\ MoreBaseTest.metric_of (fst run) device_name "nve_peers_up"
          = Some (Validators.VInt (Z.of_nat total)))
      /\ (up = 0%nat ->
          MoreBaseTest.metric_of (fst run) device_name "nve_peers_up"
          = Some (Validators.VInt 0)
          /\ MoreBaseTest.metric_of (fst run) device_name "nve_peer_count"
             = MoreBaseTest.metric_of self device_name "nve_peer_count")
      /\ ((0 < up < total)%nat ->
          BaseTest.device_metrics (fst run) = BaseTest.device_metrics self)).
Proof.
  intros Hdev run peers up total. subst run.
  rewrite peer_step_unfolded.
  unfold Validators.validate_nve_peers, Validators.executor, Utils.execute_command.
  rewrite Hdev. cbn [Py.bind Validators.try_except].
  fold peers.
  destruct (Py.contains "Peer-IP" output) eqn:Hh; cbn [negb].
  - split.
    + intros [H|H]; [discriminate|]. rewrite H.
      cbn; first [reflexivity | apply metrics_after_processing].
    + intros _ Hne. destruct peers as [|p ps] eqn:Ep; [contradiction|].
      fold up total.
      pose proof (filter_length_bound Validators.is_up (p :: ps)) as Hb.
      fold up total in Hb.
      assert (Ht : (0 < total)%nat) by (unfold total; cbn; lia).
      destruct (Nat.eqb up 0) eqn:E0.
      * apply Nat.eqb_eq in E0.
        split; [intros H; lia|]. split; [|intros H; lia].
        intros _. cbn -[List.filter BaseTest.process_validation_result].
        rewrite metric_of_record.
        rewrite metric_of_record_other by discriminate.
        rewrite metric_after_processing.
        split; [|reflexivity]. fold up. rewrite E0. reflexivity.
      * apply Nat.eqb_neq in E0. destruct (Nat.ltb up total) eqn:E1.
        -- apply Nat.ltb_lt in E1.
           split; [intros H; lia|]. split; [intros H; lia|].
           intros _. cbn; first [reflexivity | apply metrics_after_processing].
        -- apply Nat.ltb_ge in E1.
           split; [|split; intros H; lia].
           intros _. cbn -[List.filter BaseTest.process_validation_result].
           rewrite metric_of_record.
           rewrite metric_of_record_other by discriminate.
           rewrite metric_of_record.
           fold up. replace up with total by lia. split; reflexivity.
  - split; [|discriminate].
    intros _. cbn; first [reflexivity | apply metrics_after_processing].
Qed.

Lemma peer_metrics_are_recorded_only_without_partial_outage_witness :
  BaseTest.device_metrics
    (fst (MoreSuite.test_nve_peer_relationships Config.CONFIG Examples.leaf1 "leaf1"
            BaseTest.new_test))
  = BaseTest.device_metrics BaseTest.new_test.
Proof.
  destruct (peer_metrics_are_recorded_only_without_partial_outage
              Config.CONFIG Examples.leaf1 "leaf1" Examples.peers_output
              BaseTest.new_test eq_refl) as [_ H].
  destruct H as (_ & _ & H); [reflexivity|vm_compute; discriminate|].
  apply H. vm_compute. lia.
Defined.





(** ** Counting VNI lines *)

Lemma first_some {A : Type} (o1 o2 : option A) :
  is_Some (match o1 with Some x => Some x | None => o2 end)
  <-> is_Some o1 \/ is_Some o2.
Proof.
  destruct o1 as [x|]; split.
  - intros _. left. eexists. reflexivity.
  - intros _. eexists. reflexivity.
  - intros H. right. exact H.
  - intros [[x H]|H]; [discriminate|exact H].
Qed.

Lemma none_is_not_some {A : Type} : is_Some (@None A) <-> False.
Proof. split; [intros [x H]; discriminate|contradiction]. Qed.

(** Whether a pattern matches depends on the position only, not on the
    groups closed so far, as long as the same holds of what follows. *)
Lemma rmatch_caps_irrelevant (r : Re.regex) :
  forall (st st' : Re.mstate) (k k' : Re.mstate -> option Re.mstate),
    Re.prev st = Re.prev st' -> Re.rest st = Re.rest st' ->
    (forall s s', Re.prev s = Re.prev s' -> Re.rest s = Re.rest s' ->
                  (is_Some (k s) <-> is_Some (k' s'))) ->
    (is_Some (Re.rmatch r st k) <-> is_Some (Re.rmatch r st' k')).
Proof.
  induction r as [|p|r1 IH1 r2 IH2|r1 IH1|r1 IH1|i r1 IH1| |];
    intros st st' k k' Hp Hr Hk.
  - cbn. apply Hk; assumption.
  - cbn. rewrite <- Hr. destruct (Re.rest st) as [|c tl]; [reflexivity|].
    destruct (p c); [|reflexivity]. apply Hk; reflexivity.
  - cbn. apply IH1; [assumption|assumption|].
    intros s s' Hps Hrs. apply IH2; assumption.
  - cbn [Re.rmatch]. rewrite !first_some.
    rewrite (IH1 st st' k k' Hp Hr Hk), (Hk st st' Hp Hr). reflexivity.
  - cbn [Re.rmatch]. rewrite <- Hr. generalize (length (Re.rest st)). intros fuel.
    revert st st' Hp Hr. induction fuel as [|fuel IHf]; intros st st' Hp Hr.
    + apply Hk; assumption.
    + rewrite !first_some. rewrite (Hk st st' Hp Hr).
      match goal with
      | |- (is_Some (Re.rmatch r1 st ?c) \/ _) <-> (is_Some (Re.rmatch r1 st' ?c') \/ _) =>
          assert (Hc : is_Some (Re.rmatch r1 st c) <-> is_Some (Re.rmatch r1 st' c'))
      end.
      { apply IH1; [assumption|assumption|].
        intros s s' Hps Hrs. cbv beta. rewrite <- Hrs, <- Hr.
        destruct (Nat.ltb _ _); [|reflexivity].
        apply IHf; assumption. }
      rewrite Hc. reflexivity.
  - cbn. apply IH1; [assumption|assumption|].
    intros s s' Hps Hrs. apply Hk; cbn; assumption.
  - cbn. rewrite <- Hp. destruct (Re.prev st) eqn:E; [reflexivity|].
    apply Hk; congruence.
  - cbn. rewrite <- Hp, <- Hr.
    destruct (xorb _ _) eqn:E; [|reflexivity]. apply Hk; congruence.
Qed.

Lemma anchored_nowhere_else (r : Re.regex) (tl : list ascii) :
  forall c, Re.search_from (Re.Cat Re.Bol r) (Some c) tl = None.
Proof.
  induction tl as [|c' tl IH]; intros c; cbn [Re.search_from];
    unfold Re.match_at; cbn [Re.rmatch Re.prev]; [reflexivity|apply IH].
Qed.

Lemma anchored_search (r : Re.regex) (s : string) :
  Re.search (Re.Cat Re.Bol r) s = Patterns.match_ (Re.Cat Re.Bol r) s.
Proof.
  unfold Re.search, Patterns.match_.
  destruct (list_ascii_of_string s) as [|c tl]; cbn [Re.search_from].
  - destruct (Re.match_at _ None []); reflexivity.
  - destruct (Re.match_at _ None (c :: tl)); [reflexivity|].
    apply anchored_nowhere_else.
Qed.

Lemma found_is_some (o : option Re.rematch) : Re.found o = true <-> is_Some o.
Proof.
  destruct o; cbn; split; try discriminate; eauto.
  intros [x H]. discriminate.
Qed.

Lemma match_at_is_some (r : Re.regex) (p : option ascii) (s : list ascii) :
  is_Some (Re.match_at r p s) <-> is_Some (Re.rmatch r (Re.MState p s []) Some).
Proof.
  unfold Re.match_at. destruct (Re.rmatch r _ Some); split; intros [x H];
    try discriminate; eauto.
Qed.

(** A line starts with a VNI number for [parse_vni_info] exactly when
    it does for the count of the resource step. *)
Lemma vni_line_found (line : string) :
  Re.found (Patterns.match_ Patterns.vni_line line)
  = Re.found (Re.search Config.vni_number line).
Proof.
  unfold Config.vni_number. rewrite anchored_search.
  apply eq_true_iff_eq. rewrite !found_is_some.
  unfold Patterns.match_. rewrite !match_at_is_some.
  unfold Patterns.vni_line.
  change (Re.rmatch (Re.Cat Re.Bol (Re.Cat (Re.Star Re.space) (Re.Plus Re.digit)))
            (Re.MState None (list_ascii_of_string line) []) Some)
    with (Re.rmatch Re.Bol (Re.MState None (list_ascii_of_string line) [])
            (fun s1 => Re.rmatch (Re.Star Re.space) s1
               (fun s2 => Re.rmatch (Re.Plus Re.digit) s2 Some))).
  change (Re.rmatch (Re.Cat Re.Bol (Re.Cat (Re.Star Re.space)
                                      (Re.Grp 1 (Re.Plus Re.digit))))
            (Re.MState None (list_ascii_of_string line) []) Some)
    with (Re.rmatch Re.Bol (Re.MState None (list_ascii_of_string line) [])
            (fun s1 => Re.rmatch (Re.Star Re.space) s1
               (fun s2 => Re.rmatch (Re.Plus Re.digit) s2
                  (fun s3 =>
                     Some (Re.MState (Re.prev s3) (Re.rest s3)
                             ((1%nat, string_of_list_ascii
                                 (firstn (length (Re.rest s2) - length (Re.rest s3))
                                         (Re.rest s2))) :: Re.caps s3)))))).
  apply rmatch_caps_irrelevant; [reflexivity|reflexivity|].
  intros s1 s1' Hp1 Hr1. apply rmatch_caps_irrelevant; [assumption|assumption|].
  intros s2 s2' Hp2 Hr2. apply rmatch_caps_irrelevant; [assumption|assumption|].
  intros s3 s3' Hp3 Hr3. split; intros _; eexists; reflexivity.
Qed.

(** The body of the loop of [parse_vni_info] builds a record, or
    raises, exactly on the lines that start with a VNI number *)
Lemma vni_of_line_cases (line : string) :
  if Re.found (Re.search Config.vni_number line)
  then Utils.vni_of_line line <> Py.Ok None
  else Utils.vni_of_line line = Py.Ok None.
Proof.
  unfold Utils.vni_of_line.
  destruct (Re.search Config.vni_number line) as [m|]; cbn [Re.found];
    [|reflexivity].
  destruct (Py.int_of_digits (Re.group 1 m)); cbn [Py.bind]; [|discriminate].
  destruct (Re.search Config.vlan_number line) as [mv|]; cbn [Py.bind];
    [|discriminate].
  destruct (Py.int_of_digits (Re.group 1 mv)); cbn [Py.bind]; discriminate.
Qed.

(** [parse_vni_info] returns at most one record for each such line, and
    exactly one when [int()] converts the numbers of every line *)
Lemma parsed_vni_count_le (lines : list string) :
  forall vnis,
    (length (Utils.parse_vni_lines lines vnis)
     <= length vnis
        + length (List.filter (fun line => Re.found (Re.search Config.vni_number line))
                              lines))%nat.
Proof.
  induction lines as [|line lines IH]; intros vnis;
    cbn [Utils.parse_vni_lines List.filter]; [lia|].
  pose proof (vni_of_line_cases line) as Hc.
  destruct (Utils.vni_of_line line) as [[v|]|e].
  - specialize (IH (vnis ++ [v])). rewrite length_app in IH. cbn [length] in IH.
    destruct (Re.found _); [cbn [length]; lia|discriminate].
  - specialize (IH vnis).
    destruct (Re.found _); [contradiction|exact IH].
  - lia.
Qed.

Lemma parsed_vni_count (lines : list string) :
  Forall (fun line => MoreSpec.vni_line_readable line = true) lines ->
  forall vnis,
    length (Utils.parse_vni_lines lines vnis)
    = (length vnis
       + length (List.filter (fun line => Re.found (Re.search Config.vni_number line))
                             lines))%nat.
Proof.
  induction 1 as [|line lines Hr _ IH]; intros vnis;
    cbn [Utils.parse_vni_lines List.filter]; [cbn [length]; lia|].
  pose proof (vni_of_line_cases line) as Hc.
  unfold MoreSpec.vni_line_readable in Hr.
  destruct (Utils.vni_of_line line) as [[v|]|e]; [| |discriminate].
  - rewrite IH, length_app. cbn [length].
    destruct (Re.found _); [cbn [length]; lia|discriminate].
  - rewrite IH. destruct (Re.found _); [contradiction|reflexivity].
Qed.

Lemma vni_lines_counted (output : string) :
  MoreSuite.count_vni_lines output
  = length (List.filter (fun line => Re.found (Re.search Config.vni_number line))
                        (Py.split Py.newline output)).
Proof.
  unfold MoreSuite.count_vni_lines.
  f_equal. apply List.filter_ext. intros line. apply vni_line_found.
Qed.

(** X23.  The resource step counts the lines of the output that start
    with a number, and records their count as [current_vni_count].
    [parse_vni_info] reads at most one VNI from each of these lines,
    and exactly one as long as [int()] converts the numbers on them: a
    number of more than 4300 digits ends its loop, and the records read
    so far are what it returns.  On its own count the step agrees with
    the usage rule of the VNI check: it passes exactly when the rule
    passes, fails exactly when the rule fails, and records the
    percentage of the rule, rounded to two places, as
    [vni_utilization_percent].  Where the rule raises (a maximum of
    zero), the step fails with the text of the exception and records no
    percentage. *)
Theorem resource_step_agrees_with_the_usage_rule
        (cfg : Config.VXLANConfig) (device : Utils.Device)
        (device_name output : string) (self : BaseTest.TestInstance) :
  device (Config.show_nve_vni (Config.commands cfg)) = Py.Ok output ->
  let run := MoreSuite.test_resource_utilization cfg device device_name self in
  let metric := MoreBaseTest.metric_of (fst run) device_name in
  let vni_count := Z.of_nat (MoreSuite.count_vni_lines output) in
  metric "current_vni_count" = Some (Validators.VInt vni_count)
  /\ (length (Utils.parse_vni_info output) <= MoreSuite.count_vni_lines output)%nat
  /\ (Forall (fun line => MoreSpec.vni_line_readable line = true)
             (Py.split Py.newline output) ->
      MoreSuite.count_vni_lines output = length (Utils.parse_vni_info output))
  /\ (forall usage_result,
        Validators._validate_vni_usage cfg vni_count = Py.Ok usage_result ->
        (Validators.passed usage_result = true
         <-> exists msg, snd run = BaseTest.StepPassed msg)
        /\ (Validators.passed usage_result = false
            <-> exists msg, snd run = BaseTest.StepFailed msg)
        /\ exists p,
            MoreSuite.detail "percentage" (Validators.details usage_result)
            = Some (Validators.VFloat p)
            /\ metric "vni_utilization_percent"
               = Some (Validators.VFloat (MoreSuite.round2 p)))
  /\ (forall e,
        Validators._validate_vni_usage cfg vni_count = Py.Raise e ->
        snd run
        = BaseTest.StepFailed ("Resource utilization check failed on "
                               +:+ device_name +:+ ": " +:+ Py.str_exn e)
        /\ metric "vni_utilization_percent"
           = MoreBaseTest.metric_of self device_name "vni_utilization_percent").
Proof.
  intros Hdev run metric vni_count. subst run metric.
  assert (Hle : (length (Utils.parse_vni_info output)
                 <= MoreSuite.count_vni_lines output)%nat).
  { rewrite vni_lines_counted. unfold Utils.parse_vni_info.
    apply (parsed_vni_count_le _ []). }
  assert (Heq : Forall (fun line => MoreSpec.vni_line_readable line = true)
                       (Py.split Py.newline output) ->
                MoreSuite.count_vni_lines output
                = length (Utils.parse_vni_info output)).
  { intros Hall. rewrite vni_lines_counted. unfold Utils.parse_vni_info.
    rewrite (parsed_vni_count _ Hall). reflexivity. }
  unfold MoreSuite.test_resource_utilization. rewrite Hdev.
  fold vni_count.
  unfold Validators._validate_vni_usage, Py.bind.
  destruct (PyFloat.truediv vni_count (Config.max_vni_count (Config.thresholds cfg)))
    as [q|e0].
  - destruct (PyFloat.ge (q * 100) 90) eqn:E90;
      [|destruct (PyFloat.ge (q * 100) 75) eqn:E75];
      cbn [fst snd];
      (split; [rewrite metric_of_record_other by discriminate;
               apply metric_of_record|]);
      (split; [exact Hle|]); (split; [exact Heq|]);
      (split; [|intros e H; discriminate]);
      intros u Hu; injection Hu as <-;
      cbn [Validators.passed Validators.details Validators.create_result
           MoreSuite.detail String.eqb Ascii.eqb Bool.eqb];
      (split; [split; [try discriminate; intros _; eexists; reflexivity
                      |try (intros [msg H]; discriminate); reflexivity]|]);
      (split; [split; [try discriminate; intros _; eexists; reflexivity
                      |try (intros [msg H]; discriminate); reflexivity]|]);
      exists (q * 100)%float; (split; [reflexivity|apply metric_of_record]).
  - cbn [fst snd]. split; [apply metric_of_record|].
    split; [exact Hle|]. split; [exact Heq|].
    split; [intros u H; discriminate|].
    intros e H. injection H as <-. split; [reflexivity|].
    apply metric_of_record_other. discriminate.
Qed.

(** The step on a table of three VNI lines whose second number has 4301
    digits: the step counts three, [parse_vni_info] returns one. *)
Lemma resource_step_agrees_with_the_usage_rule_witness :
  MoreBaseTest.metric_of
    (fst (MoreSuite.test_resource_utilization Config.CONFIG
            Examples.long_counter_device "leaf1" BaseTest.new_test))
    "leaf1" "current_vni_count"
  = Some (Validators.VInt 3)
  /\ length (Utils.parse_vni_info Examples.long_vni_table) = 1%nat.
Proof.
  destruct (resource_step_agrees_with_the_usage_rule Config.CONFIG
              Examples.long_counter_device "leaf1" Examples.long_vni_table
              BaseTest.new_test eq_refl) as [H _].
  split; [|vm_compute; reflexivity].
  etransitivity; [exact H|]. vm_compute. reflexivity.
Defined.

(** ** The prerequisite check of the setup *)

Lemma incompatible_devices_lines (cfg : Config.VXLANConfig)
      (testbed : list MoreBaseTest.TestbedDevice) :
  MoreBaseTest.incompatible_devices cfg testbed
  = flat_map
      (fun d =>
         let result := Validators.validate_platform_support cfg
                         (MoreBaseTest.td_device d) (MoreBaseTest.td_name d) in
         if MoreBaseTest.td_connected d && Suite.is_blocking result
         then [(MoreBaseTest.td_name d, Validators.message result)] else [])
      testbed.
Proof.
  unfold MoreBaseTest.incompatible_devices.
  rewrite fold_left_appends with
    (f := fun d =>
            let result := Validators.validate_platform_support cfg
                            (MoreBaseTest.td_device d) (MoreBaseTest.td_name d) in
            if MoreBaseTest.td_connected d && Suite.is_blocking result
            then [(MoreBaseTest.td_name d, Validators.message result)] else []).
  - reflexivity.
  - intros acc d. cbv zeta. unfold Suite.is_blocking.
    destruct (MoreBaseTest.td_connected d); cbn [negb andb];
      [|symmetry; apply app_nil_r].
    destruct (negb _ && _); [reflexivity|symmetry; apply app_nil_r].
Qed.

Lemma prerequisites_pass_iff (cfg : Config.VXLANConfig)
      (testbed : list MoreBaseTest.TestbedDevice) :
  MoreBaseTest.validate_prerequisites cfg testbed = None
  <-> Forall (fun d => MoreBaseTest.td_connected d = true ->
                       Suite.is_blocking
                         (Validators.validate_platform_support cfg
                            (MoreBaseTest.td_device d) (MoreBaseTest.td_name d))
                       = false) testbed.
Proof.
  unfold MoreBaseTest.validate_prerequisites.
  rewrite incompatible_devices_lines. cbv beta zeta.
  induction testbed as [|d testbed IH]; cbn [flat_map].
  - split; [constructor|reflexivity].
  - destruct (MoreBaseTest.td_connected d) eqn:Ec; cbn [andb].
    + destruct (Suite.is_blocking
                  (Validators.validate_platform_support cfg
                     (MoreBaseTest.td_device d) (MoreBaseTest.td_name d))) eqn:Eb;
        cbn [app].
      * split; [discriminate|]. intros H. inversion H as [|? ? Hd _]; subst.
        specialize (Hd Ec). cbv beta in Hd. congruence.
      * rewrite IH. split; intros H.
        -- constructor; [intros _; exact Eb|exact H].
        -- inversion H; assumption.
    + cbn [app]. rewrite IH. split; intros H.
      * constructor; [rewrite Ec; discriminate|exact H].
      * inversion H; assumption.
Qed.

(** X24.  The prerequisite check of the setup fails exactly when the platform check
    of some connected device fails with severity error or critical.
    So a testbed whose connected devices are all of another platform
    than Nexus 9000 gets through, although the platform check failed
    on each of them (as a warning), and devices that are not connected
    are never looked at; a connected device whose 'show version' fails
    stops the setup. *)
Theorem prerequisite_check_stops_on_errors_only
        (cfg : Config.VXLANConfig) (testbed : list MoreBaseTest.TestbedDevice) :
  let check d := Validators.validate_platform_support cfg
                   (MoreBaseTest.td_device d) (MoreBaseTest.td_name d) in
  (MoreBaseTest.validate_prerequisites cfg testbed = None
   <-> Forall (fun d => MoreBaseTest.td_connected d = true ->
                        Suite.is_blocking (check d) = false) testbed)
  /\ (Forall (fun d =>
                MoreBaseTest.td_connected d = true ->
                exists output,
                  MoreBaseTest.td_device d (Config.show_version (Config.commands cfg))
                  = Py.Ok output
                  /\ (Py.contains "nexus" (Py.lower output) = false
                      \/ Py.contains "9000" output = false)) testbed ->
      MoreBaseTest.validate_prerequisites cfg testbed = None
      /\ Forall (fun d => MoreBaseTest.td_connected d = true ->
                          Validators.passed (check d) = false) testbed)
  /\ (forall d e,
        In d testbed -> MoreBaseTest.td_connected d = true ->
        MoreBaseTest.td_device d (Config.show_version (Config.commands cfg))
        = Py.Raise e ->
        MoreBaseTest.validate_prerequisites cfg testbed <> None).
Proof.
  intros check.
  pose proof (prerequisites_pass_iff cfg testbed) as Hiff. fold check in Hiff.
  assert (Hother : forall d output,
             MoreBaseTest.td_device d (Config.show_version (Config.commands cfg))
             = Py.Ok output ->
             Py.contains "nexus" (Py.lower output) = false
             \/ Py.contains "9000" output = false ->
             Suite.is_blocking (check d) = false
             /\ Validators.passed (check d) = false).
  { intros d output Hdev Hplat. unfold check.
    unfold Validators.validate_platform_support, Validators.executor,
      Utils.execute_command.
    rewrite Hdev. cbn [Py.bind Validators.try_except].
    assert (Hc : negb (Py.contains "nexus" (Py.lower output))
                 || negb (Py.contains "9000" output) = true).
    { destruct Hplat as [-> | ->]; [reflexivity|apply orb_true_r]. }
    rewrite Hc. split; reflexivity. }
  split; [exact Hiff|]. split.
  - intros Hall. split.
    + apply Hiff. eapply Forall_impl; [exact Hall|].
      intros d Hd Hc. destruct (Hd Hc) as (output & Hdev & Hplat).
      apply (Hother d output Hdev Hplat).
    + eapply Forall_impl; [exact Hall|].
      intros d Hd Hc. destruct (Hd Hc) as (output & Hdev & Hplat).
      apply (Hother d output Hdev Hplat).
  - intros d e Hin Hc Hdev Hnone. apply Hiff in Hnone.
    rewrite List.Forall_forall in Hnone. specialize (Hnone d Hin Hc).
    unfold check in Hnone.
    unfold Validators.validate_platform_support, Validators.executor,
      Utils.execute_command in Hnone.
    rewrite Hdev in Hnone. cbn in Hnone. discriminate.
Qed.

Lemma prerequisite_check_stops_on_errors_only_witness :
  MoreBaseTest.validate_prerequisites Config.CONFIG
    [{| MoreBaseTest.td_name := "sw1"; MoreBaseTest.td_device := Examples.catalyst;
        MoreBaseTest.td_connected := true |};
     {| MoreBaseTest.td_name := "leaf9"; MoreBaseTest.td_device := Examples.unreachable;
        MoreBaseTest.td_connected := false |}]
  = None.
Proof.
  apply (prerequisite_check_stops_on_errors_only Config.CONFIG).
  constructor; [|constructor; [|constructor]].
  - intros _. exists Examples.version_other_platform.
    split; [reflexivity|]. right. vm_compute. reflexivity.
  - cbn. discriminate.
Defined.

(** ** The NVE interface check *)

Lemma source_interface_classes :
  ReSpec.groups_within (fun _ c => negb (Py.is_space c)) Patterns.source_interface.
Proof.
  unfold Patterns.source_interface, Patterns.non_space.
  cbn -[Ascii.eqb Py.is_digit Py.is_word Py.is_space negb]. repeat split.
  all: try exact I.
  all: intros c Hc; exact Hc.
Qed.

(** X25.  When the command answers, the NVE interface check passes
    exactly when the output, in lower case, holds neither 'invalid
    interface' nor 'not found' nor 'administratively down' and holds
    both 'line protocol is up' and 'source-interface'; it is critical
    exactly when the output holds 'invalid interface' or 'not found'.
    A passing result names a source interface that is either
    'unknown' or free of white space, and the step records it as
    [nve_source_interface]; a failing result records no metric.  The step object
    is the runner's: as in [BaseTest], telling it an outcome returns. *)
Theorem nve_interface_check_reads_the_status_lines
        (cfg : Config.VXLANConfig) (device : Utils.Device)
        (device_name output : string) (self : BaseTest.TestInstance) :
  device (Config.show_nve_interface (Config.commands cfg)) = Py.Ok output ->
  let result := MoreValidators.validate_nve_interface cfg device device_name in
  let after := fst (MoreSuite.test_nve_interface_status cfg device device_name self) in
  let has text := Py.contains text (Py.lower output) in
  (Validators.passed result = true
   <-> has "invalid interface" = false /\ has "not found" = false
       /\ has "administratively down" = false
       /\ has "line protocol is up" = true /\ has "source-interface" = true)
  /\ (Validators.severity result = Validators.critical
      <-> has "invalid interface" = true \/ has "not found" = true)
  /\ (Validators.passed result = true ->
      exists name,
        MoreSuite.detail "source_interface" (Validators.details result)
        = Some (Validators.VStr name)
        /\ (name = "unknown"
            \/ ReSpec.all_chars (fun c => negb (Py.is_space c)) name)
        /\ MoreBaseTest.metric_of after device_name "nve_source_interface"
           = Some (Validators.VStr name))
  /\ (Validators.passed result = false ->
      BaseTest.device_metrics after = BaseTest.device_metrics self).
Proof.
  intros Hdev result after has. subst result after.
  unfold MoreSuite.test_nve_interface_status, BaseTest.validate_and_process.
  unfold MoreValidators.validate_nve_interface, Validators.executor,
    Utils.execute_command.
  rewrite Hdev. cbn [Py.bind Validators.try_except].
  fold (has "invalid interface"). fold (has "not found").
  fold (has "administratively down"). fold (has "line protocol is up").
  fold (has "source-interface").
  destruct (has "invalid interface") eqn:E1; cbn [orb].
  { cbn. repeat split; try discriminate; try tauto;
      try (intros (H & _); discriminate). }
  destruct (has "not found") eqn:E2.
  { cbn. repeat split; try discriminate; try tauto;
      try (intros (_ & H & _); discriminate). }
  destruct (has "administratively down") eqn:E3.
  { cbn. repeat split; try discriminate; try tauto;
      try (intros (_ & _ & H & _); discriminate);
      try (intros [H|H]; discriminate). }
  destruct (has "line protocol is up") eqn:E4; cbn [negb].
  2: { cbn. repeat split; try discriminate; try tauto;
         try (intros (_ & _ & _ & H & _); discriminate);
         try (intros [H|H]; discriminate). }
  destruct (has "source-interface") eqn:E5; cbn [negb].
  2: { cbn. repeat split; try discriminate; try tauto;
         try (intros (_ & _ & _ & _ & H); discriminate);
         try (intros [H|H]; discriminate). }
  cbn [Validators.passed Validators.severity Validators.details
       Validators.create_result].
  split; [tauto|]. split; [split; [discriminate|intros [H|H]; discriminate]|].
  split; [|discriminate]. intros _.
  eexists. split; [reflexivity|]. split.
  - destruct (Re.search Patterns.source_interface output) as [m|] eqn:Es;
      [right|left; reflexivity].
    apply (search_group (fun _ c => negb (Py.is_space c)) _ _ _ 1
             source_interface_classes Es).
  - unfold BaseTest.process_validation_result.
    cbn -[BaseTest.record_test_result Re.search].
    apply metric_of_record.
Qed.

Lemma nve_interface_check_reads_the_status_lines_witness :
  Validators.passed
    (MoreValidators.validate_nve_interface Config.CONFIG
       (Examples.device_of
          [("show interface nve1", "nve1 is down (Administratively down)")])
       "leaf1")
  = false.
Proof.
  destruct (nve_interface_check_reads_the_status_lines Config.CONFIG
              (Examples.device_of
                 [("show interface nve1", "nve1 is down (Administratively down)")])
              "leaf1" "nve1 is down (Administratively down)"
              BaseTest.new_test eq_refl) as ([H _] & _).
  destruct (Validators.passed _); [|reflexivity].
  destruct (H eq_refl) as (_ & _ & H3 & _). vm_compute in H3. discriminate.
Defined.

(** ** The platform check of the monolithic setup *)

Lemma monolithic_incompatible_lines (testbed : list MoreBaseTest.TestbedDevice) :
  MoreMonolithic.incompatible_devices testbed
  = flat_map
      (fun d =>
         if MoreBaseTest.td_connected d then
           match MoreBaseTest.td_device d "show version" with
           | Py.Ok output =>
               if Py.contains "nexus" (Py.lower output)
                  && (Py.contains "9000" output || Py.contains "n9k" (Py.lower output))
               then
                 let verdict := MoreMonolithic.validate_nxos_version
                                  (MoreMonolithic.parse_nxos_version output) in
                 if fst verdict then [] else [(MoreBaseTest.td_name d, snd verdict)]
               else [(MoreBaseTest.td_name d, "Platform may not support VXLAN")]
           | Py.Raise e => []
           end
         else [])
      testbed.
Proof.
  unfold MoreMonolithic.incompatible_devices.
  erewrite fold_left_appends; [reflexivity|]. intros acc d. cbv beta.
  unfold MoreMonolithic.execute_command_safely.
  destruct (MoreBaseTest.td_connected d); cbn [negb];
    [|symmetry; apply app_nil_r].
  destruct (MoreBaseTest.td_device d "show version") as [output|e];
    [|symmetry; apply app_nil_r].
  destruct (Py.contains "nexus" (Py.lower output)
            && (Py.contains "9000" output || Py.contains "n9k" (Py.lower output)));
    cbn [negb]; [|reflexivity].
  destruct (MoreMonolithic.validate_nxos_version _) as [[|] msg]; cbn [negb fst snd];
    [symmetry; apply app_nil_r|reflexivity].
Qed.

Lemma monolithic_setup_passes_iff (testbed : list MoreBaseTest.TestbedDevice) :
  MoreMonolithic.check_platform_compatibility testbed = None
  <-> Forall
        (fun d =>
           MoreBaseTest.td_connected d = true ->
           forall output,
             MoreBaseTest.td_device d "show version" = Py.Ok output ->
             Py.contains "nexus" (Py.lower output)
             && (Py.contains "9000" output || Py.contains "n9k" (Py.lower output))
             = true
             /\ fst (MoreMonolithic.validate_nxos_version
                       (MoreMonolithic.parse_nxos_version output)) = true)
        testbed.
Proof.
  unfold MoreMonolithic.check_platform_compatibility.
  rewrite monolithic_incompatible_lines.
  induction testbed as [|d testbed IH]; cbn [flat_map].
  - split; [constructor|reflexivity].
  - destruct (MoreBaseTest.td_connected d) eqn:Ec.
    + destruct (MoreBaseTest.td_device d "show version") as [output|e] eqn:Ed.
      * destruct (Py.contains "nexus" (Py.lower output)
                  && (Py.contains "9000" output
                      || Py.contains "n9k" (Py.lower output))) eqn:Ep.
        -- cbv zeta.
           destruct (fst (MoreMonolithic.validate_nxos_version
                            (MoreMonolithic.parse_nxos_version output))) eqn:Ev;
             cbn [app].
           ++ rewrite IH. split; intros H.
              ** constructor; [|exact H]. intros _ o Ho.
                 assert (o = output) by congruence. subst o. split; assumption.
              ** inversion H; assumption.
           ++ split; [discriminate|]. intros H. inversion H as [|? ? Hd _]; subst.
              destruct (Hd Ec output Ed) as [_ Hv]. congruence.
        -- cbn [app]. split; [discriminate|]. intros H.
           inversion H as [|? ? Hd _]; subst.
           destruct (Hd Ec output Ed) as [Hp _]. congruence.
      * cbn [app]. rewrite IH. split; intros H.
        -- constructor; [|exact H]. intros _ o Ho. congruence.
        -- inversion H; assumption.
    + cbn [app]. rewrite IH. split; intros H.
      * constructor; [rewrite Ec; discriminate|exact H].
      * inversion H; assumption.
Qed.

(** X26.  The setup checks of the two suites disagree in both
    directions.  On a testbed with a connected device, where the
    modular suite asks for 'show version': if the connected devices
    all fail to answer, the setup of the monolithic suite passes and
    the setup of the modular suite stops; if they all answer without
    'nexus' in the output, the setup of the modular suite passes and
    the setup of the monolithic suite stops. *)
Theorem the_two_setup_checks_disagree
        (cfg : Config.VXLANConfig) (testbed : list MoreBaseTest.TestbedDevice) :
  Config.show_version (Config.commands cfg) = "show version" ->
  Exists (fun d => MoreBaseTest.td_connected d = true) testbed ->
  (Forall (fun d => MoreBaseTest.td_connected d = true ->
                    exists e, MoreBaseTest.td_device d "show version" = Py.Raise e)
          testbed ->
   MoreMonolithic.check_platform_compatibility testbed = None
   /\ MoreBaseTest.validate_prerequisites cfg testbed <> None)
  /\ (Forall (fun d => MoreBaseTest.td_connected d = true ->
                       exists output,
                         MoreBaseTest.td_device d "show version" = Py.Ok output
                         /\ Py.contains "nexus" (Py.lower output) = false)
             testbed ->
      MoreMonolithic.check_platform_compatibility testbed <> None
      /\ MoreBaseTest.validate_prerequisites cfg testbed = None).
Proof.
  intros Hcmd Hsome.
  apply List.Exists_exists in Hsome. destruct Hsome as (d0 & Hin0 & Hc0).
  split; intros Hall.
  - split.
    + apply monolithic_setup_passes_iff.
      eapply Forall_impl; [exact Hall|]. intros d Hd Hc output Hout.
      destruct (Hd Hc) as [e He]. congruence.
    + intros Hnone. apply prerequisites_pass_iff in Hnone.
      rewrite List.Forall_forall in Hnone, Hall.
      specialize (Hnone d0 Hin0 Hc0). destruct (Hall d0 Hin0 Hc0) as [e He].
      unfold Validators.validate_platform_support, Validators.executor,
        Utils.execute_command in Hnone.
      rewrite Hcmd, He in Hnone. cbn in Hnone. discriminate.
  - split.
    + intros Hnone. apply monolithic_setup_passes_iff in Hnone.
      rewrite List.Forall_forall in Hnone, Hall.
      destruct (Hall d0 Hin0 Hc0) as (output & Hout & Hno).
      destruct (Hnone d0 Hin0 Hc0 output Hout) as [Hp _].
      rewrite Hno in Hp. discriminate.
    + apply prerequisites_pass_iff.
      eapply Forall_impl; [exact Hall|]. intros d Hd Hc.
      destruct (Hd Hc) as (output & Hout & Hno).
      unfold Validators.validate_platform_support, Validators.executor,
        Utils.execute_command.
      rewrite Hcmd, Hout. cbn [Py.bind Validators.try_except].
      rewrite Hno. reflexivity.
Qed.

Lemma the_two_setup_checks_disagree_witness :
  let testbed :=
    [{| MoreBaseTest.td_name := "sw1"; MoreBaseTest.td_device := Examples.catalyst;
        MoreBaseTest.td_connected := true |}] in
  MoreMonolithic.check_platform_compatibility testbed <> None
  /\ MoreBaseTest.validate_prerequisites Config.CONFIG testbed = None.
Proof.
  intros testbed.
  apply (the_two_setup_checks_disagree Config.CONFIG testbed eq_refl).
  - constructor. reflexivity.
  - constructor; [|constructor]. intros _.
    exists Examples.version_other_platform. split; reflexivity.
Defined.

(** ** The step on MAC learning *)

Lemma mac_loop (device : Utils.Device) (vlans : list string) :
  forall (mac_learned : bool) (checked_vlans : list string),
    let learned vlan :=
      match device (DataPlane.mac_command vlan) with
      | Py.Ok mac_output =>
          Re.found (Re.search DataPlane.mac_address (Py.lower mac_output))
      | Py.Raise _ => false
      end in
    fold_left (DataPlane.mac_step device) vlans (mac_learned, checked_vlans)
    = (mac_learned || existsb learned vlans,
       checked_vlans ++ List.filter learned vlans).
Proof.
  induction vlans as [|vlan vlans IH]; intros mac_learned checked_vlans learned.
  - cbn. rewrite orb_false_r, app_nil_r. reflexivity.
  - cbn [fold_left existsb List.filter]. unfold DataPlane.mac_step at 2.
    subst learned. cbv beta.
    destruct (device (DataPlane.mac_command vlan)) as [mac_output|e].
    + destruct (Re.found _); rewrite IH; cbv zeta.
      * rewrite orb_true_r. cbn [orb]. rewrite <- app_assoc. reflexivity.
      * reflexivity.
    + rewrite IH. reflexivity.
Qed.

Lemma agree_on_list {A : Type} (f g : A -> bool) (l : list A) :
  (forall x, In x l -> f x = g x) ->
  existsb f l = existsb g l /\ List.filter f l = List.filter g l.
Proof.
  induction l as [|x l IH]; intros H; [split; reflexivity|].
  destruct IH as [IHe IHf]; [intros y Hy; apply H; right; exact Hy|].
  cbn. rewrite (H x (or_introl eq_refl)), IHe, IHf. split; reflexivity.
Qed.

(** X27.  The step on MAC learning is skipped exactly when the VNI
    table names no VLAN.  Otherwise it passes exactly when the MAC
    table of one of the first three VLANs holds a MAC address, in any
    letter case, and then lists as [mac_learning_vlans] those of the
    three for which it does; a VLAN whose table cannot be read counts
    as one without MAC address.  The step depends on nothing else: a
    device that gives the same VNI table and the same MAC tables for
    these three VLANs gives the same run.  The step object
    is the runner's: as in [BaseTest], telling it an outcome returns. *)
Theorem mac_step_looks_at_three_vlans
        (cfg : Config.VXLANConfig) (device device' : Utils.Device)
        (device_name vni_output : string) (self : BaseTest.TestInstance) :
  device (Config.show_nve_vni (Config.commands cfg)) = Py.Ok vni_output ->
  let vlans := firstn 3 (DataPlane.vxlan_vlans vni_output) in
  let learned vlan :=
    match device (DataPlane.mac_command vlan) with
    | Py.Ok mac_output =>
        Re.found (Re.search DataPlane.mac_address (Py.lower mac_output))
    | Py.Raise _ => false
    end in
  let run := DataPlane.test_mac_address_learning cfg device device_name self in
  ((exists msg, snd run = BaseTest.StepSkipped msg)
   <-> DataPlane.vxlan_vlans vni_output = [])
  /\ ((exists msg, snd run = BaseTest.StepPassed msg)
      <-> existsb learned vlans = true)
  /\ (existsb learned vlans = true ->
      MoreBaseTest.metric_of (fst run) device_name "mac_learning_vlans"
      = Some (Validators.VStrList (List.filter learned vlans)))
  /\ (device' (Config.show_nve_vni (Config.commands cfg)) = Py.Ok vni_output ->
      (forall vlan, In vlan vlans ->
                    device' (DataPlane.mac_command vlan)
                    = device (DataPlane.mac_command vlan)) ->
      DataPlane.test_mac_address_learning cfg device' device_name self = run).
Proof.
  intros Hdev vlans learned run. subst run.
  unfold DataPlane.test_mac_address_learning. rewrite Hdev.
  destruct (DataPlane.vxlan_vlans vni_output) as [|v vs] eqn:Ev.
  - subst vlans. cbn. split; [split; [reflexivity|intros _; eexists; reflexivity]|].
    split; [split; [intros [msg H]; discriminate|discriminate]|].
    split; [discriminate|]. intros Hdev' _. rewrite Hdev', Ev. reflexivity.
  - fold vlans. rewrite mac_loop. fold learned. cbn [orb app].
    split; [|split; [|split]].
    + destruct (existsb learned vlans); cbn [snd];
        split; try discriminate; intros [msg H]; discriminate.
    + destruct (existsb learned vlans); cbn [snd]; split; try discriminate.
      * reflexivity.
      * intros _. eexists. reflexivity.
      * intros [msg H]. discriminate.
    + intros H. rewrite H. cbn [fst]. apply metric_of_record.
    + intros Hdev' Hsame. rewrite Hdev', Ev. fold vlans.
      rewrite mac_loop. cbn [orb app].
      destruct (agree_on_list
                  (fun vlan =>
                     match device' (DataPlane.mac_command vlan) with
                     | Py.Ok mac_output =>
                         Re.found (Re.search DataPlane.mac_address
                                     (Py.lower mac_output))
                     | Py.Raise _ => false
                     end) learned vlans) as [He Hf].
      { intros vlan Hin. unfold learned. rewrite (Hsame vlan Hin). reflexivity. }
      rewrite He, Hf. reflexivity.
Qed.

Lemma mac_step_looks_at_three_vlans_witness :
  let device :=
    Examples.device_of
      [("show nve vni", Examples.vni_table);
       ("show mac address-table vlan 100", "* 100  AABB.ccdd.0011 dynamic")] in
  exists msg,
    snd (DataPlane.test_mac_address_learning Config.CONFIG device "leaf2"
           BaseTest.new_test)
    = BaseTest.StepPassed msg.
Proof.
  intros device.
  destruct (mac_step_looks_at_three_vlans Config.CONFIG device device
              "leaf2" Examples.vni_table BaseTest.new_test eq_refl)
    as (_ & H & _).
  apply H. vm_compute. reflexivity.
Defined.

(** ** Numbers read from text *)

Lemma int_of_digits_raises (s : string) (e : Py.exn) :
  Py.int_of_digits s = Py.Raise e -> Py.type_name e = "ValueError".
Proof.
  unfold Py.int_of_digits.
  destruct (Nat.ltb Py.max_str_digits (String.length s)); [|discriminate].
  intros [= <-]. reflexivity.
Qed.

Lemma ints_nonneg (matches : list string) :
  forall numbers, MoreUtils.ints matches = Py.Ok numbers ->
                  Forall (fun n => 0 <= n) numbers.
Proof.
  induction matches as [|m matches IH]; cbn [MoreUtils.ints]; intros numbers.
  - intros [= <-]. constructor.
  - destruct (Py.int_of_digits m) as [n|e] eqn:En; cbn [Py.bind]; [|discriminate].
    destruct (MoreUtils.ints matches) as [ns|e]; cbn [Py.bind]; [|discriminate].
    intros [= <-]. constructor; [exact (int_of_digits_nonneg _ _ En)|].
    apply IH. reflexivity.
Qed.

Lemma ints_raise (matches : list string) (e : Py.exn) :
  MoreUtils.ints matches = Py.Raise e -> Py.type_name e = "ValueError".
Proof.
  induction matches as [|m matches IH]; cbn [MoreUtils.ints]; [discriminate|].
  destruct (Py.int_of_digits m) as [n|e'] eqn:En; cbn [Py.bind].
  - destruct (MoreUtils.ints matches) as [ns|e']; cbn [Py.bind]; [discriminate|].
    intros [= <-]. apply IH. reflexivity.
  - intros [= <-]. exact (int_of_digits_raises _ _ En).
Qed.

Lemma counters_of_lines_invariant (P : gmap string Z -> Prop) :
  (forall counters name count, P counters -> 0 <= count ->
                               P (<[name := count]> counters)) ->
  forall lines counters, P counters -> P (MoreUtils.counters_of_lines lines counters).
Proof.
  intros Hstep. induction lines as [|line lines IH]; intros counters Hc;
    cbn [MoreUtils.counters_of_lines]; [exact Hc|].
  destruct (Re.search Patterns.error_counter line) as [m|]; [|apply IH, Hc].
  destruct (Py.int_of_digits (Re.group 2 m)) as [count|e] eqn:En; [|exact Hc].
  apply IH, Hstep; [exact Hc|exact (int_of_digits_nonneg _ _ En)].
Qed.

(** X28.  No number that [extract_numbers_from_string] reads from a
    text is negative (a minus sign before the digits is not read), and
    what it raises instead of a list is the [ValueError] of [int()];
    no counter that [parse_interface_counters] files has a negative
    value. *)
Theorem numbers_read_are_never_negative (text : string) :
  (forall numbers,
      MoreUtils.extract_numbers_from_string text = Py.Ok numbers ->
      Forall (fun n => 0 <= n) numbers)
  /\ (forall e,
        MoreUtils.extract_numbers_from_string text = Py.Raise e ->
        Py.type_name e = "ValueError")
  /\ forall name value,
      MoreUtils.parse_interface_counters text !! name = Some value -> 0 <= value.
Proof.
  split; [apply ints_nonneg|]. split; [apply ints_raise|].
  unfold MoreUtils.parse_interface_counters.
  apply (counters_of_lines_invariant
           (fun counters : gmap string Z =>
              forall name value, counters !! name = Some value -> 0 <= value)).
  - intros counters key count Hacc Hcount name value.
    destruct (decide (key = name)) as [<-|Hne].
    + rewrite lookup_insert_eq. intros H. injection H as <-. exact Hcount.
    + rewrite lookup_insert_ne by exact Hne. apply Hacc.
  - intros name value H. rewrite lookup_empty in H. discriminate.
Qed.

Lemma numbers_read_are_never_negative_witness :
  0 <= 5.
Proof.
  destruct (numbers_read_are_never_negative "drops: 5") as (_ & _ & H).
  apply (H "drops" 5). vm_compute. reflexivity.
Defined.

(** ** Metrics of the other steps *)

Lemma step_unfolded (device_name test_name : string)
      (result : Validators.ValidationResult) (self : BaseTest.TestInstance) :
  BaseTest.validate_and_process device_name test_name (Py.Ok result) self
  = (result,
     (fst (BaseTest.process_validation_result self device_name test_name result),
      snd (BaseTest.process_validation_result self device_name test_name result))).
Proof.
  unfold BaseTest.validate_and_process.
  destruct (BaseTest.process_validation_result _ _ _ _). reflexivity.
Qed.

Ltac unchanged :=
  cbn -[BaseTest.process_validation_result];
  first [ discriminate
        | intros _; apply metrics_after_processing
        | apply metrics_after_processing ].

(** X29.  The steps on the platform, the ingress replication, the BGP
    EVPN neighbors and the EVPN routes leave the metrics as they were
    whenever their check fails.  When the platform check passes, the
    step records the version and the platform 'Nexus 9000'; when the
    BGP EVPN check passes, it records the number of neighbors parsed,
    all of them established.  The step object
    is the runner's: as in [BaseTest], telling it an outcome returns. *)
Theorem failed_checks_record_no_metric
        (cfg : Config.VXLANConfig) (device : Utils.Device)
        (device_name : string) (self : BaseTest.TestInstance) :
  let unchanged_by step := BaseTest.device_metrics (fst step)
                           = BaseTest.device_metrics self in
  let platform := MoreSuite.test_platform_compatibility cfg device device_name self in
  let bgp := MoreSuite.test_bgp_evpn_neighbors cfg device device_name self in
  (Validators.passed (Validators.validate_platform_support cfg device device_name)
   = false -> unchanged_by platform)
  /\ (Validators.passed (Validators.validate_ingress_replication cfg device device_name)
      = false ->
      unchanged_by (MoreSuite.test_ingress_replication cfg device device_name self))
  /\ (Validators.passed (Validators.validate_bgp_evpn cfg device device_name)
      = false -> unchanged_by bgp)
  /\ (Validators.passed (Validators.validate_evpn_routes cfg device device_name)
      = false ->
      unchanged_by (MoreSuite.test_evpn_route_advertisements cfg device device_name self))
  /\ (Validators.passed (Validators.validate_platform_support cfg device device_name)
      = true ->
      (exists version,
          MoreBaseTest.metric_of (fst platform) device_name "nxos_version"
          = Some (Validators.VFloat version))
      /\ MoreBaseTest.metric_of (fst platform) device_name "platform"
         = Some (Validators.VStr "Nexus 9000"))
  /\ (Validators.passed (Validators.validate_bgp_evpn cfg device device_name)
      = true ->
      exists output,
        device (Config.show_bgp_evpn_summary (Config.commands cfg)) = Py.Ok output
        /\ MoreBaseTest.metric_of (fst bgp) device_name "bgp_evpn_neighbors"
           = Some (Validators.VInt
                     (Z.of_nat (length (Utils.parse_bgp_neighbors output))))).
Proof.
  intros unchanged_by platform bgp. subst unchanged_by platform bgp. cbv beta.
  unfold MoreSuite.test_platform_compatibility, MoreSuite.test_ingress_replication,
    MoreSuite.test_bgp_evpn_neighbors, MoreSuite.test_evpn_route_advertisements.
  rewrite !step_unfolded. cbn [fst snd].
  split; [|split; [|split; [|split; [|split]]]].
  - open_check. unfold Py.bind, Validators.try_except.
    split_branches; unchanged.
  - open_check. unfold Py.bind, Validators.try_except.
    split_branches; unchanged.
  - open_check. unfold Py.bind, Validators.try_except.
    split_branches; unchanged.
  - open_check. unfold Py.bind, Validators.try_except.
    split_branches; unchanged.
  - open_check. unfold Py.bind, Validators.try_except.
    split_branches; cbn -[BaseTest.process_validation_result]; try discriminate.
    intros _. split.
    + eexists. rewrite metric_of_record_other by discriminate.
      apply metric_of_record.
    + apply metric_of_record.
  - open_check. unfold Py.bind, Validators.try_except.
    destruct (device (Config.show_bgp_evpn_summary (Config.commands cfg)))
      as [output|e]; [|cbn; discriminate].
    destruct (Py.contains "bgp is not running" (Py.lower output)
              || Py.contains "invalid command" (Py.lower output));
      [cbn; discriminate|].
    destruct (Utils.parse_bgp_neighbors output) as [|n ns] eqn:Ep;
      [cbn; discriminate|].
    pose proof (filter_length_bound Validators.is_established (n :: ns)) as Hb.
    destruct (Nat.eqb _ 0) eqn:E0; [cbn; discriminate|].
    destruct (Nat.ltb _ _) eqn:E1; [cbn; discriminate|].
    intros _. exists output. split; [reflexivity|].
    apply Nat.ltb_ge in E1.
    cbn -[BaseTest.process_validation_result List.filter length].
    rewrite metric_of_record, Ep. do 3 f_equal. lia.
Qed.
